(** * FTL: the dnsmasq configuration writer ([src/config/dnsmasq_config.c])

    A shallow embedding of the routines that render the resolver
    configuration, test it in a forked child, install it by [rename], map a
    parser diagnostic back to a line of the staged file and import the legacy
    flat files, followed by the properties proved about them.

    Conventions of the embedding:
    - a C string is a [string] without the terminating NUL; where the code
      indexes the terminator ([get_dnsmasq_line]) the read is modelled by
      [c_index], which yields NUL at the position [strlen];
    - [int] and [unsigned int] are [Z] with the wrap-around written out;
    - a [FILE*] opened for writing is the text written to it, given as the list
      of newline-terminated records the calls [fputs]/[fprintf] append;
    - results of system calls the code branches on ([fopen], [flock],
      [waitpid], [rename], [fclose], ...) are fields of an environment record. *)

From Stdlib Require Import String Ascii List ZArith Bool Lia.
From Stdlib Require Import Decimal DecimalPos DecimalN DecimalString.
Import ListNotations.
Local Open Scope list_scope.
Local Open Scope string_scope.

(* ================================================================= *)
(** ** The C library, as far as the file uses it *)

Module CLib.

Definition NUL : ascii := "000"%char.
Definition LF : ascii := "010"%char.

(** The string consisting of one newline character. *)
Definition nl : string := String LF EmptyString.

(** The double quote, for literals that contain one. *)
Definition dquote : string := String "034"%char EmptyString.

(** [isspace] in the C locale: space, and the range from TAB to CR. *)
Definition isspace (c : ascii) : bool :=
  let n := nat_of_ascii c in
  Nat.eqb n 32 || (Nat.leb 9 n && Nat.leb n 13).

Definition isdigit (c : ascii) : bool :=
  let n := nat_of_ascii c in
  Nat.leb 48 n && Nat.leb n 57.

Definition tolower (c : ascii) : ascii :=
  let n := nat_of_ascii c in
  if Nat.leb 65 n && Nat.leb n 90 then ascii_of_nat (n + 32) else c.

Fixpoint strlower (s : string) : string :=
  match s with
  | EmptyString => EmptyString
  | String c s' => String (tolower c) (strlower s')
  end.

(** [strcasecmp(a, b)], as far as it is compared with 0. *)
Definition strcasecmp (a b : string) : Z :=
  if String.eqb (strlower a) (strlower b) then 0%Z else 1%Z.

(** [strlen]: the text is stored without its terminator. *)
Definition strlen (s : string) : nat := String.length s.

(** [s[i]] for [i <= strlen s]: position [strlen s] holds the terminator. *)
Definition c_index (s : string) (i : nat) : ascii :=
  match String.get i s with
  | Some c => c
  | None => NUL
  end.

(** [s[i] = '\0'] for the buffer holding [s]: the C string ends at [i]; a
    write to the terminator itself changes nothing. *)
Definition c_truncate (s : string) (i : nat) : string :=
  String.substring 0 i s.

(** [strstr(haystack, needle)]: the suffix of [haystack] that starts at the
    first occurrence of [needle], [None] for NULL. *)
Fixpoint strstr (haystack needle : string) : option string :=
  match haystack with
  | EmptyString =>
      if String.prefix needle EmptyString then Some EmptyString else None
  | String _ rest =>
      if String.prefix needle haystack then Some haystack
      else strstr rest needle
  end.

(** [int] as a two's complement 32-bit value. *)
Definition to_int (z : Z) : Z :=
  ((z + 2147483648) mod 4294967296 - 2147483648)%Z.

(** [unsigned int]. *)
Definition to_uint (z : Z) : Z := (z mod 4294967296)%Z.

(** [long], as [strtol] delivers it: a number out of the range of a 64-bit
    [long] becomes LONG_MIN or LONG_MAX. *)
Definition saturate_long (z : Z) : Z :=
  Z.max (-9223372036854775808) (Z.min z 9223372036854775807).

(** *** [sscanf] for formats made of white space, literals and [%d] *)

Inductive directive : Type :=
| D_space
| D_lit (c : ascii)
| D_int.

(** The directives of a format string: a run of white space is one or more
    [D_space], [%d] is [D_int], anything else matches itself. *)
Fixpoint parse_format (fmt : string) : list directive :=
  match fmt with
  | EmptyString => []
  | String c rest =>
      if isspace c then D_space :: parse_format rest
      else if Ascii.eqb c "%"%char then
        match rest with
        | String d rest' =>
            if Ascii.eqb d "d"%char then D_int :: parse_format rest'
            else D_lit c :: parse_format rest
        | EmptyString => [D_lit c]
        end
      else D_lit c :: parse_format rest
  end.

Fixpoint skip_space (s : string) : string :=
  match s with
  | EmptyString => EmptyString
  | String c rest => if isspace c then skip_space rest else s
  end.

Definition digit_value (c : ascii) : Z := Z.of_nat (nat_of_ascii c - 48).

(** The longest run of decimal digits at the start of [s], read as a number
    on top of [acc]; [seen] records whether a digit was read. *)
Fixpoint scan_digits (s : string) (acc : Z) (seen : bool)
  : option (Z * string) :=
  match s with
  | String c rest =>
      if isdigit c then scan_digits rest (acc * 10 + digit_value c)%Z true
      else if seen then Some (acc, s) else None
  | EmptyString => if seen then Some (acc, s) else None
  end.

(** The conversion [%d]: white space is skipped, then an optional sign and at
    least one digit are read. *)
Definition scan_int (s : string) : option (Z * string) :=
  match skip_space s with
  | String c rest =>
      if Ascii.eqb c "-"%char then
        match scan_digits rest 0 false with
        | Some (n, r) => Some ((- n)%Z, r)
        | None => None
        end
      else if Ascii.eqb c "+"%char then scan_digits rest 0 false
      else scan_digits (String c rest) 0 false
  | EmptyString => None
  end.

(** The number a sequence of decimal digits denotes, on top of [acc]. *)
Fixpoint uint_value (d : Decimal.uint) (acc : Z) : Z :=
  match d with
  | Decimal.Nil => acc
  | Decimal.D0 d => uint_value d (acc * 10)
  | Decimal.D1 d => uint_value d (acc * 10 + 1)
  | Decimal.D2 d => uint_value d (acc * 10 + 2)
  | Decimal.D3 d => uint_value d (acc * 10 + 3)
  | Decimal.D4 d => uint_value d (acc * 10 + 4)
  | Decimal.D5 d => uint_value d (acc * 10 + 5)
  | Decimal.D6 d => uint_value d (acc * 10 + 6)
  | Decimal.D7 d => uint_value d (acc * 10 + 7)
  | Decimal.D8 d => uint_value d (acc * 10 + 8)
  | Decimal.D9 d => uint_value d (acc * 10 + 9)
  end%Z.

Definition EOF : Z := (-1)%Z.

(** What [sscanf] returns when it stops with [args] assigned: the number of
    assignments, or [EOF] when the input ended before the first one. *)
Definition stopped (args : list Z) (input_ended : bool) : Z * list Z :=
  match args with
  | [] => if input_ended then (EOF, args) else (0%Z, args)
  | _ => (Z.of_nat (List.length args), args)
  end.

(** [sscanf(input, fmt, ...)]: the return value and the values assigned, in
    order.  A directive that fails to match ends the scan; what was assigned
    before stays assigned and stays counted.  The C library converts the
    digits of [%d] with [strtol] and stores the [long] as an [int]. *)
Fixpoint sscanf_run (fmt : list directive) (input : string) (args : list Z)
  : Z * list Z :=
  match fmt with
  | [] => (Z.of_nat (List.length args), args)
  | D_space :: fmt' => sscanf_run fmt' (skip_space input) args
  | D_lit c :: fmt' =>
      match input with
      | String c' rest =>
          if Ascii.eqb c c' then sscanf_run fmt' rest args
          else stopped args false
      | EmptyString => stopped args true
      end
  | D_int :: fmt' =>
      match scan_int input with
      | Some (n, rest) =>
          sscanf_run fmt' rest (args ++ [to_int (saturate_long n)])
      | None =>
          stopped args
            (match skip_space input with EmptyString => true | _ => false end)
      end
  end.

Definition sscanf (input fmt : string) : Z * list Z :=
  sscanf_run (parse_format fmt) input [].

(** *** Text files read with [getline] *)

(** The buffers successive calls of [getline] return until it reports the end
    of the file: each line with its newline, the last one without when the
    file does not end in one. *)
Fixpoint getlines (content : string) : list string :=
  match content with
  | EmptyString => []
  | String c rest =>
      if Ascii.eqb c LF then nl :: getlines rest
      else
        match getlines rest with
        | [] => [String c EmptyString]
        | l :: ls => String c l :: ls
        end
  end.

(** The lines of a text, without their newlines. *)
Fixpoint lines (content : string) : list string :=
  match content with
  | EmptyString => []
  | String c rest =>
      if Ascii.eqb c LF then EmptyString :: lines rest
      else
        match lines rest with
        | [] => [String c EmptyString]
        | l :: ls => String c l :: ls
        end
  end.

(** The text made of the records [rs], each followed by a newline. *)
Fixpoint unlines (rs : list string) : string :=
  match rs with
  | [] => EmptyString
  | r :: rs' => r ++ nl ++ unlines rs'
  end.

(** No newline occurs in [s]. *)
Fixpoint single_line (s : string) : bool :=
  match s with
  | EmptyString => true
  | String c rest => negb (Ascii.eqb c LF) && single_line rest
  end.

(** [%u]: the decimal digits of a non-negative number. *)
Definition print_unsigned (z : Z) : string :=
  NilEmpty.string_of_uint (N.to_uint (Z.to_N z)).

(** [%d], and [%+d] when [plus] is set: a number in decimal, a negative one
    after a minus sign, another one after a plus sign if asked for. *)
Definition print_signed (plus : bool) (z : Z) : string :=
  if (z <? 0)%Z then "-" ++ print_unsigned (- z)
  else if plus then "+" ++ print_unsigned z
  else print_unsigned z.

End CLib.
Import CLib.

(* ================================================================= *)
(** ** [<sys/wait.h>]: reading a wait status (glibc, Linux) *)

Module Wait.

Definition WEXITSTATUS (status : Z) : Z :=
  Z.shiftr (Z.land status 65280) 8.

Definition WTERMSIG (status : Z) : Z := Z.land status 127.

(** [(signed char) x] for [0 <= x < 256]. *)
Definition to_schar (x : Z) : Z :=
  (if x <? 128 then x else x - 256)%Z.

(** [((signed char) ((status & 0x7f) + 1) >> 1) > 0] *)
Definition WIFSIGNALED (status : Z) : bool :=
  (0 <? Z.shiftr (to_schar (Z.land status 127 + 1)) 1)%Z.

Definition WCOREDUMP (status : Z) : bool :=
  negb (Z.land status 128 =? 0)%Z.

Definition EXIT_SUCCESS : Z := 0%Z.

End Wait.
Import Wait.

(* ================================================================= *)
(** ** cJSON values, as far as the writer and the importer inspect them *)

Module CJSON.

(** An item by its type tag; of the payloads only the one the code reads,
    the text of a string, is kept. *)
Inductive cJSON : Type :=
| cJSON_False
| cJSON_True
| cJSON_NULL
| cJSON_Number (valueint : Z)
| cJSON_String (text : string)
| cJSON_Array
| cJSON_Object
| cJSON_Raw.

(** [item->valuestring]; the code reads it from string items only. *)
Definition valuestring (item : cJSON) : string :=
  match item with
  | cJSON_String s => s
  | _ => EmptyString
  end.

(** A JSON array held by the configuration: the list of its items (the empty
    list also stands for a NULL array, whose size is 0). *)
Definition json_array : Type := list cJSON.

Definition cJSON_GetArraySize (array : json_array) : Z :=
  Z.of_nat (List.length array).

(** [None] is the NULL pointer returned for an index out of range. *)
Definition cJSON_GetArrayItem (array : json_array) (index : Z)
  : option cJSON :=
  if (index <? 0)%Z then None else List.nth_error array (Z.to_nat index).

Definition cJSON_IsString (item : cJSON) : bool :=
  match item with
  | cJSON_String _ => true
  | _ => false
  end.

Definition cJSON_CreateString (s : string) : cJSON := cJSON_String s.

Definition cJSON_AddItemToArray (array : json_array) (item : cJSON)
  : json_array :=
  (array ++ [item])%list.

End CJSON.
Import CJSON.

(* ================================================================= *)
(** ** The configuration model ([struct config], the fields read here) *)

Inductive listening_mode_t : Type :=
| LISTEN_LOCAL
| LISTEN_ALL
| LISTEN_SINGLE
| LISTEN_BIND.

(** [conf->dnsmasq.rev_server] *)
Record rev_server_t : Type := {
  rev_active : bool;
  rev_cidr : string;
  rev_target : string;
  rev_domain : string
}.

(** [conf->dnsmasq.dhcp] *)
Record dhcp_t : Type := {
  dhcp_active : bool;
  dhcp_start : string;
  dhcp_end : string;
  dhcp_leasetime : string;
  dhcp_router : string;
  dhcp_rapid_commit : bool;
  dhcp_ipv6 : bool;
  dhcp_hosts : json_array
}.

(** [conf->dnsmasq] *)
Record dnsmasq_t : Type := {
  port : Z;
  upstreams : json_array;
  cache_size : Z;
  logging : bool;
  bogus_priv : bool;
  domain_needed : bool;
  expand_hosts : bool;
  dnssec : bool;
  domain : string;
  host_record : string;
  interface : string;
  listening_mode : listening_mode_t;
  rev_server : rev_server_t;
  dhcp : dhcp_t;
  cnames : json_array
}.

Record config : Type := {
  dnsmasq : dnsmasq_t;
  (** [conf->files.log.dnsmasq] *)
  files_log_dnsmasq : string
}.

Definition set_logging (b : bool) (conf : config) : config :=
  let d := dnsmasq conf in
  {| dnsmasq :=
       {| port := port d; upstreams := upstreams d;
          cache_size := cache_size d; logging := b;
          bogus_priv := bogus_priv d; domain_needed := domain_needed d;
          expand_hosts := expand_hosts d; dnssec := dnssec d;
          domain := domain d; host_record := host_record d;
          interface := interface d; listening_mode := listening_mode d;
          rev_server := rev_server d; dhcp := dhcp d; cnames := cnames d |};
     files_log_dnsmasq := files_log_dnsmasq conf |}.

Definition set_dhcp_hosts (hosts : json_array) (conf : config) : config :=
  let d := dnsmasq conf in
  let h := dhcp d in
  {| dnsmasq :=
       {| port := port d; upstreams := upstreams d;
          cache_size := cache_size d; logging := logging d;
          bogus_priv := bogus_priv d; domain_needed := domain_needed d;
          expand_hosts := expand_hosts d; dnssec := dnssec d;
          domain := domain d; host_record := host_record d;
          interface := interface d; listening_mode := listening_mode d;
          rev_server := rev_server d;
          dhcp :=
            {| dhcp_active := dhcp_active h; dhcp_start := dhcp_start h;
               dhcp_end := dhcp_end h; dhcp_leasetime := dhcp_leasetime h;
               dhcp_router := dhcp_router h;
               dhcp_rapid_commit := dhcp_rapid_commit h;
               dhcp_ipv6 := dhcp_ipv6 h; dhcp_hosts := hosts |};
          cnames := cnames d |};
     files_log_dnsmasq := files_log_dnsmasq conf |}.

Definition set_cnames (names : json_array) (conf : config) : config :=
  let d := dnsmasq conf in
  {| dnsmasq :=
       {| port := port d; upstreams := upstreams d;
          cache_size := cache_size d; logging := logging d;
          bogus_priv := bogus_priv d; domain_needed := domain_needed d;
          expand_hosts := expand_hosts d; dnssec := dnssec d;
          domain := domain d; host_record := host_record d;
          interface := interface d; listening_mode := listening_mode d;
          rev_server := rev_server d; dhcp := dhcp d; cnames := names |};
     files_log_dnsmasq := files_log_dnsmasq conf |}.

(* ================================================================= *)
(** ** What the routines observe of the system, and what they leave behind *)

Inductive log_level : Type := LOG_ERR | LOG_WARN | LOG_INFO.

(** One step a routine takes that is visible outside it: a message of
    [log_err], [log_warn] or [log_info] (by its format string; debug messages
    are left out), or a system call that acts on a file or a process. *)
Inductive event : Type :=
| Log (level : log_level) (fmt : string)
| Sys (call : string).

(** The files the writer touches: [None] is a path that does not exist. *)
Record files : Type := {
  temp_conf : option string;   (** at DNSMASQ_TEMP_CONF, the staged file *)
  ph_config : option string    (** at DNSMASQ_PH_CONFIG, the live file *)
}.

Record environment : Type := {
  (** the macro of [dnsmasq_config.h] spliced into the [addn-hosts] line *)
  DNSMASQ_CUSTOM_LIST : string;
  (** what [get_timestr(timestring, time(NULL), false)] writes *)
  timestring : string;
  (** [directory_exists("/etc/dnsmasq.d")] *)
  dnsmasq_d_exists : bool;
  (** [fopen(DNSMASQ_TEMP_CONF, "w")] returns a stream *)
  fopen_ok : bool;
  (** [flock(.., LOCK_EX)] and [flock(.., LOCK_UN)] *)
  flock_ex_rc : Z;
  flock_un_rc : Z;
  (** [pipe(pipefd)] *)
  pipe_rc : Z;
  (** the status [waitpid] stores for the child that parsed a staged text *)
  child_status : string -> Z;
  (** [rename(DNSMASQ_TEMP_CONF, DNSMASQ_PH_CONFIG)] *)
  rename_rc : Z;
  (** [fclose(pihole_conf)] *)
  fclose_rc : Z
}.

(* ================================================================= *)
(** ** [test_dnsmasq_config] *)

(** The parent's side of the fork.  The child never returns from the option
    parser; what it wrote to the pipe only fills [errbuf] and the debug log,
    neither of which the verdict reads, so the buffer is not part of the
    model. *)
Definition test_dnsmasq_config (pipe_rc status : Z) : bool * list event :=
  if negb (pipe_rc =? 0)%Z then
    (false,
     [Sys "pipe";
      Log LOG_ERR "Cannot create pipe while testing new dnsmasq config: %s"])
  else
    let code := WEXITSTATUS status in
    let crashed := WIFSIGNALED status in
    ((code =? EXIT_SUCCESS)%Z && negb crashed,
     ([Sys "pipe"; Sys "fork"; Sys "waitpid"]
        ++ (if crashed
            then [Log LOG_ERR "dnsmasq test failed with signal %d %s"]
            else []))%list).

(* ================================================================= *)
(** ** [get_lineno_from_string] and [get_dnsmasq_line] *)

Definition get_lineno_from_string (s : string) : Z :=
  let lineno := (-1)%Z in
  match strstr s " at line " with
  | None => (-1)%Z
  | Some ptr =>
      let '(assigned, args) := sscanf ptr " at line %d of " in
      if (assigned =? 1)%Z then List.nth 0 args lineno else (-1)%Z
  end.

(** The loop over the lines [getline] delivers, [count] being the number of
    the line in [linebuffer]. *)
Fixpoint get_dnsmasq_line_loop (buffers : list string) (count lineno : Z)
  : option string :=
  match buffers with
  | [] => None
  | linebuffer :: rest =>
      if (count =? lineno)%Z then
        if Ascii.eqb (c_index linebuffer (strlen linebuffer)) LF
        then Some (c_truncate linebuffer (strlen linebuffer))
        else Some linebuffer
      else get_dnsmasq_line_loop rest (to_uint (count + 1)) lineno
  end.

(** [staged] is the content of the staged file, [None] when it cannot be
    opened for reading; the result [None] is NULL. *)
Definition get_dnsmasq_line (staged : option string) (lineno : Z)
  : option string :=
  match staged with
  | None => None
  | Some content => get_dnsmasq_line_loop (getlines content) 1 lineno
  end.

(* ================================================================= *)
(** ** The renderer

    Every [fputs] and [fprintf] of the writer appends text that ends in a
    newline, so the text written is given as the list of its newline-terminated
    records, in the order of the calls: [fputs("x\n", fp)] contributes the
    record ["x"], [fprintf(fp, "k=%s\n", v)] the record ["k=" ++ v].  The bytes
    of the file are [unlines] of the records.  A block of calls is a list of
    records; [blocks] puts blocks one after the other. *)

Definition blocks (bs : list (list string)) : list string := List.concat bs.

(** [if(c) { ... }] without an [else]. *)
Definition when (c : bool) (block : list string) : list string :=
  if c then block else [].

Definition write_config_header (env : environment) : list string :=
  [ "# Pi-hole: A black hole for Internet advertisements";
    "# (c) 2023 Pi-hole, LLC (https://pi-hole.net)";
    "# Network-wide ad blocking via your own hardware.";
    "#";
    "# Dnsmasq config for Pi-hole's FTLDNS";
    "#";
    "# This file is copyright under the latest version of the EUPL.";
    "# Please see LICENSE file for your rights under this license.";
    "";
    "###############################################################################";
    "#                  FILE AUTOMATICALLY POPULATED BY PI-HOLE                    #";
    "#  ANY CHANGES MADE TO THIS FILE WILL BE LOST WHEN THE CONFIGURATION CHANGES  #";
    "#                                                                             #";
    "#        IF YOU WISH TO CHANGE THE UPSTREAM SERVERS, CHANGE THEM IN:          #";
    "#                      /etc/pihole/pihole-FTL.toml                            #";
    "#                         and restart pihole-FTL                              #";
    "#                                                                             #";
    "#                                                                             #";
    "#        ANY OTHER CHANGES SHOULD BE MADE IN A SEPARATE CONFIG FILE           #";
    "#                    WITHIN /etc/dnsmasq.d/yourname.conf                      #";
    "#                                                                             #";
    "#                      Last update: " ++ timestring env
      ++ "                       #";
    "###############################################################################";
    "" ].

(** The three loops over a JSON array: [i] runs from its start value for
    [todo] more rounds, and an item that is a string contributes the record
    [key ++ item->valuestring]. *)
Fixpoint array_loop (key : string) (array : json_array) (i : Z) (todo : nat)
  : list string :=
  match todo with
  | O => []
  | S todo' =>
      blocks
        [ match cJSON_GetArrayItem array i with
          | Some server =>
              when (cJSON_IsString server) [ key ++ valuestring server ]
          | None => []
          end;
          array_loop key array (i + 1) todo' ]
  end.

(** [for(int i = 0; i < n; i++)] with [n = cJSON_GetArraySize(array)] *)
Definition write_array (key : string) (array : json_array) : list string :=
  let n := cJSON_GetArraySize array in
  array_loop key array 0 (Z.to_nat n).

Definition static_section (env : environment) (conf : config) : list string :=
  [ "addn-hosts=/etc/pihole/local.list";
    "addn-hosts=" ++ DNSMASQ_CUSTOM_LIST env;
    "";
    "# Don't read /etc/resolv.conf. Get upstream servers only from the configuration";
    "no-resolv";
    "";
    "# DNS port to be used";
    "port=" ++ print_unsigned (port (dnsmasq conf)) ].

Definition upstream_section (conf : config) : list string :=
  when (0 <? cJSON_GetArraySize (upstreams (dnsmasq conf)))%Z
    (blocks
       [ [ "# List of upstream DNS server" ];
         write_array "server=" (upstreams (dnsmasq conf));
         [ "" ] ]).

Definition cache_section (conf : config) : list string :=
  [ "# Set the size of dnsmasq's cache. The default is 150 names. Setting the cache";
    "# size to zero disables caching. Note: huge cache size impacts performance";
    "cache-size=" ++ print_unsigned (cache_size (dnsmasq conf));
    "";
    "# Return answers to DNS queries from /etc/hosts and interface-name and";
    "# dynamic-host which depend on the interface over which the query was";
    "# received. If a name has more than one address associated with it, and";
    "# at least one of those addresses is on the same subnet as the interface";
    "# to which the query was sent, then return only the address(es) on that";
    "# subnet and return all the available addresses otherwise.";
    "localise-queries";
    "" ].

Definition logging_section (conf : config) : list string :=
  if logging (dnsmasq conf) then
    [ "# Enable query logging";
      "log-queries";
      "log-async" ]
  else
    [ "# Disable query logging";
      "#log-queries";
      "#log-async" ].

Definition log_facility_section (conf : config) : list string :=
  when (0 <? strlen (files_log_dnsmasq conf))%nat
    [ "# Specify the log file to use";
      "# We set this even if logging is disabled to store warnings";
      "# and errors in this file. This is useful for debugging.";
      "log-facility=" ++ files_log_dnsmasq conf;
      "" ].

Definition flags_section (conf : config) : list string :=
  blocks
    [ when (bogus_priv (dnsmasq conf))
        [ "# Bogus private reverse lookups. All reverse lookups for private IP";
          "# ranges (ie 192.168.x.x, etc) which are not found in /etc/hosts or the";
          "# DHCP leases file are answered with NXDOMAIN rather than being forwarded";
          "bogus-priv";
          "" ];
      when (domain_needed (dnsmasq conf))
        [ "# Add the domain to simple names (without a period) in /etc/hosts in";
          "# the same way as for DHCP-derived names";
          "domain-needed";
          "" ];
      when (expand_hosts (dnsmasq conf))
        [ "# Never forward A or AAAA queries for plain names, without dots or";
          "# domain parts, to upstream nameservers";
          "expand-hosts";
          "" ];
      when (dnssec (dnsmasq conf))
        [ "# Use DNNSEC";
          "dnssec";
          "# 2017-02-02 root zone trust anchor";
          "trust-anchor=.,20326,8,2,E06D44B80B8F1D39A95C0B0D7C65D08458E880409BBC683457104237C7F8EC8D";
          "" ] ].

Definition domain_section (conf : config) : list string :=
  when ((0 <? strlen (domain (dnsmasq conf)))%nat
        && negb (strcasecmp "none" (domain (dnsmasq conf)) =? 0)%Z)
    (blocks
       [ [ "# DNS domain for the DNS server";
           "domain=" ++ domain (dnsmasq conf);
           "" ];
         when (domain_needed (dnsmasq conf))
           [ "# Never forward A or AAAA queries for plain names, without";
             "# dots or domain parts, to upstream nameservers. If the name";
             "# is not known from /etc/hosts or DHCP a NXDOMAIN is returned";
             "local=/" ++ domain (dnsmasq conf) ++ "/";
             "" ] ]).

Definition host_record_section (conf : config) : list string :=
  when (0 <? strlen (host_record (dnsmasq conf)))%nat
    [ "# Add A, AAAA and PTR records to the DNS";
      "host-record=" ++ host_record (dnsmasq conf) ].

(** [interface]: the configured name, ["eth0"] when it is empty. *)
Definition fallback_interface (conf : config) : string :=
  if (strlen (interface (dnsmasq conf)) =? 0)%nat then "eth0"
  else interface (dnsmasq conf).

Definition listening_section (conf : config) : list string :=
  let interface := fallback_interface conf in
  blocks
    [ match listening_mode (dnsmasq conf) with
      | LISTEN_LOCAL =>
          [ "# Only respond to queries from devices that are at most one hop away (local devices)";
            "local-service" ]
      | LISTEN_ALL =>
          [ "# Listen on all interfaces, permit all origins";
            "except-interface=nonexisting" ]
      | LISTEN_SINGLE =>
          [ "# Listen on one interface";
            "interface=" ++ interface ]
      | LISTEN_BIND =>
          [ "# Bind to one interface";
            "interface=" ++ interface;
            "bind-interfaces" ]
      end;
      [ "" ] ].

Definition rev_server_section (conf : config) : list string :=
  let rev := rev_server (dnsmasq conf) in
  when (rev_active rev)
    (blocks
       [ [ "# Reverse server setting";
           "rev-server=" ++ rev_cidr rev ++ "," ++ rev_target rev ];
         when (0 <? strlen (rev_domain rev))%nat
           [ "server=/" ++ rev_domain rev ++ "/" ++ rev_target rev ];
         when (negb (domain_needed (dnsmasq conf)))
           [ "server=//" ++ rev_target rev ];
         [ "" ] ]).

Definition dhcp_section (conf : config) : list string :=
  let d := dhcp (dnsmasq conf) in
  let interface := fallback_interface conf in
  when (dhcp_active d)
    (blocks
       [ [ "# DHCP server setting";
           "dhcp-authoritative";
           "dhcp-leasefile=/etc/pihole/dhcp.leases";
           "dhcp-range=" ++ dhcp_start d ++ "," ++ dhcp_end d ++ ","
             ++ dhcp_leasetime d;
           "dhcp-option=option:router," ++ dhcp_router d ];
         when (dhcp_rapid_commit d) [ "dhcp-rapid-commit" ];
         when (dhcp_ipv6 d)
           [ "dhcp-option=option6:dns-server,[::]";
             "dhcp-range=::,constructor:" ++ interface
               ++ ",ra-names,ra-stateless,64" ];
         [ "" ];
         when (0 <? cJSON_GetArraySize (dhcp_hosts d))%Z
           (blocks
              [ [ "# Per host parameters for the DHCP server" ];
                write_array "dhcp-host=" (dhcp_hosts d);
                [ "" ] ]) ]).

Definition cnames_section (conf : config) : list string :=
  when (0 <? cJSON_GetArraySize (cnames (dnsmasq conf)))%Z
    (blocks
       [ [ "# User-defined custom CNAMEs" ];
         write_array "cname=" (cnames (dnsmasq conf));
         [ "" ] ]).

Definition rfc6761_section : list string :=
  [ "# RFC 6761: Caching DNS servers SHOULD recognize";
    "#     test, localhost, invalid";
    "# names as special and SHOULD NOT attempt to look up NS records for them, or";
    "# otherwise query authoritative DNS servers in an attempt to resolve these";
    "# names.";
    "server=/test/";
    "server=/localhost/";
    "server=/invalid/";
    "";
    "# The same RFC requests something similar for";
    "#     10.in-addr.arpa.      21.172.in-addr.arpa.  27.172.in-addr.arpa.";
    "#     16.172.in-addr.arpa.  22.172.in-addr.arpa.  28.172.in-addr.arpa.";
    "#     17.172.in-addr.arpa.  23.172.in-addr.arpa.  29.172.in-addr.arpa.";
    "#     18.172.in-addr.arpa.  24.172.in-addr.arpa.  30.172.in-addr.arpa.";
    "#     19.172.in-addr.arpa.  25.172.in-addr.arpa.  31.172.in-addr.arpa.";
    "#     20.172.in-addr.arpa.  26.172.in-addr.arpa.  168.192.in-addr.arpa.";
    "# Pi-hole implements this via the dnsmasq option " ++ dquote
      ++ "bogus-priv" ++ dquote ++ " above";
    "# (if enabled!) as this option also covers IPv6.";
    "";
    "# OpenWRT furthermore blocks    bind, local, onion    domains";
    "# see https://git.openwrt.org/?p=openwrt/openwrt.git;a=blob_plain;f=package/network/services/dnsmasq/files/rfc6761.conf;hb=HEAD";
    "# and https://www.iana.org/assignments/special-use-domain-names/special-use-domain-names.xhtml";
    "# We do not include the " ++ dquote ++ ".local" ++ dquote
      ++ " rule ourselves, see https://github.com/pi-hole/pi-hole/pull/4282#discussion_r689112972";
    "server=/bind/";
    "server=/onion/" ].

Definition conf_dir_section (env : environment) : list string :=
  when (dnsmasq_d_exists env)
    [ "# Load possible additional user scripts";
      "conf-dir=/etc/dnsmasq.d";
      "" ].

(** Everything written between the two [flock] calls, in order. *)
Definition config_records (env : environment) (conf : config) : list string :=
  blocks
    [ write_config_header env;
      static_section env conf;
      upstream_section conf;
      cache_section conf;
      logging_section conf;
      log_facility_section conf;
      flags_section conf;
      domain_section conf;
      host_record_section conf;
      listening_section conf;
      rev_server_section conf;
      dhcp_section conf;
      cnames_section conf;
      rfc6761_section;
      conf_dir_section env ].

(** The bytes of the staged file once the stream is flushed. *)
Definition config_text (env : environment) (conf : config) : string :=
  unlines (config_records env conf).

(* ================================================================= *)
(** ** Vocabulary for statements about the rendered text *)

(** The texts of the string items of an array, in order. *)
Definition string_items (array : json_array) : list string :=
  List.flat_map
    (fun item =>
       match item with
       | cJSON_String s => [s]
       | _ => []
       end)
    array.

(** The number of string-valued elements of an array. *)
Definition count_strings (array : json_array) : nat :=
  List.length (List.filter cJSON_IsString array).

Definition single_line_items (array : json_array) : bool :=
  List.forallb single_line (string_items array).

(** No string the writer splices into the text holds a newline. *)
Definition single_line_config (env : environment) (conf : config) : bool :=
  let d := dnsmasq conf in
  single_line (DNSMASQ_CUSTOM_LIST env)
  && single_line (timestring env)
  && single_line (files_log_dnsmasq conf)
  && single_line (domain d)
  && single_line (host_record d)
  && single_line (interface d)
  && single_line (rev_cidr (rev_server d))
  && single_line (rev_target (rev_server d))
  && single_line (rev_domain (rev_server d))
  && single_line (dhcp_start (dhcp d))
  && single_line (dhcp_end (dhcp d))
  && single_line (dhcp_leasetime (dhcp d))
  && single_line (dhcp_router (dhcp d))
  && single_line_items (upstreams d)
  && single_line_items (dhcp_hosts (dhcp d))
  && single_line_items (cnames d).

(** A line that is a [server=] directive. *)
Definition is_server_line (line : string) : bool :=
  String.prefix "server=" line.

(** A line that is a [dhcp-host=] directive. *)
Definition is_dhcp_host_line (line : string) : bool :=
  String.prefix "dhcp-host=" line.

(** A line that is a [cname=] directive. *)
Definition is_cname_line (line : string) : bool :=
  String.prefix "cname=" line.

(** A line that is one of the directives by which a listening mode is
    rendered: [local-service], [except-interface=...], [interface=...] or
    [bind-interfaces]. *)
Definition is_listening_line (line : string) : bool :=
  String.eqb line "local-service"
  || String.prefix "except-interface=" line
  || String.prefix "interface=" line
  || String.eqb line "bind-interfaces".

(** The [server=] lines the writer emits for a domain rather than for an
    upstream server: the two of the reverse-server block and the five fixed
    ones. *)
Definition domain_server_lines (conf : config) : list string :=
  let rev := rev_server (dnsmasq conf) in
  List.concat
    [ if rev_active rev then
        List.concat
          [ if (0 <? strlen (rev_domain rev))%nat
            then [ "server=/" ++ rev_domain rev ++ "/" ++ rev_target rev ]
            else [];
            if domain_needed (dnsmasq conf)
            then []
            else [ "server=//" ++ rev_target rev ] ]
      else [];
      [ "server=/test/"; "server=/localhost/"; "server=/invalid/";
        "server=/bind/"; "server=/onion/" ] ].

(* ================================================================= *)
(** ** [write_dnsmasq_config] *)

Record outcome : Type := {
  result : bool;          (** the value returned *)
  after : files;          (** the files when the routine returns *)
  trace : list event      (** what it did, in order *)
}.

(** The writer discards what [fputs], [fprintf] and [fflush] return, and so
    does the model: it has no path on which a write fails, and the staged
    file holds the text rendered as soon as it is flushed. *)
Definition write_dnsmasq_config
  (env : environment) (conf : config) (test_config : bool) (fs : files)
  : outcome :=
  if negb (fopen_ok env) then
    {| result := false;
       after := fs;
       trace :=
         [ Sys "fopen";
           Log LOG_ERR "Cannot open DNSMASQ_TEMP_CONF for writing, unable to update dnsmasq configuration: %s" ] |}
  else
    (* opening with mode "w" creates the staged file or truncates it *)
    let opened := {| temp_conf := Some EmptyString; ph_config := ph_config fs |} in
    if negb (flock_ex_rc env =? 0)%Z then
      {| result := false;
         after := opened;
         trace :=
           [ Sys "fopen"; Sys "flock";
             Log LOG_ERR "Cannot open DNSMASQ_TEMP_CONF in exclusive mode: %s";
             Sys "fclose" ] |}
    else
      let text := config_text env conf in
      (* fflush: the rendered text is in the staged file *)
      let staged := {| temp_conf := Some text; ph_config := ph_config fs |} in
      if negb (flock_un_rc env =? 0)%Z then
        {| result := false;
           after := staged;
           trace :=
             [ Sys "fopen"; Sys "flock"; Sys "fflush"; Sys "flock";
               Log LOG_ERR "Cannot release lock on dnsmasq config file: %s";
               Sys "fclose" ] |}
      else
        let written := [ Sys "fopen"; Sys "flock"; Sys "fflush"; Sys "flock" ] in
        (* test_config && !test_dnsmasq_config(errbuf): the test runs only
           when it is asked for *)
        let '(valid, tested) :=
          if test_config
          then test_dnsmasq_config (pipe_rc env) (child_status env text)
          else (true, []) in
        if test_config && negb valid then
          {| result := false;
             after := staged;
             trace :=
               List.concat
                 [ written; tested;
                   [ Log LOG_WARN "New dnsmasq configuration is not valid (%s), config remains unchanged" ] ] |}
        else if negb (rename_rc env =? 0)%Z then
          {| result := false;
             after := staged;
             trace :=
               List.concat
                 [ written; tested;
                   [ Sys "rename";
                     Log LOG_ERR "Cannot install dnsmasq config file: %s" ] ] |}
        else
          (* the staged file is now the live file *)
          let installed := {| temp_conf := None; ph_config := Some text |} in
          if negb (fclose_rc env =? 0)%Z then
            {| result := false;
               after := installed;
               trace :=
                 List.concat
                   [ written; tested;
                     [ Sys "rename"; Sys "fclose";
                       Log LOG_ERR "Cannot close dnsmasq config file: %s" ] ] |}
          else
            {| result := true;
               after := installed;
               trace :=
                 List.concat
                   [ written; tested; [ Sys "rename"; Sys "fclose" ] ] |}.

(** The verdict on the text the writer staged. *)
Definition staged_config_valid (env : environment) (conf : config) : bool :=
  fst (test_dnsmasq_config (pipe_rc env)
         (child_status env (config_text env conf))).

(* ================================================================= *)
(** ** The importers of the legacy files *)

(** Modelled from the spec: [find_equals] of [setupVars.h] is not part of this
    file.  The importer takes "the substring after the first [=]":
    [find_equals s] is the pointer to the first [=] of [s], given as the
    suffix of [s] that starts there (the empty suffix when there is none). *)
Fixpoint find_equals (s : string) : string :=
  match s with
  | EmptyString => EmptyString
  | String c rest => if Ascii.eqb c "="%char then s else find_equals rest
  end.

(** [c] occurs in [s]. *)
Fixpoint occurs_char (c : ascii) (s : string) : bool :=
  match s with
  | EmptyString => false
  | String x rest => Ascii.eqb x c || occurs_char c rest
  end.

(** [s] is white space throughout. *)
Fixpoint all_space (s : string) : bool :=
  match s with
  | EmptyString => true
  | String c rest => isspace c && all_space rest
  end.

(** The first character of a string, NUL when there is none. *)
Definition first_char (s : string) : ascii := c_index s 0.

(** The last character of a string, NUL when there is none. *)
Fixpoint last_char (s : string) : ascii :=
  match s with
  | EmptyString => NUL
  | String c EmptyString => c
  | String _ rest => last_char rest
  end.

(** [p + 1] for a pointer into a string. *)
Definition next_char (p : string) : string :=
  match p with
  | EmptyString => EmptyString
  | String _ rest => rest
  end.

Fixpoint trim_trailing (s : string) : string :=
  match s with
  | EmptyString => EmptyString
  | String c rest =>
      match trim_trailing rest with
      | EmptyString => if isspace c then EmptyString else String c EmptyString
      | kept => String c kept
      end
  end.

(** Modelled from the spec: [trim_whitespace] of [setupVars.h] is not part of
    this file.  It is to "trim leading/trailing whitespace in place": the
    string without the white space at its start and at its end. *)
Definition trim_whitespace (s : string) : string :=
  trim_trailing (skip_space s).

(** The legacy file and its backup; [None] is a path that does not exist. *)
Record legacy_files : Type := {
  legacy_path : option string;
  backup_path : option string
}.

Record legacy_environment : Type := {
  (** [fopen(path, "r")] returns a stream *)
  legacy_fopen_ok : bool;
  (** [fclose(fp)] *)
  legacy_fclose_rc : Z;
  (** [rename(path, target)] *)
  legacy_rename_rc : Z
}.

Record legacy_outcome : Type := {
  imported : bool;                 (** the value returned *)
  config_after : config;           (** the global [config] on return *)
  legacy_after : legacy_files;
  legacy_trace : list event
}.

(** The body of [while(getline(&linebuffer, &size, fp) != -1)], over the
    buffers [getline] delivers; [array] is the list entries are added to.
    ([linebuffer] is not NULL after a successful [getline].) *)
Fixpoint legacy_loop (marker : string) (buffers : list string)
  (array : json_array) : json_array :=
  match buffers with
  | [] => array
  | linebuffer :: rest =>
      match strstr linebuffer marker with
      | None => legacy_loop marker rest array
      | Some _ =>
          let value := next_char (find_equals linebuffer) in
          let value := trim_whitespace value in
          let item := cJSON_CreateString value in
          legacy_loop marker rest (cJSON_AddItemToArray array item)
      end
  end.

(** [strstr(line, marker) != NULL] *)
Definition contains (marker line : string) : bool :=
  match strstr line marker with
  | Some _ => true
  | None => false
  end.

(** The entry the loop makes of a line it does not skip. *)
Definition legacy_entry (line : string) : cJSON :=
  cJSON_CreateString (trim_whitespace (next_char (find_equals line))).

(** The code the two importers share, up to the key searched for, the list
    filled and the wording of one message. *)
Definition read_legacy_config
  (marker open_error : string)
  (get : config -> json_array) (set : json_array -> config -> config)
  (env : legacy_environment) (fs : legacy_files) (conf : config)
  : legacy_outcome :=
  match legacy_path fs with
  | None =>
      (* !file_exists(path) *)
      {| imported := true; config_after := conf; legacy_after := fs;
         legacy_trace := [] |}
  | Some content =>
      if negb (legacy_fopen_ok env) then
        {| imported := false; config_after := conf; legacy_after := fs;
           legacy_trace := [ Sys "fopen"; Log LOG_ERR open_error ] |}
      else
        let conf' := set (legacy_loop marker (getlines content) (get conf)) conf in
        if negb (legacy_fclose_rc env =? 0)%Z then
          {| imported := false; config_after := conf'; legacy_after := fs;
             legacy_trace :=
               [ Sys "fopen"; Sys "fclose"; Log LOG_ERR "Cannot close %s: %s" ] |}
        else if negb (legacy_rename_rc env =? 0)%Z then
          {| imported := true; config_after := conf'; legacy_after := fs;
             legacy_trace :=
               [ Sys "fopen"; Sys "fclose"; Log LOG_INFO "Moving %s to %s";
                 Sys "rename";
                 Log LOG_WARN "Unable to move %s to %s: %s" ] |}
        else
          {| imported := true; config_after := conf';
             legacy_after :=
               {| legacy_path := None; backup_path := Some content |};
             legacy_trace :=
               [ Sys "fopen"; Sys "fclose"; Log LOG_INFO "Moving %s to %s";
                 Sys "rename" ] |}
  end.

(** [fs] holds DNSMASQ_STATIC_LEASES and its [.bck]. *)
Definition read_legacy_dhcp_static_config :
  legacy_environment -> legacy_files -> config -> legacy_outcome :=
  read_legacy_config "dhcp-host="
    "Cannot read %s for reading, unable to import static leases: %s"
    (fun conf => dhcp_hosts (dhcp (dnsmasq conf))) set_dhcp_hosts.

(** [fs] holds DNSMASQ_CNAMES and its [.bck]. *)
Definition read_legacy_cnames_config :
  legacy_environment -> legacy_files -> config -> legacy_outcome :=
  read_legacy_config "cname="
    "Cannot read %s for reading, unable to import list of custom cnames: %s"
    (fun conf => cnames (dnsmasq conf)) set_cnames.


(* ================================================================= *)
(** ** Sample values, for the statements about particular runs *)

Definition sample_environment : environment :=
  {| DNSMASQ_CUSTOM_LIST := "/etc/pihole/custom.list";
     timestring := "2023-01-01 12:00:00.000";
     dnsmasq_d_exists := true;
     fopen_ok := true;
     flock_ex_rc := 0;
     flock_un_rc := 0;
     pipe_rc := 0;
     (* the child exits with code 1: the parser rejects the text *)
     child_status := fun _ => 256%Z;
     rename_rc := 0;
     fclose_rc := 0 |}.

Definition sample_config : config :=
  {| dnsmasq :=
       {| port := 53;
          upstreams :=
            [ cJSON_String "8.8.8.8"; cJSON_Number 5; cJSON_String "8.8.4.4" ];
          cache_size := 10000;
          logging := true;
          bogus_priv := true;
          domain_needed := false;
          expand_hosts := false;
          dnssec := false;
          domain := "lan";
          host_record := "";
          interface := "";
          listening_mode := LISTEN_SINGLE;
          rev_server :=
            {| rev_active := true; rev_cidr := "192.168.0.0/24";
               rev_target := "192.168.0.1"; rev_domain := "lan" |};
          dhcp :=
            {| dhcp_active := false; dhcp_start := "192.168.0.10";
               dhcp_end := "192.168.0.250"; dhcp_leasetime := "24h";
               dhcp_router := "192.168.0.1"; dhcp_rapid_commit := false;
               dhcp_ipv6 := false;
               dhcp_hosts := [ cJSON_String "aa:bb:cc:dd:ee:ff,host1" ] |};
          cnames := [ cJSON_String "www.lan,server.lan"; cJSON_NULL ] |};
     files_log_dnsmasq := "/var/log/pihole/pihole.log" |}.

Definition sample_files : files :=
  {| temp_conf := None; ph_config := Some "port=53" |}.

(** An environment in which every step of the writer succeeds and the parser
    accepts the staged text (the child exits with code 0). *)
Definition accepting_environment : environment :=
  {| DNSMASQ_CUSTOM_LIST := "/etc/pihole/custom.list";
     timestring := "2023-01-01 12:00:00.000";
     dnsmasq_d_exists := false;
     fopen_ok := true;
     flock_ex_rc := 0;
     flock_un_rc := 0;
     pipe_rc := 0;
     child_status := fun _ => 0%Z;
     rename_rc := 0;
     fclose_rc := 0 |}.

(** The same, except that closing the stream fails at the very end. *)
Definition close_failing_environment : environment :=
  {| DNSMASQ_CUSTOM_LIST := "/etc/pihole/custom.list";
     timestring := "2023-01-01 12:00:00.000";
     dnsmasq_d_exists := false;
     fopen_ok := true;
     flock_ex_rc := 0;
     flock_un_rc := 0;
     pipe_rc := 0;
     child_status := fun _ => 0%Z;
     rename_rc := 0;
     fclose_rc := (-1) |}.

(** A model whose one upstream server holds a newline. *)
Definition newline_upstream_config : config :=
  {| dnsmasq :=
       {| port := 53;
          upstreams := [ cJSON_String ("1.1.1.1" ++ nl ++ "server=2.2.2.2") ];
          cache_size := 10000;
          logging := false;
          bogus_priv := false;
          domain_needed := false;
          expand_hosts := false;
          dnssec := false;
          domain := "";
          host_record := "";
          interface := "";
          listening_mode := LISTEN_LOCAL;
          rev_server :=
            {| rev_active := false; rev_cidr := ""; rev_target := "";
               rev_domain := "" |};
          dhcp :=
            {| dhcp_active := false; dhcp_start := ""; dhcp_end := "";
               dhcp_leasetime := ""; dhcp_router := "";
               dhcp_rapid_commit := false; dhcp_ipv6 := false;
               dhcp_hosts := [] |};
          cnames := [] |};
     files_log_dnsmasq := "" |}.

(** A model that listens on one interface, whose name holds a newline. *)
Definition newline_interface_config : config :=
  {| dnsmasq :=
       {| port := 53;
          upstreams := [];
          cache_size := 10000;
          logging := false;
          bogus_priv := false;
          domain_needed := false;
          expand_hosts := false;
          dnssec := false;
          domain := "";
          host_record := "";
          interface := "eth0" ++ nl ++ "local-service";
          listening_mode := LISTEN_SINGLE;
          rev_server :=
            {| rev_active := false; rev_cidr := ""; rev_target := "";
               rev_domain := "" |};
          dhcp :=
            {| dhcp_active := false; dhcp_start := ""; dhcp_end := "";
               dhcp_leasetime := ""; dhcp_router := "";
               dhcp_rapid_commit := false; dhcp_ipv6 := false;
               dhcp_hosts := [] |};
          cnames := [] |};
     files_log_dnsmasq := "" |}.

(** A line without the newline that ends it, if one does. *)
Fixpoint chomp (s : string) : string :=
  match s with
  | EmptyString => EmptyString
  | String c rest =>
      match rest with
      | EmptyString => if Ascii.eqb c LF then EmptyString else s
      | _ => String c (chomp rest)
      end
  end.

(** [s] has no white space at its start or at its end. *)
Definition trimmed (s : string) : bool := String.eqb (trim_whitespace s) s.

(** A line that is one of the directives the four flags switch on:
    [bogus-priv], [domain-needed], [expand-hosts], and [dnssec] with its
    [trust-anchor=]. *)
Definition is_flag_line (line : string) : bool :=
  String.eqb line "bogus-priv"
  || String.eqb line "domain-needed"
  || String.eqb line "expand-hosts"
  || String.eqb line "dnssec"
  || String.prefix "trust-anchor=" line.

(** A line that is a [domain=] or a [local=/.../] directive. *)
Definition is_domain_line (line : string) : bool :=
  String.prefix "domain=" line || String.prefix "local=/" line.

(** A line that is a [port=], [cache-size=] or [log-facility=] directive. *)
Definition is_scalar_line (line : string) : bool :=
  String.prefix "port=" line
  || String.prefix "cache-size=" line
  || String.prefix "log-facility=" line.

(** A line that is a directive of the DHCP server. *)
Definition is_dhcp_line (line : string) : bool :=
  String.prefix "dhcp-" line.

(** A line that names a place records or further configuration come from:
    a hosts file, a host record, a reverse server, a directory of
    configuration files. *)
Definition is_source_line (line : string) : bool :=
  String.prefix "addn-hosts=" line
  || String.prefix "host-record=" line
  || String.prefix "rev-server=" line
  || String.prefix "conf-dir=" line.

(** A model with the DHCP server switched on, for IPv6 as well, a domain that
    must not be forwarded, and a host list with an item that is no string. *)
Definition sample_dhcp_config : config :=
  {| dnsmasq :=
       {| port := 53;
          upstreams := [];
          cache_size := 0;
          logging := false;
          bogus_priv := false;
          domain_needed := true;
          expand_hosts := true;
          dnssec := false;
          domain := "home.arpa";
          host_record := "";
          interface := "br0";
          listening_mode := LISTEN_BIND;
          rev_server :=
            {| rev_active := false; rev_cidr := ""; rev_target := "";
               rev_domain := "" |};
          dhcp :=
            {| dhcp_active := true; dhcp_start := "10.0.0.10";
               dhcp_end := "10.0.0.99"; dhcp_leasetime := "1h";
               dhcp_router := "10.0.0.1"; dhcp_rapid_commit := true;
               dhcp_ipv6 := true;
               dhcp_hosts :=
                 [ cJSON_String "aa:bb:cc:dd:ee:ff,10.0.0.5"; cJSON_True ] |};
          cnames := [] |};
     files_log_dnsmasq := "" |}.

(* ================================================================= *)
(** ** The diagnostic buffer of [test_dnsmasq_config]

    [errbuf] is an array of ERRBUF_SIZE characters, given as the list of
    its characters: the length of the list is ERRBUF_SIZE.  The parent fills
    it from the pipe, one [read] after the other, and after every [read]
    removes a newline at the start and one at the end.  Nothing ends the
    text with a NUL after a [read], so [strlen] runs until it meets one; a
    read outside the array is undefined behaviour, which the model reports
    as [None]. *)

(** [read(pipefd[0], errbuf, ERRBUF_SIZE)] that returns the characters
    [data] (at least one, at most ERRBUF_SIZE): they replace the start of
    the array, the rest of the array stays. *)
Definition read_into (errbuf data : list ascii) : list ascii :=
  (data ++ List.skipn (List.length data) errbuf)%list.

(** [memmove(errbuf, &errbuf[1], ERRBUF_SIZE-1)]: every character but the
    last moves one place down; the last place keeps its character. *)
Definition memmove_down (errbuf : list ascii) : list ascii :=
  match errbuf with
  | [] => []
  | c :: rest => (rest ++ [List.last rest c])%list
  end.

(** [strlen(errbuf)]: the place of the first NUL in the array; [None] when
    the array holds none and the scan leaves it. *)
Fixpoint array_strlen (errbuf : list ascii) : option nat :=
  match errbuf with
  | [] => None
  | c :: rest =>
      if Ascii.eqb c NUL then Some 0
      else option_map S (array_strlen rest)
  end.

(** [errbuf[i] = '\0'] *)
Definition store_nul (errbuf : list ascii) (i : nat) : list ascii :=
  (List.firstn i errbuf ++ NUL :: List.skipn (S i) errbuf)%list.

(** [if(errbuf[strlen(errbuf)-1] == '\n') errbuf[strlen(errbuf)-1] = '\0';]
    With a length of 0 the character read is the one before the array. *)
Definition strip_newline (errbuf : list ascii) : option (list ascii) :=
  match array_strlen errbuf with
  | None => None
  | Some O => None
  | Some (S last) =>
      if Ascii.eqb (List.nth last errbuf NUL) LF
      then Some (store_nul errbuf last)
      else Some errbuf
  end.

(** One round of the loop, for a [read] that returned [data]. *)
Definition drain_step (errbuf data : list ascii) : option (list ascii) :=
  let filled := read_into errbuf data in
  let moved :=
    match filled with
    | c :: _ => if Ascii.eqb c LF then memmove_down filled else filled
    | [] => filled
    end in
  strip_newline moved.

(** [while(read(pipefd[0], errbuf, ERRBUF_SIZE) > 0) { ... }] for an
    [errbuf] that is not NULL: [reads] are the characters the successive
    calls of [read] return before the end of the stream. *)
Fixpoint drain_pipe (reads : list (list ascii)) (errbuf : list ascii)
  : option (list ascii) :=
  match reads with
  | [] => Some errbuf
  | data :: rest =>
      match drain_step errbuf data with
      | None => None
      | Some errbuf' => drain_pipe rest errbuf'
      end
  end.

(** The text a reader of the array sees: its characters up to the first
    NUL. *)
Fixpoint array_text (errbuf : list ascii) : string :=
  match errbuf with
  | [] => EmptyString
  | c :: rest =>
      if Ascii.eqb c NUL then EmptyString else String c (array_text rest)
  end.

(** No character of [s] is NUL or a newline. *)
Fixpoint plain_text (s : list ascii) : bool :=
  match s with
  | [] => true
  | c :: rest =>
      negb (Ascii.eqb c NUL) && negb (Ascii.eqb c LF) && plain_text rest
  end.

(** No character of [s] is NUL. *)
Fixpoint no_nul (s : list ascii) : bool :=
  match s with
  | [] => true
  | c :: rest => negb (Ascii.eqb c NUL) && no_nul rest
  end.

(** An array of [size] characters, all NUL. *)
Definition zeroed (size : nat) : list ascii := List.repeat NUL size.
(* ================================================================= *)
(** * Properties *)

(* ================================================================= *)
(** ** Strings *)

Lemma append_nil_r (s : string) : s ++ EmptyString = s.
Proof. induction s as [|c s IH]; simpl; [reflexivity | now rewrite IH]. Qed.

Lemma append_assoc (a b c : string) : (a ++ b) ++ c = a ++ (b ++ c).
Proof. induction a as [|x a IH]; simpl; [reflexivity | now rewrite IH]. Qed.

Lemma prefix_append (n post : string) : String.prefix n (n ++ post) = true.
Proof.
  induction n as [|c n IH]; simpl.
  - now destruct post.
  - destruct (ascii_dec c c) as [_|Hne]; [exact IH|now elim Hne].
Qed.

Lemma prefix_inv (n p : string) :
  String.prefix n p = true -> exists post, p = n ++ post.
Proof.
  revert p. induction n as [|c n IH]; intros p H.
  - now exists p.
  - destruct p as [|x p]; simpl in H; [discriminate|].
    destruct (ascii_dec c x) as [->|_]; [|discriminate].
    destruct (IH p H) as [post ->]. now exists post.
Qed.

(** [strstr] finds an occurrence of the needle... *)
Lemma strstr_Some (h n p : string) :
  strstr h n = Some p -> exists pre post, h = pre ++ p /\ p = n ++ post.
Proof.
  revert p. induction h as [|c h IH]; intros p H; cbn [strstr] in H.
  - destruct (String.prefix n EmptyString) eqn:Hp; [|discriminate].
    injection H as <-. destruct (prefix_inv _ _ Hp) as [post Hpost].
    now exists EmptyString, post.
  - destruct (String.prefix n (String c h)) eqn:Hp.
    + injection H as <-. destruct (prefix_inv _ _ Hp) as [post Hpost].
      now exists EmptyString, post.
    + destruct (IH p H) as (pre & post & -> & ->).
      now exists (String c pre), post.
Qed.

(** ... and reports none only when there is none. *)
Lemma strstr_None (h n : string) :
  strstr h n = None -> forall pre post, h <> pre ++ n ++ post.
Proof.
  induction h as [|c h IH]; intros H pre post Heq; cbn [strstr] in H.
  - destruct (String.prefix n EmptyString) eqn:Hp; [discriminate|].
    destruct pre; [|discriminate Heq]. simpl in Heq.
    rewrite Heq, prefix_append in Hp. discriminate.
  - destruct (String.prefix n (String c h)) eqn:Hp; [discriminate|].
    destruct pre as [|x pre].
    + simpl in Heq. rewrite Heq, prefix_append in Hp. discriminate.
    + injection Heq as _ Heq. exact (IH H pre post Heq).
Qed.

Lemma contains_iff (marker line : string) :
  contains marker line = true
  <-> exists pre post, line = pre ++ marker ++ post.
Proof.
  unfold contains. destruct (strstr line marker) as [p|] eqn:H.
  - split; [intros _|reflexivity].
    destruct (strstr_Some _ _ _ H) as (pre & post & -> & ->).
    now exists pre, post.
  - split; [discriminate|]. intros (pre & post & Heq).
    now elim (strstr_None _ _ H pre post).
Qed.

(* ================================================================= *)
(** ** Lines of a text *)

Lemma single_line_app (a b : string) :
  single_line (a ++ b) = single_line a && single_line b.
Proof.
  induction a as [|c a IH]; simpl.
  - reflexivity.
  - rewrite IH. now rewrite andb_assoc.
Qed.

Lemma lines_app_nl_nonempty (r rest : string) : lines (r ++ nl ++ rest) <> [].
Proof.
  induction r as [|c r IH]; simpl.
  - discriminate.
  - destruct (Ascii.eqb c LF); [discriminate|].
    destruct (lines (r ++ String LF rest)); discriminate.
Qed.

(** A record and its newline are whole lines: what follows starts a new one. *)
Lemma lines_record_app (r rest : string) :
  lines (r ++ nl ++ rest) = (lines (r ++ nl) ++ lines rest)%list.
Proof.
  induction r as [|c r IH].
  - reflexivity.
  - change (lines (String c (r ++ nl ++ rest))
            = (lines (String c (r ++ nl)) ++ lines rest)%list).
    cbn [lines]. rewrite IH.
    destruct (Ascii.eqb c LF); [reflexivity|].
    pose proof (lines_app_nl_nonempty r EmptyString) as Hne.
    change (r ++ nl ++ EmptyString) with (r ++ nl) in Hne.
    destruct (lines (r ++ nl)) as [|l ls]; [contradiction|reflexivity].
Qed.

Lemma lines_single_line (r : string) :
  single_line r = true -> lines (r ++ nl) = [r].
Proof.
  induction r as [|c r IH]; intros H.
  - reflexivity.
  - cbn [single_line] in H. apply andb_true_iff in H as [Hc Hr].
    change (lines (String c (r ++ nl)) = [String c r]).
    cbn [lines]. rewrite (IH Hr).
    destruct (Ascii.eqb c LF); [discriminate|reflexivity].
Qed.

Lemma unlines_app (a b : list string) :
  unlines (a ++ b) = unlines a ++ unlines b.
Proof.
  induction a as [|r a IH]; simpl.
  - reflexivity.
  - rewrite IH. now rewrite !append_assoc.
Qed.

Lemma lines_unlines_cons (r : string) (rs : list string) :
  lines (unlines (r :: rs)) = (lines (r ++ nl) ++ lines (unlines rs))%list.
Proof. simpl. apply lines_record_app. Qed.

(** The lines of records written one block after the other are the lines of
    the first block followed by the lines of the second, whatever the records
    hold. *)
Lemma lines_unlines_app (a b : list string) :
  lines (unlines (a ++ b)) = (lines (unlines a) ++ lines (unlines b))%list.
Proof.
  induction a as [|r a IH].
  - reflexivity.
  - change ((r :: a) ++ b)%list with (r :: (a ++ b))%list.
    rewrite !lines_unlines_cons, IH. now rewrite List.app_assoc.
Qed.

(** Records without a newline inside are the lines of the text. *)
Lemma lines_unlines (rs : list string) :
  List.forallb single_line rs = true -> lines (unlines rs) = rs.
Proof.
  induction rs as [|r rs IH]; intros H.
  - reflexivity.
  - simpl in H. apply andb_true_iff in H as [Hr Hrs].
    rewrite lines_unlines_cons, (lines_single_line r Hr), (IH Hrs).
    reflexivity.
Qed.

(* ================================================================= *)
(** ** The validator's verdict *)

(** A child ended by a signal: exactly the statuses whose low seven bits are a
    signal number below 127 (127 marks a stopped child). *)
Lemma WIFSIGNALED_termsig (status : Z) :
  WIFSIGNALED status = true <-> (1 <= WTERMSIG status <= 126)%Z.
Proof.
  unfold WIFSIGNALED, WTERMSIG, to_schar.
  assert (0 <= Z.land status 127 < 128)%Z as Hrange.
  { change 127%Z with (Z.ones 7). rewrite Z.land_ones by lia.
    apply Z.mod_pos_bound. lia. }
  set (sig := Z.land status 127) in *. clearbody sig.
  rewrite Z.ltb_lt, Z.shiftr_div_pow2 by lia.
  change (2 ^ 1)%Z with 2%Z.
  destruct (Z.ltb_spec (sig + 1) 128) as [Hlt|Hge]; split; intros H;
    Z.div_mod_to_equations; lia.
Qed.

(** C2: a run of the validator reports success exactly when the pipe could be
    made, the child's exit status is the success code and the child was not
    ended by a signal; when the child was ended by a signal the verdict is
    failure whatever the exit code, as for a child killed by signal 11, whose
    exit code reads as zero. *)
Theorem test_dnsmasq_config_verdict :
  (forall pipe_rc status : Z,
      fst (test_dnsmasq_config pipe_rc status) = true
      <-> pipe_rc = 0%Z
          /\ WEXITSTATUS status = EXIT_SUCCESS
          /\ WIFSIGNALED status = false)
  /\ (forall pipe_rc status : Z,
         WIFSIGNALED status = true ->
         fst (test_dnsmasq_config pipe_rc status) = false)
  /\ (WEXITSTATUS 11 = EXIT_SUCCESS
      /\ WIFSIGNALED 11 = true
      /\ fst (test_dnsmasq_config 0 11) = false).
Proof.
  split; [|split].
  - intros pipe_rc status. unfold test_dnsmasq_config.
    destruct (Z.eqb_spec pipe_rc 0) as [->|Hpipe]; simpl.
    + rewrite andb_true_iff, Z.eqb_eq, negb_true_iff. tauto.
    + split; [discriminate|]. intros [H _]. contradiction.
  - intros pipe_rc status Hsig. unfold test_dnsmasq_config.
    destruct (negb (pipe_rc =? 0)%Z); simpl; [reflexivity|].
    rewrite Hsig. apply andb_false_r.
  - repeat split.
Qed.

(** A child killed by signal 11 that left a core: the verdict is failure. *)
Lemma test_dnsmasq_config_verdict_witness :
  WEXITSTATUS 139 = EXIT_SUCCESS
  /\ fst (test_dnsmasq_config 0 139) = false.
Proof.
  exact (conj eq_refl
           (proj1 (proj2 test_dnsmasq_config_verdict) 0%Z 139%Z eq_refl)).
Defined.

Lemma test_dnsmasq_config_never_renames (pipe_rc status : Z) :
  ~ In (Sys "rename") (snd (test_dnsmasq_config pipe_rc status)).
Proof.
  unfold test_dnsmasq_config.
  destruct (negb (pipe_rc =? 0)%Z); [|destruct (WIFSIGNALED status)];
    simpl; intros H; repeat destruct H as [H|H]; try discriminate H;
    exact H.
Qed.

(* ================================================================= *)
(** ** Installing the staged file *)

Lemma in_concat3 {A : Type} (x : A) (a b c : list A) :
  In x (List.concat [a; b; c]) <-> In x a \/ In x b \/ In x c.
Proof.
  cbn [List.concat]. rewrite List.app_nil_r, !List.in_app_iff. tauto.
Qed.

(** Closes a goal about one path through [write_dnsmasq_config]. *)
Ltac settle_run :=
  cbn [negb andb result after trace ph_config temp_conf];
  rewrite ?in_concat3; cbn [In];
  intuition (try discriminate; try congruence).

(** C1: when the writer is asked to test and the test fails, it returns
    failure without having called [rename]; the live file is what it was,
    and the staged file, written in full, stays where it is.  In every run
    [rename] is called only if no test was asked for or the test passed, and
    the live file changes only if [rename] was called. *)
Theorem write_dnsmasq_config_validation_failure
  (env : environment) (conf : config) (fs : files) (test_config : bool) :
  let run := write_dnsmasq_config env conf test_config fs in
  (test_config = true ->
   staged_config_valid env conf = false ->
   result run = false
   /\ ~ In (Sys "rename") (trace run)
   /\ ph_config (after run) = ph_config fs
   /\ (fopen_ok env = true ->
       flock_ex_rc env = 0%Z ->
       flock_un_rc env = 0%Z ->
       temp_conf (after run) = Some (config_text env conf)))
  /\ (In (Sys "rename") (trace run) ->
      test_config = false \/ staged_config_valid env conf = true)
  /\ (ph_config (after run) <> ph_config fs ->
      In (Sys "rename") (trace run)).
Proof.
  unfold write_dnsmasq_config, staged_config_valid.
  pose proof (test_dnsmasq_config_never_renames (pipe_rc env)
                (child_status env (config_text env conf))) as Hnever.
  destruct (test_dnsmasq_config (pipe_rc env)
              (child_status env (config_text env conf))) as [valid tested].
  cbn [fst snd] in *.
  generalize (config_text env conf) as text. intros text.
  destruct (fopen_ok env); [|settle_run].
  destruct (Z.eqb_spec (flock_ex_rc env) 0); [|settle_run].
  destruct (Z.eqb_spec (flock_un_rc env) 0); [|settle_run].
  destruct test_config, valid; try settle_run;
    (destruct (rename_rc env =? 0)%Z; [|settle_run]);
    destruct (fclose_rc env =? 0)%Z; settle_run.
Qed.

(** A run in which the parser rejects the staged text. *)
Lemma write_dnsmasq_config_validation_failure_witness :
  staged_config_valid sample_environment sample_config = false
  /\ result (write_dnsmasq_config sample_environment sample_config true
               sample_files) = false
  /\ ph_config (after (write_dnsmasq_config sample_environment sample_config
                         true sample_files)) = Some "port=53"
  /\ temp_conf (after (write_dnsmasq_config sample_environment sample_config
                         true sample_files))
     = Some (config_text sample_environment sample_config).
Proof.
  assert (staged_config_valid sample_environment sample_config = false) as Hbad
      by reflexivity.
  destruct (write_dnsmasq_config_validation_failure sample_environment
              sample_config sample_files true) as [Hfail _].
  destruct (Hfail eq_refl Hbad) as (Hres & _ & Hlive & Hstaged).
  exact (conj Hbad
           (conj Hres (conj Hlive (Hstaged eq_refl eq_refl eq_refl)))).
Defined.

(* ================================================================= *)
(** ** The legacy importers *)

(** The pointer after the first [=] of a line: what follows it. *)
Lemma find_equals_first (pre value : string) :
  occurs_char "="%char pre = false ->
  next_char (find_equals (pre ++ "=" ++ value)) = value.
Proof.
  induction pre as [|c pre IH]; intros H.
  - reflexivity.
  - cbn [occurs_char] in H. apply orb_false_iff in H as [Hc Hpre].
    change (next_char (find_equals (String c (pre ++ "=" ++ value))) = value).
    cbn [find_equals]. rewrite Hc. exact (IH Hpre).
Qed.

Lemma skip_space_split (s : string) :
  exists l, s = l ++ skip_space s /\ all_space l = true.
Proof.
  induction s as [|c s (l & Hs & Hl)].
  - now exists EmptyString.
  - cbn [skip_space]. destruct (isspace c) eqn:Hc.
    + exists (String c l). split.
      * simpl. now rewrite <- Hs.
      * simpl. now rewrite Hc.
    + now exists EmptyString.
Qed.

Lemma trim_trailing_split (s : string) :
  exists r, s = trim_trailing s ++ r /\ all_space r = true.
Proof.
  induction s as [|c s (r & Hs & Hr)].
  - now exists EmptyString.
  - cbn [trim_trailing].
    destruct (trim_trailing s) as [|k kept] eqn:Hk.
    + destruct (isspace c) eqn:Hc.
      * exists (String c s). split; [reflexivity|].
        simpl. rewrite Hc. simpl in Hs. now rewrite Hs.
      * exists r. split; [|exact Hr]. simpl. simpl in Hs. now rewrite <- Hs.
    + exists r. split; [|exact Hr].
      change (String c s = String c (String k kept ++ r)). now rewrite <- Hs.
Qed.

Lemma skip_space_first (s : string) : isspace (first_char (skip_space s)) = false.
Proof.
  induction s as [|c s IH].
  - reflexivity.
  - cbn [skip_space]. destruct (isspace c) eqn:Hc; [exact IH|exact Hc].
Qed.

Lemma trim_trailing_first (s : string) :
  isspace (first_char s) = false ->
  first_char (trim_trailing s) = first_char s.
Proof.
  destruct s as [|c s]; intros H.
  - reflexivity.
  - cbn [trim_trailing]. unfold first_char, c_index in H. simpl in H.
    destruct (trim_trailing s); [rewrite H|]; reflexivity.
Qed.

Lemma trim_trailing_last (s : string) :
  isspace (last_char (trim_trailing s)) = false.
Proof.
  induction s as [|c s IH].
  - reflexivity.
  - cbn [trim_trailing]. destruct (trim_trailing s) as [|k kept] eqn:Hk.
    + destruct (isspace c) eqn:Hc; [reflexivity|exact Hc].
    + exact IH.
Qed.

(** [trim_whitespace] removes white space at both ends and nothing else. *)
Lemma trim_whitespace_spec (s : string) :
  (exists l r, s = l ++ trim_whitespace s ++ r
               /\ all_space l = true /\ all_space r = true)
  /\ isspace (first_char (trim_whitespace s)) = false
  /\ isspace (last_char (trim_whitespace s)) = false.
Proof.
  unfold trim_whitespace. split; [|split].
  - destruct (skip_space_split s) as (l & Hs & Hl).
    destruct (trim_trailing_split (skip_space s)) as (r & Ht & Hr).
    exists l, r. split; [|now split]. now rewrite <- Ht.
  - rewrite trim_trailing_first; apply skip_space_first.
  - apply trim_trailing_last.
Qed.

(** The loop adds, in the order of the file, one entry for every line that
    contains the marker, and nothing else. *)
Lemma legacy_loop_entries (marker : string) (buffers : list string)
  (array : json_array) :
  legacy_loop marker buffers array
  = (array ++ List.map legacy_entry (List.filter (contains marker) buffers))%list.
Proof.
  revert array. induction buffers as [|line rest IH]; intros array.
  - cbn. now rewrite List.app_nil_r.
  - cbn [legacy_loop List.filter]. unfold contains at 1.
    destruct (strstr line marker) as [p|].
    + rewrite IH. unfold cJSON_AddItemToArray. cbn [List.map].
      now rewrite <- List.app_assoc.
    + apply IH.
Qed.

(** C8: for a legacy file that is there and can be opened, each importer
    appends to its list one entry for every line that contains its key marker,
    in the order of the file: the text after the line's first [=], trimmed of
    white space at both ends.  Lines without the marker add nothing, and a
    line that occurs twice is entered twice. *)
Theorem read_legacy_config_appends
  (content : string) (backup : option string) (conf : config)
  (fclose_rc rename_rc : Z) :
  let env := {| legacy_fopen_ok := true;
                legacy_fclose_rc := fclose_rc;
                legacy_rename_rc := rename_rc |} in
  let fs := {| legacy_path := Some content; backup_path := backup |} in
  let value line := trim_whitespace (next_char (find_equals line)) in
  (dhcp_hosts
     (dhcp (dnsmasq (config_after (read_legacy_dhcp_static_config env fs conf))))
   = (dhcp_hosts (dhcp (dnsmasq conf))
      ++ List.map (fun line => cJSON_String (value line))
           (List.filter (contains "dhcp-host=") (getlines content)))%list)
  /\ (cnames (dnsmasq (config_after (read_legacy_cnames_config env fs conf)))
      = (cnames (dnsmasq conf)
         ++ List.map (fun line => cJSON_String (value line))
              (List.filter (contains "cname=") (getlines content)))%list)
  /\ (forall marker line,
         contains marker line = true
         <-> exists pre post, line = pre ++ marker ++ post)
  /\ (forall pre rest,
         occurs_char "="%char pre = false ->
         value (pre ++ "=" ++ rest) = trim_whitespace rest).
Proof.
  intros env fs value. split; [|split; [|split]].
  - unfold read_legacy_dhcp_static_config, read_legacy_config.
    cbn [legacy_path fs legacy_fopen_ok env negb].
    rewrite legacy_loop_entries.
    destruct (negb (legacy_fclose_rc env =? 0)%Z);
      [|destruct (negb (legacy_rename_rc env =? 0)%Z)]; reflexivity.
  - unfold read_legacy_cnames_config, read_legacy_config.
    cbn [legacy_path fs legacy_fopen_ok env negb].
    rewrite legacy_loop_entries.
    destruct (negb (legacy_fclose_rc env =? 0)%Z);
      [|destruct (negb (legacy_rename_rc env =? 0)%Z)]; reflexivity.
  - exact contains_iff.
  - intros pre rest H. unfold value. now rewrite find_equals_first.
Qed.

(** A file with a lease, a line of another key and the same lease again. *)
Lemma read_legacy_config_appends_witness :
  trim_whitespace
    (next_char (find_equals ("dhcp-host= aa:bb:cc:dd:ee:ff,host1 " ++ nl)))
  = "aa:bb:cc:dd:ee:ff,host1"
  /\ dhcp_hosts
       (dhcp (dnsmasq (config_after
          (read_legacy_dhcp_static_config
             {| legacy_fopen_ok := true; legacy_fclose_rc := 0;
                legacy_rename_rc := 0 |}
             {| legacy_path :=
                  Some ("dhcp-host=aa:bb:cc:dd:ee:ff,host1" ++ nl
                        ++ "domain=lan" ++ nl
                        ++ "dhcp-host=aa:bb:cc:dd:ee:ff,host1" ++ nl);
                backup_path := None |}
             sample_config))))
     = [ cJSON_String "aa:bb:cc:dd:ee:ff,host1";
         cJSON_String "aa:bb:cc:dd:ee:ff,host1";
         cJSON_String "aa:bb:cc:dd:ee:ff,host1" ].
Proof.
  split.
  - exact (proj2 (proj2 (proj2
      (read_legacy_config_appends EmptyString None sample_config 0 0)))
      "dhcp-host" (" aa:bb:cc:dd:ee:ff,host1 " ++ nl) eq_refl).
  - exact (proj1
      (read_legacy_config_appends
         ("dhcp-host=aa:bb:cc:dd:ee:ff,host1" ++ nl
          ++ "domain=lan" ++ nl
          ++ "dhcp-host=aa:bb:cc:dd:ee:ff,host1" ++ nl)
         None sample_config 0 0)).
Defined.

(** C9: when the legacy file was read to its end and closing it fails, the
    importer returns failure, the file stays where it is, and the model holds
    every entry the scan added: it is the model a run without the failure
    leaves. *)
Theorem read_legacy_config_close_failure
  (content : string) (backup : option string) (conf : config)
  (fclose_rc rename_rc : Z) :
  fclose_rc <> 0%Z ->
  let failing := {| legacy_fopen_ok := true;
                    legacy_fclose_rc := fclose_rc;
                    legacy_rename_rc := rename_rc |} in
  let clean := {| legacy_fopen_ok := true;
                  legacy_fclose_rc := 0;
                  legacy_rename_rc := rename_rc |} in
  let fs := {| legacy_path := Some content; backup_path := backup |} in
  (let run := read_legacy_dhcp_static_config failing fs conf in
   imported run = false
   /\ legacy_after run = fs
   /\ imported (read_legacy_dhcp_static_config clean fs conf) = true
   /\ config_after run
      = config_after (read_legacy_dhcp_static_config clean fs conf)
   /\ dhcp_hosts (dhcp (dnsmasq (config_after run)))
      = (dhcp_hosts (dhcp (dnsmasq conf))
         ++ List.map legacy_entry
              (List.filter (contains "dhcp-host=") (getlines content)))%list)
  /\ (let run := read_legacy_cnames_config failing fs conf in
      imported run = false
      /\ legacy_after run = fs
      /\ imported (read_legacy_cnames_config clean fs conf) = true
      /\ config_after run
         = config_after (read_legacy_cnames_config clean fs conf)
      /\ cnames (dnsmasq (config_after run))
         = (cnames (dnsmasq conf)
            ++ List.map legacy_entry
                 (List.filter (contains "cname=") (getlines content)))%list).
Proof.
  intros Hclose failing clean fs.
  apply Z.eqb_neq in Hclose.
  unfold read_legacy_dhcp_static_config, read_legacy_cnames_config,
    read_legacy_config.
  cbn [legacy_path fs legacy_fopen_ok legacy_fclose_rc legacy_rename_rc
         failing clean negb].
  rewrite Hclose, !legacy_loop_entries. cbn [negb Z.eqb].
  split; destruct (negb (rename_rc =? 0)%Z); repeat split.
Qed.

(** A lease file whose [fclose] fails: the lease is in the model all the
    same. *)
Lemma read_legacy_config_close_failure_witness :
  let run :=
    read_legacy_dhcp_static_config
      {| legacy_fopen_ok := true; legacy_fclose_rc := (-1);
         legacy_rename_rc := 0 |}
      {| legacy_path := Some ("dhcp-host=aa:bb:cc:dd:ee:ff,host2" ++ nl);
         backup_path := None |}
      sample_config in
  imported run = false
  /\ dhcp_hosts (dhcp (dnsmasq (config_after run)))
     = [ cJSON_String "aa:bb:cc:dd:ee:ff,host1";
         cJSON_String "aa:bb:cc:dd:ee:ff,host2" ].
Proof.
  destruct (read_legacy_config_close_failure
              ("dhcp-host=aa:bb:cc:dd:ee:ff,host2" ++ nl) None sample_config
              (-1) 0 ltac:(discriminate)) as [(Hres & _ & _ & _ & Hhosts) _].
  exact (conj Hres Hhosts).
Defined.

(* ================================================================= *)
(** ** Locating a line *)

(** The character at position [strlen] is the terminator. *)
Lemma c_index_strlen (s : string) : c_index s (strlen s) = NUL.
Proof.
  unfold c_index, strlen. induction s as [|c s IH]; [reflexivity|exact IH].
Qed.

Lemma get_dnsmasq_line_loop_nth (buffers : list string) (count lineno : Z) :
  (0 < count <= lineno)%Z ->
  (lineno < 4294967296)%Z ->
  get_dnsmasq_line_loop buffers count lineno
  = List.nth_error buffers (Z.to_nat (lineno - count)).
Proof.
  revert count. induction buffers as [|b rest IH]; intros count Hc Hl.
  - cbn. now destruct (Z.to_nat (lineno - count)).
  - cbn [get_dnsmasq_line_loop].
    destruct (Z.eqb_spec count lineno) as [->|Hne].
    + rewrite c_index_strlen, Z.sub_diag. reflexivity.
    + unfold to_uint. rewrite Z.mod_small by lia.
      rewrite IH by lia.
      replace (Z.to_nat (lineno - count))
        with (S (Z.to_nat (lineno - (count + 1)))) by lia.
      reflexivity.
Qed.

(** What [get_dnsmasq_line] returns for a line number from 1 on is the buffer
    [getline] filled for that line, as it is. *)
Lemma get_dnsmasq_line_raw (content : string) (lineno : Z) :
  (1 <= lineno < 4294967296)%Z ->
  get_dnsmasq_line (Some content) lineno
  = List.nth_error (getlines content) (Z.to_nat (lineno - 1)).
Proof.
  intros H. unfold get_dnsmasq_line. apply get_dnsmasq_line_loop_nth; lia.
Qed.

(** C6, at a staged file of two lines: the text returned for line 1 still
    ends in its newline, because the character tested, the one at position
    [strlen], is the terminator of every buffer and never a newline. *)
Theorem get_dnsmasq_line_keeps_newline :
  get_dnsmasq_line (Some ("port=53" ++ nl ++ "no-resolv" ++ nl)) 1
  = Some ("port=53" ++ nl)
  /\ (forall linebuffer : string,
         Ascii.eqb (c_index linebuffer (strlen linebuffer)) LF = false)
  /\ get_dnsmasq_line (Some ("port=53" ++ nl ++ "no-resolv" ++ nl)) 3 = None
  /\ get_dnsmasq_line None 1 = None.
Proof.
  split; [reflexivity|split; [|split; reflexivity]].
  intros linebuffer. now rewrite c_index_strlen.
Qed.

(** Once [%d] has been assigned, the rest of the format cannot change what
    [sscanf] returns. *)
Lemma sscanf_run_of_tail (input : string) (n : Z) :
  sscanf_run [D_space; D_lit "o"; D_lit "f"; D_space] input [n] = (1%Z, [n]).
Proof.
  cbn [sscanf_run].
  destruct (skip_space input) as [|c rest]; [reflexivity|].
  destruct (Ascii.eqb "o" c); [|reflexivity].
  destruct rest as [|c' rest]; [reflexivity|].
  destruct (Ascii.eqb "f" c'); reflexivity.
Qed.

Lemma skip_space_idem (s : string) : skip_space (skip_space s) = skip_space s.
Proof.
  induction s as [|c s IH]; [reflexivity|].
  cbn [skip_space]. destruct (isspace c) eqn:Hc; [exact IH|].
  cbn [skip_space]. now rewrite Hc.
Qed.

Lemma scan_int_skip_space (s : string) : scan_int (skip_space s) = scan_int s.
Proof. unfold scan_int. now rewrite skip_space_idem. Qed.

(** The scan of the text that starts at a marker: it is decided by the
    conversion [%d] applied to what follows the marker. *)
Lemma sscanf_at_line (rest : string) :
  sscanf (" at line " ++ rest) " at line %d of "
  = match scan_int rest with
    | Some (n, _) => (1%Z, [to_int (saturate_long n)])
    | None =>
        stopped []
          (match skip_space rest with EmptyString => true | _ => false end)
    end.
Proof.
  unfold sscanf.
  change (parse_format " at line %d of ")
    with [D_space; D_lit "a"; D_lit "t"; D_space; D_lit "l"; D_lit "i";
          D_lit "n"; D_lit "e"; D_space; D_int; D_space; D_lit "o";
          D_lit "f"; D_space].
  change (" at line " ++ rest)
    with (String " " (String "a" (String "t" (String " " (String "l"
           (String "i" (String "n" (String "e" (String " " rest))))))))).
  cbn [sscanf_run skip_space isspace nat_of_ascii Ascii.eqb Bool.eqb
         Nat.eqb Nat.leb orb andb Ascii.N_of_ascii Ascii.N_of_digits].
  change (sscanf_run [D_int; D_space; D_lit "o"; D_lit "f"; D_space]
            (skip_space (String " " rest)) []
          = match scan_int rest with
            | Some (n, _) => (1%Z, [to_int (saturate_long n)])
            | None =>
                stopped []
                  (match skip_space rest with
                   | EmptyString => true
                   | _ => false
                   end)
            end).
  change (skip_space (String " " rest)) with (skip_space rest).
  cbn [sscanf_run]. rewrite scan_int_skip_space, skip_space_idem.
  destruct (scan_int rest) as [[n tail]|]; [|reflexivity].
  apply sscanf_run_of_tail.
Qed.

(** Scanning the digits of a decimal numeral yields its value and stops at the
    first character that is not a digit. *)
Lemma scan_digits_uint (d : Decimal.uint) (tail : string) (acc : Z)
  (seen : bool) :
  isdigit (first_char tail) = false ->
  seen = true \/ d <> Decimal.Nil ->
  scan_digits (NilEmpty.string_of_uint d ++ tail) acc seen
  = Some (uint_value d acc, tail).
Proof.
  intros Htail. revert acc seen.
  induction d as [|d IH|d IH|d IH|d IH|d IH|d IH|d IH|d IH|d IH|d IH];
    intros acc seen Hseen;
    try (cbn [NilEmpty.string_of_uint append scan_digits uint_value];
         change (scan_digits (NilEmpty.string_of_uint d ++ tail)
                   (acc * 10 + 0) true
                 = Some (uint_value d (acc * 10), tail))
         || idtac;
         rewrite ?Z.add_0_r; apply IH; now left).
  cbn [NilEmpty.string_of_uint append uint_value].
  destruct Hseen as [->|Hnil]; [|now elim Hnil].
  destruct tail as [|c tail]; [reflexivity|].
  cbn [scan_digits]. unfold first_char, c_index in Htail. simpl in Htail.
  now rewrite Htail.
Qed.

Lemma uint_value_of_lu (d : Decimal.uint) (acc : Z) :
  uint_value d acc
  = (Z.of_N (DecimalPos.Unsigned.of_lu (Decimal.rev d))
     + acc * 10 ^ Z.of_N (DecimalPos.Unsigned.usize d))%Z.
Proof.
  revert acc.
  induction d as [|d IH|d IH|d IH|d IH|d IH|d IH|d IH|d IH|d IH|d IH];
    intros acc;
    [ cbn; lia | .. ];
    cbn [uint_value DecimalPos.Unsigned.usize]; rewrite IH;
    unfold Decimal.rev at 2; cbn [Decimal.revapp];
    rewrite DecimalPos.Unsigned.of_lu_revapp;
    cbn [DecimalPos.Unsigned.of_lu];
    rewrite N2Z.inj_add, N2Z.inj_mul, N2Z.inj_pow, N2Z.inj_succ,
      Z.pow_succ_r by apply N2Z.is_nonneg;
    change (Z.of_N 10) with 10%Z;
    rewrite ?N.mul_0_r, ?N.add_0_r; cbn [Z.of_N]; lia.
Qed.

Lemma string_of_uint_head (d : Decimal.uint) :
  d <> Decimal.Nil ->
  exists c rest,
    NilEmpty.string_of_uint d = String c rest /\ isdigit c = true.
Proof.
  destruct d; intros H; [now elim H|..]; cbn [NilEmpty.string_of_uint];
    eexists; eexists; split; reflexivity.
Qed.

Lemma scan_int_digit (c : ascii) (rest : string) :
  isdigit c = true ->
  scan_int (String c rest) = scan_digits (String c rest) 0 false.
Proof.
  intros H. unfold scan_int. cbn [skip_space].
  destruct c as [[] [] [] [] [] [] [] []]; try discriminate H; reflexivity.
Qed.

(** Reading back what [%u] prints. *)
Lemma scan_int_print_unsigned (n : Z) (tail : string) :
  (0 <= n)%Z ->
  isdigit (first_char tail) = false ->
  scan_int (print_unsigned n ++ tail) = Some (n, tail).
Proof.
  intros Hn Htail. unfold print_unsigned.
  set (d := N.to_uint (Z.to_N n)).
  assert (d <> Decimal.Nil) as Hd.
  { unfold d. destruct (Z.to_N n); [discriminate|].
    apply DecimalPos.Unsigned.to_uint_nonnil. }
  assert (uint_value d 0 = n) as Hval.
  { rewrite uint_value_of_lu, Z.mul_0_l, Z.add_0_r.
    rewrite <- DecimalPos.Unsigned.of_uint_alt.
    change (Pos.of_uint d) with (N.of_uint d).
    unfold d. rewrite DecimalN.Unsigned.of_to. lia. }
  clearbody d.
  destruct (string_of_uint_head d Hd) as (c & rest & Heq & Hc).
  pose proof (scan_digits_uint d tail 0 false Htail (or_intror Hd)) as Hscan.
  rewrite Heq in *. cbn [append] in *.
  rewrite (scan_int_digit c _ Hc), Hscan, Hval. reflexivity.
Qed.

Lemma prefix_app_long (n y x : string) :
  String.length n <= String.length y ->
  String.prefix n (y ++ x) = String.prefix n y.
Proof.
  revert y. induction n as [|c n IH]; intros y H.
  - now destruct y, x.
  - destruct y as [|d y]; [simpl in H; lia|].
    simpl. destruct (ascii_dec c d); [|reflexivity].
    apply IH. simpl in H. lia.
Qed.

Lemma length_append (a b : string) :
  String.length (a ++ b) = String.length a + String.length b.
Proof. induction a as [|c a IH]; simpl; [reflexivity|now rewrite IH]. Qed.

(** When the needle does not occur before the end of [pre] (an occurrence
    that starts inside [pre] ends inside [pre] followed by the needle less its
    last character), the occurrence right after [pre] is the one [strstr]
    finds. *)
Lemma strstr_first (pre stem rest : string) (last : ascii) :
  let needle := stem ++ String last EmptyString in
  contains needle (pre ++ stem) = false ->
  strstr (pre ++ needle ++ rest) needle = Some (needle ++ rest).
Proof.
  intros needle. induction pre as [|c pre IH]; intros H.
  - cbn [append]. destruct (needle ++ rest) as [|x s] eqn:Heq.
    + destruct stem; discriminate Heq.
    + cbn [strstr]. now rewrite <- Heq, prefix_append.
  - unfold contains in H. cbn [append strstr] in H |- *.
    destruct (String.prefix needle (String c (pre ++ stem))) eqn:Hp;
      [discriminate|].
    assert (String.prefix needle (String c (pre ++ needle ++ rest)) = false)
      as ->.
    { unfold needle at 2. rewrite append_assoc, <- (append_assoc pre).
      change (String c ((pre ++ stem) ++ String last EmptyString ++ rest))
        with (String c (pre ++ stem) ++ String last EmptyString ++ rest).
      rewrite prefix_app_long; [exact Hp|].
      unfold needle. cbn [String.length].
      rewrite !length_append. cbn [String.length]. lia. }
    apply IH. unfold contains.
    destruct (strstr (pre ++ stem) needle); [discriminate|reflexivity].
Qed.

Lemma skip_space_all_space (ws s : string) :
  all_space ws = true -> skip_space (ws ++ s) = skip_space s.
Proof.
  induction ws as [|c ws IH]; intros H; [reflexivity|].
  cbn [all_space] in H. apply andb_true_iff in H as [Hc Hws].
  cbn [append skip_space]. rewrite Hc. exact (IH Hws).
Qed.

Lemma to_int_small (n : Z) :
  (-2147483648 <= n <= 2147483647)%Z -> to_int n = n.
Proof. intros H. unfold to_int. rewrite Z.mod_small; lia. Qed.

(** A number an [int] can hold is stored as it is. *)
Lemma stored_int_small (n : Z) :
  (-2147483648 <= n <= 2147483647)%Z -> to_int (saturate_long n) = n.
Proof.
  intros H. unfold saturate_long.
  rewrite Z.min_l, Z.max_r by lia. now apply to_int_small.
Qed.

(** The digits [%u] prints, read back. *)
Lemma scan_digits_print_unsigned (n : Z) (tail : string) :
  (0 <= n)%Z ->
  isdigit (first_char tail) = false ->
  scan_digits (print_unsigned n ++ tail) 0 false = Some (n, tail).
Proof.
  intros Hn Htail.
  pose proof (scan_int_print_unsigned n tail Hn Htail) as Hscan.
  unfold print_unsigned in *.
  set (d := N.to_uint (Z.to_N n)) in *.
  assert (d <> Decimal.Nil) as Hd.
  { unfold d. destruct (Z.to_N n); [discriminate|].
    apply DecimalPos.Unsigned.to_uint_nonnil. }
  clearbody d.
  destruct (string_of_uint_head d Hd) as (c & rest & Heq & Hc).
  rewrite Heq in *. cbn [append] in *.
  now rewrite (scan_int_digit c _ Hc) in Hscan.
Qed.

(** Reading back what [%d] and [%+d] print. *)
Lemma scan_int_print_signed (plus : bool) (n : Z) (tail : string) :
  isdigit (first_char tail) = false ->
  scan_int (print_signed plus n ++ tail) = Some (n, tail).
Proof.
  intros Htail. unfold print_signed.
  destruct (Z.ltb_spec n 0) as [Hneg|Hpos].
  - change (scan_int (("-" ++ print_unsigned (- n)) ++ tail))
      with (match scan_digits (print_unsigned (- n) ++ tail) 0 false with
            | Some (m, r) => Some ((- m)%Z, r)
            | None => None
            end).
    rewrite scan_digits_print_unsigned by (lia || assumption).
    now rewrite Z.opp_involutive.
  - destruct plus.
    + change (scan_int (("+" ++ print_unsigned n) ++ tail))
        with (scan_digits (print_unsigned n ++ tail) 0 false).
      now apply scan_digits_print_unsigned.
    + now apply scan_int_print_unsigned.
Qed.

(** The line number is decided by the text after the first marker. *)
Lemma get_lineno_from_string_scan (s rest : string) :
  strstr s " at line " = Some (" at line " ++ rest) ->
  get_lineno_from_string s
  = match scan_int rest with
    | Some (n, _) => to_int (saturate_long n)
    | None => (-1)%Z
    end.
Proof.
  intros H. unfold get_lineno_from_string. rewrite H, sscanf_at_line.
  destruct (scan_int rest) as [[n tail]|]; [reflexivity|].
  now destruct (skip_space rest).
Qed.

(** C5, as the code has it: without the marker [" at line "] the result is
    -1.  Otherwise only the first marker counts: when white space and a
    number [n] that an [int] can hold follow it, written in decimal with a
    minus sign if it is negative and with or without a plus sign if it is
    not, the result is [n], whatever comes after the digits; when no integer
    follows it, the result is -1. *)
Theorem get_lineno_from_string_first_marker :
  (forall s : string,
      (forall pre post, s <> pre ++ " at line " ++ post) ->
      get_lineno_from_string s = (-1)%Z)
  /\ (forall (pre ws tail : string) (n : Z) (plus : bool),
         contains " at line " (pre ++ " at line") = false ->
         all_space ws = true ->
         (-2147483648 <= n <= 2147483647)%Z ->
         isdigit (first_char tail) = false ->
         get_lineno_from_string
           (pre ++ " at line " ++ ws ++ print_signed plus n ++ tail) = n)
  /\ (forall pre rest : string,
         contains " at line " (pre ++ " at line") = false ->
         scan_int rest = None ->
         get_lineno_from_string (pre ++ " at line " ++ rest) = (-1)%Z)
  /\ get_lineno_from_string "bad option at line 42 of /tmp/x.conf" = 42%Z
  /\ get_lineno_from_string "no marker here" = (-1)%Z.
Proof.
  split; [|split; [|split; [|split; reflexivity]]].
  - intros s Hnone. unfold get_lineno_from_string.
    destruct (strstr s " at line ") as [ptr|] eqn:H; [|reflexivity].
    destruct (strstr_Some _ _ _ H) as (pre & post & -> & ->).
    now elim (Hnone pre post).
  - intros pre ws tail n plus Hfirst Hws Hn Htail.
    rewrite (get_lineno_from_string_scan _
               (ws ++ print_signed plus n ++ tail)).
    + unfold scan_int. rewrite (skip_space_all_space _ _ Hws).
      fold (scan_int (print_signed plus n ++ tail)).
      rewrite scan_int_print_signed by assumption.
      now apply stored_int_small.
    + exact (strstr_first pre " at line" _ " " Hfirst).
  - intros pre rest Hfirst Hscan.
    rewrite (get_lineno_from_string_scan _ rest).
    + now rewrite Hscan.
    + exact (strstr_first pre " at line" rest " " Hfirst).
Qed.

(** A diagnostic that names line 7 and goes on after it, and one that names
    a negative number. *)
Lemma get_lineno_from_string_first_marker_witness :
  get_lineno_from_string
    ("bad option" ++ " at line " ++ " " ++ print_signed false 7 ++ " of file")
  = 7%Z
  /\ get_lineno_from_string
       ("bad option" ++ " at line " ++ "" ++ print_signed false (-7)
        ++ " of file")
     = (-7)%Z.
Proof.
  exact (conj
           (proj1 (proj2 get_lineno_from_string_first_marker)
              "bad option" " " " of file" 7%Z false eq_refl eq_refl
              ltac:(lia) eq_refl)
           (proj1 (proj2 get_lineno_from_string_first_marker)
              "bad option" "" " of file" (-7)%Z false eq_refl eq_refl
              ltac:(lia) eq_refl)).
Defined.

(** C5 as stated fails in both directions: a line number is returned for a
    string in which [" of "] occurs nowhere, and none is returned for a string
    that holds the marker, an integer and [" of "] after an earlier marker. *)
Lemma get_lineno_from_string_ignores_of :
  (get_lineno_from_string "bad option at line 42" = 42%Z
   /\ contains " of " "bad option at line 42" = false)
  /\ (get_lineno_from_string "junk at line x at line 42 of /tmp/x.conf"
      = (-1)%Z
      /\ contains " at line 42 of " "junk at line x at line 42 of /tmp/x.conf"
         = true).
Proof. repeat split. Qed.

(* ================================================================= *)
(** ** The rendered text *)

Lemma blocks_two (a b : list string) : blocks [a; b] = (a ++ b)%list.
Proof. unfold blocks. cbn. now rewrite List.app_nil_r. Qed.

(** The loop over an array emits the string items, in order. *)
Lemma array_loop_items (key : string) (done rest : json_array) :
  array_loop key (done ++ rest)%list (Z.of_nat (List.length done))
    (List.length rest)
  = List.map (String.append key) (string_items rest).
Proof.
  revert done. induction rest as [|item rest IH]; intros done.
  - reflexivity.
  - cbn [List.length array_loop]. rewrite blocks_two.
    unfold cJSON_GetArrayItem.
    destruct (Z.ltb_spec (Z.of_nat (List.length done)) 0) as [Hneg|_];
      [lia|].
    rewrite Nat2Z.id, List.nth_error_app2, Nat.sub_diag by lia.
    cbn [List.nth_error].
    replace (Z.of_nat (List.length done) + 1)%Z
      with (Z.of_nat (List.length (done ++ [item])%list))
      by (rewrite List.length_app; cbn; lia).
    replace (done ++ item :: rest)%list with ((done ++ [item]) ++ rest)%list
      by (now rewrite <- List.app_assoc).
    rewrite IH. unfold string_items. cbn [List.flat_map List.map].
    rewrite List.map_app.
    destruct item; reflexivity.
Qed.

Lemma write_array_items (key : string) (array : json_array) :
  write_array key array = List.map (String.append key) (string_items array).
Proof.
  unfold write_array, cJSON_GetArraySize. rewrite Nat2Z.id.
  exact (array_loop_items key [] array).
Qed.

Lemma count_strings_items (array : json_array) :
  count_strings array = List.length (string_items array).
Proof.
  unfold count_strings, string_items.
  induction array as [|item array IH]; [reflexivity|].
  cbn [List.filter List.flat_map]. rewrite List.length_app, <- IH.
  destruct item; reflexivity.
Qed.

(** The three records the logging flag selects. *)
Lemma logging_section_lines (b : bool) (conf : config) :
  lines (unlines (logging_section (set_logging b conf)))
  = if b
    then [ "# Enable query logging"; "log-queries"; "log-async" ]
    else [ "# Disable query logging"; "#log-queries"; "#log-async" ].
Proof. destruct b; reflexivity. Qed.

(** The two renders of a model, with the flag on and off, have the same lines
    before and the same lines after the three lines of the logging block. *)
Lemma logging_renders_split (env : environment) (conf : config) :
  exists before behind : list string,
    forall b : bool,
      lines (config_text env (set_logging b conf))
      = (before
         ++ (if b
             then [ "# Enable query logging"; "log-queries"; "log-async" ]
             else [ "# Disable query logging"; "#log-queries"; "#log-async" ])
         ++ behind)%list.
Proof.
  exists (lines (unlines (blocks [ write_config_header env;
                                   static_section env conf;
                                   upstream_section conf;
                                   cache_section conf ]))).
  exists (lines (unlines (blocks [ log_facility_section conf;
                                   flags_section conf;
                                   domain_section conf;
                                   host_record_section conf;
                                   listening_section conf;
                                   rev_server_section conf;
                                   dhcp_section conf;
                                   cnames_section conf;
                                   rfc6761_section;
                                   conf_dir_section env ]))).
  intros b. rewrite <- (logging_section_lines b conf), <- !lines_unlines_app.
  unfold config_text. f_equal. f_equal.
  unfold config_records, blocks. cbn [List.concat].
  rewrite !List.app_nil_r, <- !List.app_assoc. reflexivity.
Qed.

(** C4, as the code has it: the renders of a model with logging on and with
    logging off have the same number of lines and differ in three consecutive
    lines only: the comment that heads the block, which reads "Enable" in one
    and "Disable" in the other, and the two directives, which the render
    without logging has with a ["#"] in front.  Every other line is the same
    line at the same position. *)
Theorem logging_toggle_keeps_line_numbers (env : environment) (conf : config) :
  let on := lines (config_text env (set_logging true conf)) in
  let off := lines (config_text env (set_logging false conf)) in
  List.length on = List.length off
  /\ exists k : nat,
       (List.nth_error on k = Some "# Enable query logging"
        /\ List.nth_error off k = Some "# Disable query logging")
       /\ (List.nth_error on (k + 1) = Some "log-queries"
           /\ List.nth_error off (k + 1) = Some ("#" ++ "log-queries"))
       /\ (List.nth_error on (k + 2) = Some "log-async"
           /\ List.nth_error off (k + 2) = Some ("#" ++ "log-async"))
       /\ forall i : nat,
            i <> k -> i <> k + 1 -> i <> k + 2 ->
            List.nth_error on i = List.nth_error off i.
Proof.
  destruct (logging_renders_split env conf) as (before & behind & H).
  cbn zeta. rewrite (H true), (H false). split.
  - rewrite !List.length_app. reflexivity.
  - exists (List.length before).
    assert (forall (block : list string) (j : nat),
               j < List.length block ->
               List.nth_error (before ++ block ++ behind)%list
                 (List.length before + j)
               = List.nth_error block j) as Hblock.
    { intros block j Hj.
      rewrite List.nth_error_app2 by lia.
      replace (List.length before + j - List.length before) with j by lia.
      now rewrite List.nth_error_app1. }
    repeat split;
      try (rewrite <- (Nat.add_0_r (List.length before)) at 1;
           now rewrite Hblock by (cbn; lia));
      try (now rewrite Hblock by (cbn; lia)).
    intros i Hk Hk1 Hk2.
    destruct (Nat.lt_ge_cases i (List.length before)) as [Hlt|Hge].
    + now rewrite !List.nth_error_app1.
    + rewrite !(List.nth_error_app2 before) by lia.
      rewrite !List.nth_error_app2 by (cbn [List.length]; lia).
      reflexivity.
Qed.

(** The render of the sample model with logging on and off: at line 49 the two
    differ, and neither line is the other with a comment marker in front. *)
Lemma logging_toggle_changes_comment :
  List.nth_error
    (lines (config_text sample_environment (set_logging true sample_config)))
    48 = Some "# Enable query logging"
  /\ List.nth_error
       (lines (config_text sample_environment (set_logging false sample_config)))
       48 = Some "# Disable query logging"
  /\ "# Disable query logging" <> "#" ++ "# Enable query logging"
  /\ "# Enable query logging" <> "#" ++ "# Disable query logging".
Proof.
  split; [vm_compute; reflexivity|].
  split; [vm_compute; reflexivity|].
  split; discriminate.
Qed.

Lemma single_line_string_of_uint (d : Decimal.uint) :
  single_line (NilEmpty.string_of_uint d) = true.
Proof. induction d; cbn; assumption || reflexivity. Qed.

Lemma single_line_print_unsigned (z : Z) : single_line (print_unsigned z) = true.
Proof. apply single_line_string_of_uint. Qed.

Lemma single_line_write_array (key : string) (array : json_array) :
  single_line key = true ->
  single_line_items array = true ->
  List.forallb single_line (write_array key array) = true.
Proof.
  intros Hkey. rewrite write_array_items. unfold single_line_items.
  induction (string_items array) as [|s items IH]; intros H; [reflexivity|].
  cbn [List.forallb List.map] in *. apply andb_true_iff in H as [Hs Hitems].
  now rewrite single_line_app, Hkey, Hs, IH.
Qed.

Lemma forallb_blocks (f : string -> bool) (bs : list (list string)) :
  List.forallb f (blocks bs) = List.forallb (List.forallb f) bs.
Proof.
  unfold blocks. induction bs as [|b bs IH]; [reflexivity|].
  cbn [List.concat List.forallb]. now rewrite List.forallb_app, IH.
Qed.

Lemma forallb_when (f : string -> bool) (c : bool) (block : list string) :
  List.forallb f block = true -> List.forallb f (when c block) = true.
Proof. now destruct c. Qed.

Lemma single_line_fallback_interface (conf : config) :
  single_line (interface (dnsmasq conf)) = true ->
  single_line (fallback_interface conf) = true.
Proof.
  intros H. unfold fallback_interface.
  now destruct (strlen (interface (dnsmasq conf)) =? 0)%nat.
Qed.

(** Splits a conjunction of boolean facts in the context into its parts. *)
Ltac split_andb :=
  repeat match goal with
    | H : (_ && _)%bool = true |- _ =>
        apply andb_true_iff in H; destruct H
    end.

(** Proves that the records of a block hold no newline, from the facts in the
    context about the strings spliced in. *)
Ltac single_line_block :=
  repeat (first
    [ reflexivity
    | assumption
    | apply single_line_print_unsigned
    | apply forallb_when
    | apply single_line_write_array
    | apply single_line_fallback_interface
    | rewrite forallb_blocks
    | rewrite single_line_app
    | progress cbn [List.forallb]
    | apply andb_true_iff; split ]).

(** Under [single_line_config] every record the writer emits is one line. *)
Lemma config_records_single_line (env : environment) (conf : config) :
  single_line_config env conf = true ->
  List.forallb single_line (config_records env conf) = true.
Proof.
  unfold single_line_config. intros H. split_andb.
  unfold config_records. rewrite forallb_blocks. cbn [List.forallb].
  replace (List.forallb single_line (write_config_header env)) with true
    by (unfold write_config_header; symmetry; single_line_block).
  replace (List.forallb single_line (static_section env conf)) with true
    by (unfold static_section; symmetry; single_line_block).
  replace (List.forallb single_line (upstream_section conf)) with true
    by (unfold upstream_section; symmetry; single_line_block).
  replace (List.forallb single_line (cache_section conf)) with true
    by (unfold cache_section; symmetry; single_line_block).
  replace (List.forallb single_line (logging_section conf)) with true
    by (unfold logging_section; now destruct (logging (dnsmasq conf))).
  replace (List.forallb single_line (log_facility_section conf)) with true
    by (unfold log_facility_section; symmetry; single_line_block).
  replace (List.forallb single_line (flags_section conf)) with true
    by (unfold flags_section; symmetry; single_line_block).
  replace (List.forallb single_line (domain_section conf)) with true
    by (unfold domain_section; symmetry; single_line_block).
  replace (List.forallb single_line (host_record_section conf)) with true
    by (unfold host_record_section; symmetry; single_line_block).
  replace (List.forallb single_line (listening_section conf)) with true
    by (unfold listening_section; symmetry;
        destruct (listening_mode (dnsmasq conf)); single_line_block).
  replace (List.forallb single_line (rev_server_section conf)) with true
    by (unfold rev_server_section; symmetry; single_line_block).
  replace (List.forallb single_line (dhcp_section conf)) with true
    by (unfold dhcp_section; symmetry; single_line_block).
  replace (List.forallb single_line (cnames_section conf)) with true
    by (unfold cnames_section; symmetry; single_line_block).
  replace (List.forallb single_line (conf_dir_section env)) with true
    by (unfold conf_dir_section; symmetry; single_line_block).
  reflexivity.
Qed.

(** Under [single_line_config] the lines of the staged file are the records
    the writer emits. *)
Lemma lines_config_text (env : environment) (conf : config) :
  single_line_config env conf = true ->
  lines (config_text env conf) = config_records env conf.
Proof.
  intros H. apply lines_unlines. now apply config_records_single_line.
Qed.

(* ================================================================= *)
(** ** Picking directives out of the rendered lines *)

Lemma filter_blocks (f : string -> bool) (bs : list (list string)) :
  List.filter f (blocks bs) = List.concat (List.map (List.filter f) bs).
Proof.
  unfold blocks. induction bs as [|b bs IH]; [reflexivity|].
  cbn [List.concat List.map]. now rewrite List.filter_app, IH.
Qed.

Lemma filter_map_all (f : string -> bool) (key : string) (items : list string) :
  (forall s, f (key ++ s) = true) ->
  List.filter f (List.map (String.append key) items)
  = List.map (String.append key) items.
Proof.
  intros H. induction items as [|s items IH]; [reflexivity|].
  cbn [List.map List.filter]. now rewrite H, IH.
Qed.

Lemma filter_map_none (f : string -> bool) (key : string) (items : list string) :
  (forall s, f (key ++ s) = false) ->
  List.filter f (List.map (String.append key) items) = [].
Proof.
  intros H. induction items as [|s items IH]; [reflexivity|].
  cbn [List.map List.filter]. now rewrite H, IH.
Qed.

(** The block written for an array: of its records, a filter that passes
    neither the heading comment nor the empty record sees those of the
    loop. *)
Lemma filter_array_block (f : string -> bool) (heading key : string)
  (array : json_array) :
  f heading = false ->
  f EmptyString = false ->
  List.filter f
    (when (0 <? cJSON_GetArraySize array)%Z
       (blocks [ [heading]; write_array key array; [EmptyString] ]))
  = List.filter f (List.map (String.append key) (string_items array)).
Proof.
  intros Hh He. unfold cJSON_GetArraySize.
  destruct array as [|item array].
  - reflexivity.
  - replace (0 <? Z.of_nat (List.length (item :: array)))%Z with true
      by (symmetry; apply Z.ltb_lt; cbn [List.length]; lia).
    cbn [when]. rewrite filter_blocks, write_array_items.
    cbn [List.map List.concat List.filter]. rewrite Hh, He.
    cbn [List.app]. now rewrite !List.app_nil_r.
Qed.

(** Evaluates a filter over a block that holds no array. *)
Ltac plain_block :=
  cbv zeta;
  repeat match goal with
    | |- context [when ?c _] => destruct c; cbn [when]
    end;
  reflexivity.

(** Shows that a block without an array holds no record a filter passes. *)
Ltac no_records f sec :=
  replace (List.filter f sec) with (@nil string)
    by (symmetry;
        cbv beta delta
          [write_config_header static_section cache_section
             log_facility_section flags_section domain_section
             host_record_section rev_server_section conf_dir_section
             rfc6761_section];
        plain_block).

(** The same for the DHCP block, whose array writes [key] records only. *)
Ltac no_dhcp_records f conf :=
  replace (List.filter f (dhcp_section conf)) with (@nil string)
    by (symmetry; unfold dhcp_section; cbv zeta;
        destruct (dhcp_active (dhcp (dnsmasq conf))); [|reflexivity];
        cbn [when]; rewrite filter_blocks; cbn [List.map List.concat];
        rewrite filter_array_block by reflexivity;
        rewrite filter_map_none by reflexivity;
        plain_block).

Ltac no_array_records f sec :=
  replace (List.filter f sec) with (@nil string)
    by (symmetry; cbv beta delta [upstream_section cnames_section];
        rewrite filter_array_block by reflexivity;
        apply filter_map_none; reflexivity).

Ltac no_logging_records f conf :=
  replace (List.filter f (logging_section conf)) with (@nil string)
    by (unfold logging_section; now destruct (logging (dnsmasq conf))).

Ltac no_listening_records f conf :=
  replace (List.filter f (listening_section conf)) with (@nil string)
    by (unfold listening_section;
        now destruct (listening_mode (dnsmasq conf))).

(** All [server=] records of a render: those of the upstream list, then those
    written for domains. *)
Lemma server_records (env : environment) (conf : config) :
  List.filter is_server_line (config_records env conf)
  = (List.map (String.append "server=")
       (string_items (upstreams (dnsmasq conf)))
     ++ domain_server_lines conf)%list.
Proof.
  unfold config_records. rewrite filter_blocks. cbn [List.map List.concat].
  no_records is_server_line (write_config_header env).
  no_records is_server_line (static_section env conf).
  replace (List.filter is_server_line (upstream_section conf))
    with (List.map (String.append "server=")
            (string_items (upstreams (dnsmasq conf))))
    by (unfold upstream_section; symmetry;
        rewrite filter_array_block by reflexivity;
        apply filter_map_all; intros s; apply prefix_append).
  no_records is_server_line (cache_section conf).
  no_logging_records is_server_line conf.
  no_records is_server_line (log_facility_section conf).
  no_records is_server_line (flags_section conf).
  no_records is_server_line (domain_section conf).
  no_records is_server_line (host_record_section conf).
  no_listening_records is_server_line conf.
  no_dhcp_records is_server_line conf.
  no_array_records is_server_line (cnames_section conf).
  no_records is_server_line (conf_dir_section env).
  unfold domain_server_lines, rev_server_section. cbv zeta.
  destruct (rev_active (rev_server (dnsmasq conf)));
    [destruct (0 <? strlen (rev_domain (rev_server (dnsmasq conf))))%nat,
       (domain_needed (dnsmasq conf))|];
    reflexivity.
Qed.

(** All [dhcp-host=] records of a render: those of the host list when the
    DHCP block is written, none otherwise. *)
Lemma dhcp_host_records (env : environment) (conf : config) :
  List.filter is_dhcp_host_line (config_records env conf)
  = if dhcp_active (dhcp (dnsmasq conf))
    then List.map (String.append "dhcp-host=")
           (string_items (dhcp_hosts (dhcp (dnsmasq conf))))
    else [].
Proof.
  unfold config_records. rewrite filter_blocks. cbn [List.map List.concat].
  no_records is_dhcp_host_line (write_config_header env).
  no_records is_dhcp_host_line (static_section env conf).
  no_array_records is_dhcp_host_line (upstream_section conf).
  no_records is_dhcp_host_line (cache_section conf).
  no_logging_records is_dhcp_host_line conf.
  no_records is_dhcp_host_line (log_facility_section conf).
  no_records is_dhcp_host_line (flags_section conf).
  no_records is_dhcp_host_line (domain_section conf).
  no_records is_dhcp_host_line (host_record_section conf).
  no_listening_records is_dhcp_host_line conf.
  no_records is_dhcp_host_line (rev_server_section conf).
  no_array_records is_dhcp_host_line (cnames_section conf).
  no_records is_dhcp_host_line rfc6761_section.
  no_records is_dhcp_host_line (conf_dir_section env).
  cbn [List.app]. rewrite List.app_nil_r.
  unfold dhcp_section. cbv zeta.
  destruct (dhcp_active (dhcp (dnsmasq conf))); [|reflexivity].
  cbn [when]. rewrite filter_blocks. cbn [List.map List.concat].
  rewrite filter_array_block by reflexivity.
  rewrite filter_map_all by (intros s; apply prefix_append).
  destruct (dhcp_rapid_commit (dhcp (dnsmasq conf))),
    (dhcp_ipv6 (dhcp (dnsmasq conf)));
    cbn [when]; cbn [List.app]; now rewrite List.app_nil_r.
Qed.

(** All [cname=] records of a render: those of the CNAME list. *)
Lemma cname_records (env : environment) (conf : config) :
  List.filter is_cname_line (config_records env conf)
  = List.map (String.append "cname=") (string_items (cnames (dnsmasq conf))).
Proof.
  unfold config_records. rewrite filter_blocks. cbn [List.map List.concat].
  no_records is_cname_line (write_config_header env).
  no_records is_cname_line (static_section env conf).
  no_array_records is_cname_line (upstream_section conf).
  no_records is_cname_line (cache_section conf).
  no_logging_records is_cname_line conf.
  no_records is_cname_line (log_facility_section conf).
  no_records is_cname_line (flags_section conf).
  no_records is_cname_line (domain_section conf).
  no_records is_cname_line (host_record_section conf).
  no_listening_records is_cname_line conf.
  no_records is_cname_line (rev_server_section conf).
  no_dhcp_records is_cname_line conf.
  no_records is_cname_line rfc6761_section.
  no_records is_cname_line (conf_dir_section env).
  cbn [List.app]. rewrite List.app_nil_r.
  unfold cnames_section. rewrite filter_array_block by reflexivity.
  apply filter_map_all. intros s. apply prefix_append.
Qed.

Lemma is_listening_interface (name : string) :
  is_listening_line ("interface=" ++ name) = true.
Proof.
  unfold is_listening_line. rewrite (prefix_append "interface=" name).
  now rewrite orb_true_r.
Qed.

Lemma fallback_interface_eq (conf : config) :
  fallback_interface conf
  = if String.eqb (interface (dnsmasq conf)) EmptyString
    then "eth0"
    else interface (dnsmasq conf).
Proof.
  unfold fallback_interface. now destruct (interface (dnsmasq conf)).
Qed.

(** All listening directives of a render: the form of the configured mode. *)
Lemma listening_records (env : environment) (conf : config) :
  List.filter is_listening_line (config_records env conf)
  = match listening_mode (dnsmasq conf) with
    | LISTEN_LOCAL => [ "local-service" ]
    | LISTEN_ALL => [ "except-interface=nonexisting" ]
    | LISTEN_SINGLE => [ "interface=" ++ fallback_interface conf ]
    | LISTEN_BIND =>
        [ "interface=" ++ fallback_interface conf; "bind-interfaces" ]
    end.
Proof.
  unfold config_records. rewrite filter_blocks. cbn [List.map List.concat].
  no_records is_listening_line (write_config_header env).
  no_records is_listening_line (static_section env conf).
  no_array_records is_listening_line (upstream_section conf).
  no_records is_listening_line (cache_section conf).
  no_logging_records is_listening_line conf.
  no_records is_listening_line (log_facility_section conf).
  no_records is_listening_line (flags_section conf).
  no_records is_listening_line (domain_section conf).
  no_records is_listening_line (host_record_section conf).
  no_records is_listening_line (rev_server_section conf).
  no_dhcp_records is_listening_line conf.
  no_array_records is_listening_line (cnames_section conf).
  no_records is_listening_line rfc6761_section.
  no_records is_listening_line (conf_dir_section env).
  cbn [List.app]. rewrite List.app_nil_r.
  unfold listening_section. cbv zeta. rewrite filter_blocks.
  destruct (listening_mode (dnsmasq conf));
    cbn [List.map List.concat List.filter];
    rewrite ?is_listening_interface; reflexivity.
Qed.

(** With no test asked for, what the writer returns and what it does are the
    same for every model: nothing in a model makes the writer report an
    error. *)
Lemma write_dnsmasq_config_untested (env : environment) (conf conf' : config)
  (fs : files) :
  result (write_dnsmasq_config env conf false fs)
  = result (write_dnsmasq_config env conf' false fs)
  /\ trace (write_dnsmasq_config env conf false fs)
     = trace (write_dnsmasq_config env conf' false fs).
Proof.
  unfold write_dnsmasq_config.
  generalize (config_text env conf) as text.
  generalize (config_text env conf') as text'. intros text' text.
  destruct (fopen_ok env), (flock_ex_rc env =? 0)%Z,
    (flock_un_rc env =? 0)%Z, (rename_rc env =? 0)%Z,
    (fclose_rc env =? 0)%Z; split; reflexivity.
Qed.

Lemma domain_server_lines_scoped (conf : config) :
  List.forallb (String.prefix "server=/") (domain_server_lines conf) = true.
Proof.
  unfold domain_server_lines. cbv zeta.
  destruct (rev_active (rev_server (dnsmasq conf)));
    [destruct (0 <? strlen (rev_domain (rev_server (dnsmasq conf))))%nat,
       (domain_needed (dnsmasq conf))|];
    cbn [List.concat List.app List.forallb];
    rewrite ?(prefix_append "server=/"); reflexivity.
Qed.

(** C3, as the code has it: in the render of a model whose strings hold no
    newline, the lines that are [server=] directives are, first, one line
    [server=<s>] for every string [s] of the upstream list, in the order of
    the list, and after them only lines written for domains, which start
    with [server=/].  Their number from the upstream list is the number of
    its strings; an empty list leaves the domain lines alone. *)
Theorem upstream_server_lines (env : environment) (conf : config) :
  single_line_config env conf = true ->
  let servers := string_items (upstreams (dnsmasq conf)) in
  let server_lines :=
    List.filter is_server_line (lines (config_text env conf)) in
  server_lines
  = (List.map (String.append "server=") servers
     ++ domain_server_lines conf)%list
  /\ List.length (List.map (String.append "server=") servers)
     = count_strings (upstreams (dnsmasq conf))
  /\ List.forallb (String.prefix "server=/") (domain_server_lines conf) = true
  /\ (upstreams (dnsmasq conf) = [] ->
      server_lines = domain_server_lines conf).
Proof.
  intros H. cbv zeta. rewrite (lines_config_text env conf H), server_records.
  split; [reflexivity|split; [|split]].
  - now rewrite List.length_map, count_strings_items.
  - apply domain_server_lines_scoped.
  - now intros ->.
Qed.

(** The sample model: two upstream servers around an item that is a number. *)
Lemma upstream_server_lines_witness :
  List.filter is_server_line
    (lines (config_text sample_environment sample_config))
  = [ "server=8.8.8.8"; "server=8.8.4.4";
      "server=/lan/192.168.0.1"; "server=//192.168.0.1";
      "server=/test/"; "server=/localhost/"; "server=/invalid/";
      "server=/bind/"; "server=/onion/" ].
Proof.
  exact (proj1 (upstream_server_lines sample_environment sample_config
                  eq_refl)).
Defined.

(** C3 as stated, for every model, fails: the writer copies a string as it
    is, so one upstream server that holds a newline gives two [server=] lines
    that are not written for a domain. *)
Lemma upstream_newline_adds_server_line :
  count_strings (upstreams (dnsmasq newline_upstream_config)) = 1
  /\ single_line_config sample_environment newline_upstream_config = false
  /\ List.filter is_server_line
       (lines (config_text sample_environment newline_upstream_config))
     = [ "server=1.1.1.1"; "server=2.2.2.2";
         "server=/test/"; "server=/localhost/"; "server=/invalid/";
         "server=/bind/"; "server=/onion/" ].
Proof. vm_compute. repeat split. Qed.

(** C7, as the code has it: in the render of a model whose strings hold no
    newline, the lines that are listening directives ([local-service],
    [except-interface=...], [interface=...], [bind-interfaces]) are exactly
    those of the form the configured mode selects, and the interface named
    is ["eth0"] when the configured name is empty. *)
Theorem listening_mode_lines (env : environment) (conf : config) :
  single_line_config env conf = true ->
  let name :=
    if String.eqb (interface (dnsmasq conf)) EmptyString
    then "eth0"
    else interface (dnsmasq conf) in
  List.filter is_listening_line (lines (config_text env conf))
  = match listening_mode (dnsmasq conf) with
    | LISTEN_LOCAL => [ "local-service" ]
    | LISTEN_ALL => [ "except-interface=nonexisting" ]
    | LISTEN_SINGLE => [ "interface=" ++ name ]
    | LISTEN_BIND => [ "interface=" ++ name; "bind-interfaces" ]
    end.
Proof.
  intros H. cbv zeta.
  rewrite (lines_config_text env conf H), listening_records,
    fallback_interface_eq.
  reflexivity.
Qed.

(** The sample model: one interface, none named. *)
Lemma listening_mode_lines_witness :
  List.filter is_listening_line
    (lines (config_text sample_environment sample_config))
  = [ "interface=eth0" ].
Proof.
  exact (listening_mode_lines sample_environment sample_config eq_refl).
Defined.

(** C7 as stated, for every model, fails: with an interface name that holds a
    newline, the render of the mode for one interface also holds the
    directive of the local mode. *)
Lemma interface_newline_adds_listening_line :
  listening_mode (dnsmasq newline_interface_config) = LISTEN_SINGLE
  /\ single_line_config sample_environment newline_interface_config = false
  /\ List.filter is_listening_line
       (lines (config_text sample_environment newline_interface_config))
     = [ "interface=eth0"; "local-service" ].
Proof. vm_compute. repeat split. Qed.

(** C10, as the code has it: in the render of a model whose strings hold no
    newline, an item of the three lists that is not a string leaves no line
    and no error.  The [server=] lines are those of the strings of the
    upstream list followed by the lines written for domains, the [cname=]
    lines are those of the strings of the CNAME list, and the [dhcp-host=]
    lines are those of the strings of the host list when the DHCP block is
    enabled; when it is disabled there is none.  What the writer returns and
    does without a test is the same for every model. *)
Theorem list_items_rendered (env : environment) (conf : config) :
  single_line_config env conf = true ->
  let text := lines (config_text env conf) in
  let d := dnsmasq conf in
  (List.filter is_server_line text
   = (List.map (String.append "server=") (string_items (upstreams d))
      ++ domain_server_lines conf)%list
   /\ List.length (List.filter is_server_line text)
      = count_strings (upstreams d) + List.length (domain_server_lines conf))
  /\ (List.filter is_cname_line text
      = List.map (String.append "cname=") (string_items (cnames d))
      /\ List.length (List.filter is_cname_line text)
         = count_strings (cnames d))
  /\ (List.filter is_dhcp_host_line text
      = (if dhcp_active (dhcp d)
         then List.map (String.append "dhcp-host=")
                (string_items (dhcp_hosts (dhcp d)))
         else [])
      /\ List.length (List.filter is_dhcp_host_line text)
         = (if dhcp_active (dhcp d)
            then count_strings (dhcp_hosts (dhcp d))
            else 0))
  /\ (forall (conf' : config) (fs : files),
         result (write_dnsmasq_config env conf false fs)
         = result (write_dnsmasq_config env conf' false fs)
         /\ trace (write_dnsmasq_config env conf false fs)
            = trace (write_dnsmasq_config env conf' false fs)).
Proof.
  intros H. cbv zeta. rewrite (lines_config_text env conf H).
  rewrite server_records, cname_records, dhcp_host_records.
  repeat split.
  - now rewrite List.length_app, List.length_map, count_strings_items.
  - now rewrite List.length_map, count_strings_items.
  - destruct (dhcp_active (dhcp (dnsmasq conf))); [|reflexivity].
    now rewrite List.length_map, count_strings_items.
  - apply write_dnsmasq_config_untested.
  - apply write_dnsmasq_config_untested.
Qed.

(** The sample model: a CNAME list of a string and a null. *)
Lemma list_items_rendered_witness :
  List.filter is_cname_line
    (lines (config_text sample_environment sample_config))
  = [ "cname=www.lan,server.lan" ]
  /\ List.length (cnames (dnsmasq sample_config)) = 2.
Proof.
  exact (conj
           (proj1 (proj1 (proj2
              (list_items_rendered sample_environment sample_config eq_refl))))
           eq_refl).
Defined.

(** C10 as stated fails where the DHCP block is disabled: the host list of the
    sample model holds one string, and its render holds no [dhcp-host=]
    line. *)
Lemma dhcp_hosts_not_rendered_when_disabled :
  dhcp_active (dhcp (dnsmasq sample_config)) = false
  /\ count_strings (dhcp_hosts (dhcp (dnsmasq sample_config))) = 1
  /\ List.length
       (List.filter is_dhcp_host_line
          (lines (config_text sample_environment sample_config))) = 0.
Proof. repeat split; vm_compute; reflexivity. Qed.

(* ================================================================= *)
(** * Further properties of the writer *)

(** Closes a goal about one path through [write_dnsmasq_config] in which the
    bare results of the system calls matter. *)
Ltac settle_path :=
  cbn [negb andb result after trace ph_config temp_conf];
  rewrite ?in_concat3; cbn [In];
  intuition (try discriminate; try congruence; try lia).

(** X1: The writer returns success exactly when the staged file could be
    opened, locked and unlocked, the test (if one was asked for) passed, and
    both the rename and the final close succeeded.  What the writes
    returned plays no part in it.  After a run that returned success the
    staged path is gone, a live file exists, and the rename has been called
    once the lock was released. *)
Theorem write_dnsmasq_config_success
  (env : environment) (conf : config) (test_config : bool) (fs : files) :
  let run := write_dnsmasq_config env conf test_config fs in
  (result run = true
   <-> fopen_ok env = true
       /\ flock_ex_rc env = 0%Z
       /\ flock_un_rc env = 0%Z
       /\ (test_config = true -> staged_config_valid env conf = true)
       /\ rename_rc env = 0%Z
       /\ fclose_rc env = 0%Z)
  /\ (result run = true ->
      temp_conf (after run) = None
      /\ ph_config (after run) <> None
      /\ In (Sys "rename") (trace run)).
Proof.
  unfold write_dnsmasq_config, staged_config_valid.
  destruct (test_dnsmasq_config (pipe_rc env)
              (child_status env (config_text env conf))) as [valid tested].
  cbn [fst snd].
  generalize (config_text env conf) as text. intros text.
  destruct (fopen_ok env); [|settle_path].
  destruct (Z.eqb_spec (flock_ex_rc env) 0); [|settle_path].
  destruct (Z.eqb_spec (flock_un_rc env) 0); [|settle_path].
  destruct test_config, valid; try solve [settle_path];
    (destruct (Z.eqb_spec (rename_rc env) 0); [|settle_path]);
    destruct (Z.eqb_spec (fclose_rc env) 0); settle_path.
Qed.

(** A run without a test in which every step succeeds. *)
Lemma write_dnsmasq_config_success_witness :
  result (write_dnsmasq_config accepting_environment sample_config false
            sample_files) = true
  /\ temp_conf
       (after (write_dnsmasq_config accepting_environment sample_config
                 false sample_files)) = None.
Proof.
  pose proof (write_dnsmasq_config_success accepting_environment
                sample_config false sample_files) as [Hiff Hafter].
  assert (result (write_dnsmasq_config accepting_environment sample_config
                    false sample_files) = true) as Hres.
  { apply (proj2 Hiff).
    exact (conj eq_refl (conj eq_refl (conj eq_refl
             (conj (fun H : false = true =>
                      False_ind _ (diff_false_true H))
                   (conj eq_refl eq_refl))))). }
  exact (conj Hres (proj1 (Hafter Hres))).
Defined.

(** X2: A failure reported by the writer does not mean the old configuration is
    still live: when everything up to the rename succeeds and only the final
    [fclose] fails, the writer returns failure although the staged file has
    already replaced the live file. *)
Theorem write_dnsmasq_config_close_failure
  (env : environment) (conf : config) (test_config : bool) (fs : files) :
  fopen_ok env = true ->
  flock_ex_rc env = 0%Z ->
  flock_un_rc env = 0%Z ->
  (test_config = true -> staged_config_valid env conf = true) ->
  rename_rc env = 0%Z ->
  fclose_rc env <> 0%Z ->
  let run := write_dnsmasq_config env conf test_config fs in
  result run = false
  /\ after run
     = {| temp_conf := None; ph_config := Some (config_text env conf) |}
  /\ In (Log LOG_ERR "Cannot close dnsmasq config file: %s") (trace run).
Proof.
  unfold write_dnsmasq_config, staged_config_valid.
  destruct (test_dnsmasq_config (pipe_rc env)
              (child_status env (config_text env conf))) as [valid tested].
  cbn [fst snd].
  generalize (config_text env conf) as text.
  intros text Hopen Hex Hun Hvalid Hrename Hclose.
  apply Z.eqb_neq in Hclose.
  rewrite Hopen, Hex, Hun, Hrename, Hclose. cbn [negb Z.eqb].
  destruct test_config, valid; settle_path.
Qed.

(** A run with a test that passes and a close that fails. *)
Lemma write_dnsmasq_config_close_failure_witness :
  result (write_dnsmasq_config close_failing_environment sample_config true
            sample_files) = false
  /\ ph_config
       (after (write_dnsmasq_config close_failing_environment sample_config
                 true sample_files))
     = Some (config_text close_failing_environment sample_config).
Proof.
  destruct (write_dnsmasq_config_close_failure close_failing_environment
              sample_config true sample_files eq_refl eq_refl eq_refl
              (fun _ => eq_refl) eq_refl ltac:(discriminate))
    as (Hres & Hafter & _).
  exact (conj Hres (f_equal ph_config Hafter)).
Defined.



(** X4: The live file changes only through the rename: after a run in which
    [rename] was not called, or was called and failed, the live file is what
    it was.  A failed [fopen] changes no file.  The staged file is not as
    well protected: when the exclusive lock cannot be taken, the file that
    [fopen] has already truncated is left behind empty. *)
Theorem write_dnsmasq_config_live_file_by_rename
  (env : environment) (conf : config) (test_config : bool) (fs : files) :
  let run := write_dnsmasq_config env conf test_config fs in
  (~ In (Sys "rename") (trace run) \/ rename_rc env <> 0%Z ->
   ph_config (after run) = ph_config fs)
  /\ (fopen_ok env = false -> after run = fs)
  /\ (fopen_ok env = true ->
      flock_ex_rc env <> 0%Z ->
      temp_conf (after run) = Some EmptyString
      /\ ph_config (after run) = ph_config fs).
Proof.
  unfold write_dnsmasq_config.
  destruct (test_dnsmasq_config (pipe_rc env)
              (child_status env (config_text env conf))) as [valid tested].
  generalize (config_text env conf) as text. intros text.
  destruct (fopen_ok env); [|settle_path].
  destruct (Z.eqb_spec (flock_ex_rc env) 0); [|settle_path].
  destruct (Z.eqb_spec (flock_un_rc env) 0); [|settle_path].
  destruct test_config, valid; try solve [settle_path];
    (destruct (Z.eqb_spec (rename_rc env) 0); [|settle_path]);
    destruct (Z.eqb_spec (fclose_rc env) 0); settle_path.
Qed.

Lemma test_dnsmasq_config_keeps_stream (pipe_rc status : Z) :
  ~ In (Sys "fclose") (snd (test_dnsmasq_config pipe_rc status)).
Proof.
  unfold test_dnsmasq_config.
  destruct (negb (pipe_rc =? 0)%Z), (WIFSIGNALED status); cbn;
    intuition discriminate.
Qed.

(** X5: The stream on the staged file is not closed on every path.  Once the
    file is open, [fclose] is called when a lock call fails, and otherwise
    only when the rename is reached and succeeds: a staged text the test
    rejects and a rename that fails both make the writer return with the
    stream still open. *)
Theorem write_dnsmasq_config_closes_stream
  (env : environment) (conf : config) (test_config : bool) (fs : files) :
  fopen_ok env = true ->
  In (Sys "fclose") (trace (write_dnsmasq_config env conf test_config fs))
  <-> flock_ex_rc env <> 0%Z
      \/ flock_un_rc env <> 0%Z
      \/ ((test_config = true -> staged_config_valid env conf = true)
          /\ rename_rc env = 0%Z).
Proof.
  unfold write_dnsmasq_config, staged_config_valid.
  pose proof (test_dnsmasq_config_keeps_stream (pipe_rc env)
                (child_status env (config_text env conf))) as Hkeeps.
  destruct (test_dnsmasq_config (pipe_rc env)
              (child_status env (config_text env conf))) as [valid tested].
  cbn [fst snd] in *.
  generalize (config_text env conf) as text. intros text Hopen.
  rewrite Hopen. cbn [negb].
  destruct (Z.eqb_spec (flock_ex_rc env) 0); [|settle_path].
  destruct (Z.eqb_spec (flock_un_rc env) 0); [|settle_path].
  destruct test_config, valid; try solve [settle_path];
    (destruct (Z.eqb_spec (rename_rc env) 0); [|settle_path]);
    destruct (Z.eqb_spec (fclose_rc env) 0); settle_path.
Qed.

(** A run in which every step succeeds closes the stream. *)
Lemma write_dnsmasq_config_closes_stream_witness :
  In (Sys "fclose")
    (trace (write_dnsmasq_config accepting_environment sample_config false
              sample_files)).
Proof.
  exact (proj2 (write_dnsmasq_config_closes_stream accepting_environment
                  sample_config false sample_files eq_refl)
           (or_intror (or_intror
              (conj (fun H : false = true => False_ind _ (diff_false_true H))
                    eq_refl)))).
Defined.

(* ================================================================= *)
(** * Further properties of the validator *)

Lemma exit_statuses_checked :
  List.forallb
    (fun code : nat =>
       let status := (Z.of_nat code * 256)%Z in
       (WEXITSTATUS status =? Z.of_nat code)%Z && negb (WIFSIGNALED status))
    (List.seq 0 256) = true.
Proof. vm_compute. reflexivity. Qed.

Lemma signal_statuses_checked :
  List.forallb
    (fun sig : nat =>
       let status := Z.of_nat sig in
       WIFSIGNALED status && WIFSIGNALED (status + 128)
       && (WTERMSIG status =? status)%Z
       && (WTERMSIG (status + 128) =? status)%Z
       && negb (WCOREDUMP status) && WCOREDUMP (status + 128))
    (List.seq 1 126) = true.
Proof. vm_compute. reflexivity. Qed.

(** X6: How the verdict reads the status [waitpid] stores on Linux.  A child that
    exits with code [code] (status [code * 256]) passes exactly when the code
    is 0, and the validator logs nothing about it.  A child ended by signal
    [sig], with or without a core dump (status [sig] or [sig + 128]), fails,
    and the message about the signal is logged. *)
Theorem test_dnsmasq_config_exit_and_signal :
  (forall code : Z,
      (0 <= code <= 255)%Z ->
      test_dnsmasq_config 0 (code * 256)
      = ((code =? 0)%Z, [ Sys "pipe"; Sys "fork"; Sys "waitpid" ]))
  /\ (forall (sig : Z) (core : bool),
         (1 <= sig <= 126)%Z ->
         let status := (if core then sig + 128 else sig)%Z in
         test_dnsmasq_config 0 status
         = (false,
            [ Sys "pipe"; Sys "fork"; Sys "waitpid";
              Log LOG_ERR "dnsmasq test failed with signal %d %s" ])
         /\ WTERMSIG status = sig
         /\ WCOREDUMP status = core).
Proof.
  split.
  - intros code Hcode.
    pose proof exit_statuses_checked as Htable.
    rewrite List.forallb_forall in Htable.
    specialize (Htable (Z.to_nat code)).
    rewrite Z2Nat.id in Htable by lia.
    assert (In (Z.to_nat code) (List.seq 0 256)) as Hin
        by (apply List.in_seq; lia).
    apply Htable in Hin. cbv zeta in Hin.
    apply andb_true_iff in Hin as [Hexit Hsig].
    apply Z.eqb_eq in Hexit. apply negb_true_iff in Hsig.
    unfold test_dnsmasq_config. cbn [negb Z.eqb].
    rewrite Hexit, Hsig. unfold EXIT_SUCCESS. cbn [negb].
    now rewrite andb_true_r.
  - intros sig core Hsig.
    pose proof signal_statuses_checked as Htable.
    rewrite List.forallb_forall in Htable.
    specialize (Htable (Z.to_nat sig)).
    rewrite Z2Nat.id in Htable by lia.
    assert (In (Z.to_nat sig) (List.seq 1 126)) as Hin
        by (apply List.in_seq; lia).
    apply Htable in Hin. cbv zeta in Hin.
    repeat (apply andb_true_iff in Hin; destruct Hin as [Hin ?]).
    repeat match goal with
      | H : (_ =? _)%Z = true |- _ => apply Z.eqb_eq in H
      | H : negb _ = true |- _ => apply negb_true_iff in H
      end.
    unfold test_dnsmasq_config. cbn [negb Z.eqb].
    destruct core; cbv zeta;
      repeat match goal with
        | H : WIFSIGNALED _ = true |- _ => rewrite H
        end;
      rewrite andb_false_r; repeat split; assumption.
Qed.

(** Exit code 1, and signal 11 with a core dump. *)
Lemma test_dnsmasq_config_exit_and_signal_witness :
  test_dnsmasq_config 0 256
  = (false, [ Sys "pipe"; Sys "fork"; Sys "waitpid" ])
  /\ WCOREDUMP 139 = true.
Proof.
  exact (conj
           (proj1 test_dnsmasq_config_exit_and_signal 1%Z ltac:(lia))
           (proj2 (proj2 (proj2 test_dnsmasq_config_exit_and_signal 11%Z true
                            ltac:(lia))))).
Defined.

(* ================================================================= *)
(** * Further properties of the line locator *)

Lemma chomp_cons (c : ascii) (l : string) :
  Ascii.eqb c LF = false -> chomp (String c l) = String c (chomp l).
Proof. intros H. cbn [chomp]. destruct l; [now rewrite H|reflexivity]. Qed.

(** The lines of a text are the buffers of [getline] less their newlines. *)
Lemma lines_getlines (content : string) :
  lines content = List.map chomp (getlines content).
Proof.
  induction content as [|c rest IH]; [reflexivity|].
  cbn [lines getlines]. rewrite IH.
  destruct (Ascii.eqb c LF) eqn:Hc; [reflexivity|].
  destruct (getlines rest) as [|l ls]; cbn [List.map].
  - now rewrite chomp_cons.
  - now rewrite chomp_cons.
Qed.

Lemma getlines_record_app (r rest : string) :
  single_line r = true ->
  getlines (r ++ nl ++ rest) = (r ++ nl) :: getlines rest.
Proof.
  induction r as [|c r IH]; intros H; [reflexivity|].
  cbn [single_line] in H. apply andb_true_iff in H as [Hc Hr].
  apply negb_true_iff in Hc.
  change (getlines (String c (r ++ nl ++ rest))
          = String c (r ++ nl) :: getlines rest).
  cbn [getlines]. now rewrite Hc, (IH Hr).
Qed.

(** [getline] gives back the records of a text one by one, each with its
    newline. *)
Lemma getlines_unlines (rs : list string) :
  List.forallb single_line rs = true ->
  getlines (unlines rs) = List.map (fun r => r ++ nl) rs.
Proof.
  induction rs as [|r rs IH]; intros H; [reflexivity|].
  cbn [List.forallb] in H. apply andb_true_iff in H as [Hr Hrs].
  cbn [unlines List.map]. now rewrite (getlines_record_app _ _ Hr), (IH Hrs).
Qed.

Lemma get_dnsmasq_line_loop_zero (buffers : list string) (count : Z) :
  (0 < count)%Z ->
  (Z.of_nat (List.length buffers) + count <= 4294967296)%Z ->
  get_dnsmasq_line_loop buffers count 0 = None.
Proof.
  revert count. induction buffers as [|b rest IH]; intros count Hc Hlen.
  - reflexivity.
  - cbn [get_dnsmasq_line_loop].
    destruct (Z.eqb_spec count 0) as [->|_]; [lia|].
    destruct rest as [|b' rest]; [reflexivity|].
    cbn [List.length] in Hlen.
    unfold to_uint. rewrite Z.mod_small by lia.
    apply IH; cbn [List.length]; lia.
Qed.

(** X7: Lines are numbered from 1.  For such a number the result is NULL exactly
    when the staged file has fewer lines, and otherwise it is that line of
    the file, up to the newline at its end.  Line 0 is never found (in a file
    of fewer than 4294967295 lines), and an unreadable file gives NULL. *)
Theorem get_dnsmasq_line_numbering (content : string) (lineno : Z) :
  (1 <= lineno < 4294967296)%Z ->
  (get_dnsmasq_line (Some content) lineno = None
   <-> (Z.of_nat (List.length (lines content)) < lineno)%Z)
  /\ (forall text : string,
         get_dnsmasq_line (Some content) lineno = Some text ->
         List.nth_error (lines content) (Z.to_nat (lineno - 1))
         = Some (chomp text))
  /\ ((Z.of_nat (List.length (lines content)) < 4294967295)%Z ->
      get_dnsmasq_line (Some content) 0 = None)
  /\ get_dnsmasq_line None lineno = None.
Proof.
  intros Hn. rewrite get_dnsmasq_line_raw by exact Hn.
  rewrite lines_getlines, List.length_map.
  split; [|split; [|split]].
  - rewrite List.nth_error_None. lia.
  - intros text H. now rewrite List.nth_error_map, H.
  - intros Hlen. unfold get_dnsmasq_line.
    apply get_dnsmasq_line_loop_zero; lia.
  - reflexivity.
Qed.

(** A file of three lines, the last without a newline. *)
Lemma get_dnsmasq_line_numbering_witness :
  List.nth_error (lines ("a" ++ nl ++ "b" ++ nl ++ "c")) 2 = Some "c"
  /\ (get_dnsmasq_line (Some ("a" ++ nl ++ "b" ++ nl ++ "c")) 4 = None
      <-> (Z.of_nat (List.length (lines ("a" ++ nl ++ "b" ++ nl ++ "c"))) < 4)%Z).
Proof.
  destruct (get_dnsmasq_line_numbering ("a" ++ nl ++ "b" ++ nl ++ "c") 3
              ltac:(lia)) as (_ & Hsome & _).
  exact (conj (Hsome "c" eq_refl)
           (proj1 (get_dnsmasq_line_numbering
                     ("a" ++ nl ++ "b" ++ nl ++ "c") 4 ltac:(lia)))).
Defined.

(** [getline] reads the staged text back record by record. *)
Lemma getlines_config_text (env : environment) (conf : config) :
  single_line_config env conf = true ->
  getlines (config_text env conf)
  = List.map (fun r => r ++ nl) (config_records env conf).
Proof.
  intros Hsingle. unfold config_text.
  apply getlines_unlines. now apply config_records_single_line.
Qed.

(** X8: Fetching a line of what the writer staged: when no string of the model
    holds a newline, line [k + 1] of the staged text is the record the writer
    emitted at position [k], returned with its newline. *)
Theorem get_dnsmasq_line_of_staged_config
  (env : environment) (conf : config) (k : nat) :
  single_line_config env conf = true ->
  (Z.of_nat k + 1 < 4294967296)%Z ->
  get_dnsmasq_line (Some (config_text env conf)) (Z.of_nat k + 1)
  = option_map (fun r => r ++ nl)
      (List.nth_error (config_records env conf) k).
Proof.
  intros Hsingle Hk. rewrite get_dnsmasq_line_raw by lia.
  rewrite getlines_config_text by assumption.
  replace (Z.to_nat (Z.of_nat k + 1 - 1)) with k by lia.
  now rewrite List.nth_error_map.
Qed.

(** Line 32 of the sample render is the port. *)
Lemma get_dnsmasq_line_of_staged_config_witness :
  get_dnsmasq_line (Some (config_text sample_environment sample_config)) 32
  = Some ("port=53" ++ nl).
Proof.
  exact (get_dnsmasq_line_of_staged_config sample_environment sample_config
           31 eq_refl ltac:(lia)).
Defined.

(** X9: From a diagnostic to the offending line, in the render of a model
    whose strings hold no newline: for a message that names line [k + 1] in
    the form the parser uses ("... at line N of <file>"), with no earlier
    marker in it, the number [get_lineno_from_string] extracts makes
    [get_dnsmasq_line] return the record the writer emitted at position [k],
    when the staged text has that many lines. *)
Theorem diagnostic_line_of_staged_config
  (env : environment) (conf : config) (message file : string) (k : nat)
  (record : string) :
  single_line_config env conf = true ->
  contains " at line " (message ++ " at line") = false ->
  List.nth_error (config_records env conf) k = Some record ->
  (Z.of_nat k + 1 <= 2147483647)%Z ->
  let diagnostic :=
    message ++ " at line " ++ print_unsigned (Z.of_nat k + 1)
      ++ " of " ++ file in
  get_lineno_from_string diagnostic = (Z.of_nat k + 1)%Z
  /\ get_dnsmasq_line (Some (config_text env conf))
       (get_lineno_from_string diagnostic)
     = Some (record ++ nl).
Proof.
  intros Hsingle Hfirst Hrecord Hk diagnostic.
  assert (get_lineno_from_string diagnostic = (Z.of_nat k + 1)%Z) as Hline.
  { unfold diagnostic.
    rewrite (get_lineno_from_string_scan _
               (print_unsigned (Z.of_nat k + 1) ++ " of " ++ file)).
    - rewrite scan_int_print_unsigned by (lia || reflexivity).
      apply stored_int_small. lia.
    - exact (strstr_first message " at line" _ " " Hfirst). }
  split; [exact Hline|].
  rewrite Hline, get_dnsmasq_line_raw by lia.
  rewrite getlines_config_text by assumption.
  replace (Z.to_nat (Z.of_nat k + 1 - 1)) with k by lia.
  now rewrite List.nth_error_map, Hrecord.
Qed.

(** The parser's complaint about line 33 of the sample render. *)
Lemma diagnostic_line_of_staged_config_witness :
  get_dnsmasq_line (Some (config_text sample_environment sample_config))
    (get_lineno_from_string
       ("bad option" ++ " at line " ++ print_unsigned (Z.of_nat 32 + 1)
        ++ " of " ++ "/etc/pihole/dnsmasq.conf.temp"))
  = Some ("# List of upstream DNS server" ++ nl).
Proof.
  exact (proj2 (diagnostic_line_of_staged_config sample_environment
                  sample_config "bad option" "/etc/pihole/dnsmasq.conf.temp"
                  32 "# List of upstream DNS server" eq_refl eq_refl eq_refl
                  ltac:(lia))).
Defined.

(** X22: A number no [int] can hold.  When the number after the first marker
    is too large or too small for an [int], the value returned is still an
    [int]: it is -1 for a number from LONG_MAX on and 0 for one up to
    LONG_MIN, as [strtol] saturates, and otherwise the number reduced modulo
    2^32, as the [long] is stored in an [int]. *)
Theorem get_lineno_from_string_out_of_range
  (pre ws tail : string) (n : Z) (plus : bool) :
  contains " at line " (pre ++ " at line") = false ->
  all_space ws = true ->
  isdigit (first_char tail) = false ->
  let lineno :=
    get_lineno_from_string
      (pre ++ " at line " ++ ws ++ print_signed plus n ++ tail) in
  (-2147483648 <= lineno <= 2147483647)%Z
  /\ (9223372036854775807 <= n -> lineno = (-1))%Z
  /\ (n <= -9223372036854775808 -> lineno = 0)%Z
  /\ (-9223372036854775808 <= n <= 9223372036854775807 ->
      (lineno - n) mod 4294967296 = 0)%Z.
Proof.
  intros Hfirst Hws Htail lineno.
  assert (lineno = to_int (saturate_long n)) as ->.
  { unfold lineno.
    rewrite (get_lineno_from_string_scan _
               (ws ++ print_signed plus n ++ tail)).
    - unfold scan_int. rewrite (skip_space_all_space _ _ Hws).
      fold (scan_int (print_signed plus n ++ tail)).
      now rewrite scan_int_print_signed.
    - exact (strstr_first pre " at line" _ " " Hfirst). }
  split; [|split; [|split]].
  - unfold to_int.
    pose proof (Z.mod_pos_bound (saturate_long n + 2147483648) 4294967296).
    lia.
  - intros Hn. unfold saturate_long. rewrite Z.min_r, Z.max_r by lia.
    reflexivity.
  - intros Hn. unfold saturate_long. rewrite Z.min_l, Z.max_l by lia.
    reflexivity.
  - intros Hn. unfold saturate_long. rewrite Z.min_l, Z.max_r by lia.
    unfold to_int.
    pose proof (Z.div_mod (n + 2147483648) 4294967296 ltac:(lia)) as Hdiv.
    replace ((n + 2147483648) mod 4294967296 - 2147483648 - n)%Z
      with (- ((n + 2147483648) / 4294967296) * 4294967296)%Z by lia.
    apply Z.mod_mul. lia.
Qed.

(** Line 2^32 + 42 reads as 42, and a number of twenty digits as -1. *)
Lemma get_lineno_from_string_out_of_range_witness :
  get_lineno_from_string
    ("bad option" ++ " at line " ++ EmptyString
     ++ print_signed false 99999999999999999999 ++ " of file")
  = (-1)%Z
  /\ ((get_lineno_from_string
         ("bad option" ++ " at line " ++ EmptyString
          ++ print_signed false 4294967338 ++ " of file")
       - 4294967338) mod 4294967296 = 0)%Z.
Proof.
  exact (conj
           (proj1 (proj2
              (get_lineno_from_string_out_of_range "bad option" EmptyString
                 " of file" 99999999999999999999 false eq_refl eq_refl
                 eq_refl))
              ltac:(lia))
           (proj2 (proj2 (proj2
              (get_lineno_from_string_out_of_range "bad option" EmptyString
                 " of file" 4294967338 false eq_refl eq_refl eq_refl)))
              ltac:(lia))).
Defined.

(* ================================================================= *)
(** * Further properties of the importers *)

(** Each importer changes its own list and nothing else of the model. *)
Lemma read_legacy_config_frame
  (env : legacy_environment) (fs : legacy_files) (conf : config) :
  config_after (read_legacy_dhcp_static_config env fs conf)
  = set_dhcp_hosts
      (dhcp_hosts
         (dhcp (dnsmasq
            (config_after (read_legacy_dhcp_static_config env fs conf)))))
      conf
  /\ config_after (read_legacy_cnames_config env fs conf)
     = set_cnames
         (cnames
            (dnsmasq (config_after (read_legacy_cnames_config env fs conf))))
         conf.
Proof.
  unfold read_legacy_dhcp_static_config, read_legacy_cnames_config,
    read_legacy_config.
  destruct conf as [[? ? ? ? ? ? ? ? ? ? ? ? ? [? ? ? ? ? ? ? ?] ?] ?].
  destruct (legacy_path fs); [|split; reflexivity].
  destruct (negb (legacy_fopen_ok env)); [split; reflexivity|].
  destruct (negb (legacy_fclose_rc env =? 0)%Z); [split; reflexivity|].
  destruct (negb (legacy_rename_rc env =? 0)%Z); split; reflexivity.
Qed.

(** X10: After an import that ran to its end, the legacy file is gone from its
    path and kept as the backup, so a second run, whatever the system does
    then, finds nothing, succeeds without a system call on the file and
    leaves the model as the first run made it. *)
Theorem read_legacy_config_second_run
  (content : string) (backup : option string) (conf : config)
  (later : legacy_environment) :
  let env := {| legacy_fopen_ok := true;
                legacy_fclose_rc := 0;
                legacy_rename_rc := 0 |} in
  let fs := {| legacy_path := Some content; backup_path := backup |} in
  (let first := read_legacy_dhcp_static_config env fs conf in
   let second :=
     read_legacy_dhcp_static_config later (legacy_after first)
       (config_after first) in
   imported first = true
   /\ legacy_after first
      = {| legacy_path := None; backup_path := Some content |}
   /\ imported second = true
   /\ config_after second = config_after first
   /\ legacy_after second = legacy_after first
   /\ legacy_trace second = [])
  /\ (let first := read_legacy_cnames_config env fs conf in
      let second :=
        read_legacy_cnames_config later (legacy_after first)
          (config_after first) in
      imported first = true
      /\ legacy_after first
         = {| legacy_path := None; backup_path := Some content |}
      /\ imported second = true
      /\ config_after second = config_after first
      /\ legacy_after second = legacy_after first
      /\ legacy_trace second = []).
Proof. cbv zeta. repeat split. Qed.

(** X11: When the legacy file cannot be moved to its backup, the importer still
    returns success and the file stays; a second run then reads it again and
    enters every entry a second time. *)
Theorem read_legacy_config_rename_failure
  (content : string) (backup : option string) (conf : config)
  (rename_rc : Z) :
  rename_rc <> 0%Z ->
  let env := {| legacy_fopen_ok := true;
                legacy_fclose_rc := 0;
                legacy_rename_rc := rename_rc |} in
  let fs := {| legacy_path := Some content; backup_path := backup |} in
  (let first := read_legacy_dhcp_static_config env fs conf in
   let second :=
     read_legacy_dhcp_static_config env (legacy_after first)
       (config_after first) in
   let entries :=
     List.map legacy_entry
       (List.filter (contains "dhcp-host=") (getlines content)) in
   imported first = true
   /\ legacy_after first = fs
   /\ In (Log LOG_WARN "Unable to move %s to %s: %s") (legacy_trace first)
   /\ dhcp_hosts (dhcp (dnsmasq (config_after second)))
      = (dhcp_hosts (dhcp (dnsmasq conf)) ++ entries ++ entries)%list)
  /\ (let first := read_legacy_cnames_config env fs conf in
      let second :=
        read_legacy_cnames_config env (legacy_after first)
          (config_after first) in
      let entries :=
        List.map legacy_entry
          (List.filter (contains "cname=") (getlines content)) in
      imported first = true
      /\ legacy_after first = fs
      /\ In (Log LOG_WARN "Unable to move %s to %s: %s") (legacy_trace first)
      /\ cnames (dnsmasq (config_after second))
         = (cnames (dnsmasq conf) ++ entries ++ entries)%list).
Proof.
  intros Hrename. apply Z.eqb_neq in Hrename. cbv zeta.
  unfold read_legacy_dhcp_static_config, read_legacy_cnames_config,
    read_legacy_config.
  cbn [legacy_path legacy_fopen_ok legacy_fclose_rc legacy_rename_rc negb
         Z.eqb].
  rewrite Hrename.
  cbn [negb imported legacy_after config_after legacy_trace legacy_path
         set_dhcp_hosts set_cnames dnsmasq dhcp dhcp_hosts cnames].
  rewrite !legacy_loop_entries, <- !List.app_assoc.
  repeat split; cbn; tauto.
Qed.

(** A lease file that cannot be moved away. *)
Lemma read_legacy_config_rename_failure_witness :
  let env := {| legacy_fopen_ok := true; legacy_fclose_rc := 0;
                legacy_rename_rc := (-1) |} in
  let fs := {| legacy_path := Some ("dhcp-host=aa:bb:cc:dd:ee:ff,host2" ++ nl);
               backup_path := None |} in
  dhcp_hosts
    (dhcp (dnsmasq (config_after
       (read_legacy_dhcp_static_config env
          (legacy_after (read_legacy_dhcp_static_config env fs sample_config))
          (config_after (read_legacy_dhcp_static_config env fs sample_config))))))
  = [ cJSON_String "aa:bb:cc:dd:ee:ff,host1";
      cJSON_String "aa:bb:cc:dd:ee:ff,host2";
      cJSON_String "aa:bb:cc:dd:ee:ff,host2" ].
Proof.
  exact (proj2 (proj2 (proj2 (proj1
           (read_legacy_config_rename_failure
              ("dhcp-host=aa:bb:cc:dd:ee:ff,host2" ++ nl) None sample_config
              (-1) ltac:(discriminate)))))).
Defined.

(** What an importer leaves in the model depends on the file and on whether
    it could be opened; what it returns depends on the close as well, and on
    nothing in the model. *)
Lemma read_legacy_config_outcome
  (marker open_error : string)
  (get : config -> json_array) (set : json_array -> config -> config)
  (env : legacy_environment) (fs : legacy_files) (conf : config) :
  config_after (read_legacy_config marker open_error get set env fs conf)
  = match legacy_path fs with
    | None => conf
    | Some content =>
        if legacy_fopen_ok env
        then set (legacy_loop marker (getlines content) (get conf)) conf
        else conf
    end
  /\ imported (read_legacy_config marker open_error get set env fs conf)
     = match legacy_path fs with
       | None => true
       | Some _ => legacy_fopen_ok env && (legacy_fclose_rc env =? 0)%Z
       end.
Proof.
  unfold read_legacy_config.
  destruct (legacy_path fs); [|split; reflexivity].
  destruct (legacy_fopen_ok env); [|split; reflexivity].
  destruct (legacy_fclose_rc env =? 0)%Z; [|split; reflexivity].
  destruct (legacy_rename_rc env =? 0)%Z; split; reflexivity.
Qed.

(** X12: The two importers do not interfere: neither changes the list of the
    other, and running them in either order, each on its own file and with
    its own results of the system calls, leaves the same model. *)
Theorem read_legacy_config_independent
  (env_leases env_cnames : legacy_environment)
  (fs_leases fs_cnames : legacy_files) (conf : config) :
  let leases := read_legacy_dhcp_static_config env_leases fs_leases in
  let names := read_legacy_cnames_config env_cnames fs_cnames in
  cnames (dnsmasq (config_after (leases conf))) = cnames (dnsmasq conf)
  /\ dhcp_hosts (dhcp (dnsmasq (config_after (names conf))))
     = dhcp_hosts (dhcp (dnsmasq conf))
  /\ config_after (names (config_after (leases conf)))
     = config_after (leases (config_after (names conf)))
  /\ imported (names (config_after (leases conf))) = imported (names conf)
  /\ imported (leases (config_after (names conf))) = imported (leases conf).
Proof.
  cbv zeta.
  unfold read_legacy_dhcp_static_config, read_legacy_cnames_config.
  repeat match goal with
    | |- context [config_after (read_legacy_config ?m ?e ?g ?s ?env ?fs ?c)] =>
        rewrite (proj1 (read_legacy_config_outcome m e g s env fs c))
    | |- context [imported (read_legacy_config ?m ?e ?g ?s ?env ?fs ?c)] =>
        rewrite (proj2 (read_legacy_config_outcome m e g s env fs c))
    end.
  destruct (legacy_path fs_leases), (legacy_path fs_cnames),
    (legacy_fopen_ok env_leases), (legacy_fopen_ok env_cnames);
    repeat split.
Qed.

Lemma skip_space_of_space (ws : string) :
  all_space ws = true -> skip_space ws = EmptyString.
Proof.
  induction ws as [|c ws IH]; intros H; [reflexivity|].
  cbn [all_space] in H. apply andb_true_iff in H as [Hc Hws].
  cbn [skip_space]. rewrite Hc. exact (IH Hws).
Qed.

Lemma trim_trailing_of_space (ws : string) :
  all_space ws = true -> trim_trailing ws = EmptyString.
Proof.
  induction ws as [|c ws IH]; intros H; [reflexivity|].
  cbn [all_space] in H. apply andb_true_iff in H as [Hc Hws].
  cbn [trim_trailing]. now rewrite (IH Hws), Hc.
Qed.

Lemma trim_trailing_app_space (s ws : string) :
  all_space ws = true -> trim_trailing (s ++ ws) = trim_trailing s.
Proof.
  intros H. induction s as [|c s IH].
  - cbn [append]. now rewrite trim_trailing_of_space.
  - cbn [append trim_trailing]. now rewrite IH.
Qed.

(** White space after a value does not show in the trimmed value. *)
Lemma trim_whitespace_app_space (s ws : string) :
  all_space ws = true -> trim_whitespace (s ++ ws) = trim_whitespace s.
Proof.
  intros H. unfold trim_whitespace. induction s as [|c s IH].
  - cbn [append]. now rewrite skip_space_of_space.
  - cbn [append skip_space]. destruct (isspace c); [exact IH|].
    exact (trim_trailing_app_space (String c s) ws H).
Qed.

(** What the importer makes of a line [key=value] whose key holds no [=]:
    the value, when it has no white space around it. *)
Lemma legacy_entry_of_line (key value : string) :
  occurs_char "="%char key = false ->
  trimmed value = true ->
  contains (key ++ "=") ((key ++ "=" ++ value) ++ nl) = true
  /\ legacy_entry ((key ++ "=" ++ value) ++ nl) = cJSON_String value.
Proof.
  intros Hkey Htrim. apply String.eqb_eq in Htrim. split.
  - apply contains_iff. exists EmptyString, (value ++ nl).
    cbn [append]. now rewrite !append_assoc.
  - unfold legacy_entry, cJSON_CreateString.
    rewrite !append_assoc, (find_equals_first key (value ++ nl) Hkey).
    now rewrite trim_whitespace_app_space, Htrim.
Qed.

Lemma single_line_key_values (key : string) (values : list string) :
  single_line key = true ->
  List.forallb single_line values = true ->
  List.forallb single_line
    (List.map (fun v => key ++ "=" ++ v) values) = true.
Proof.
  intros Hkey. induction values as [|v values IH]; intros H; [reflexivity|].
  cbn [List.forallb List.map] in *. apply andb_true_iff in H as [Hv Hvs].
  rewrite !single_line_app, Hkey, Hv, (IH Hvs). reflexivity.
Qed.

(** The entries the loop adds for a file that holds one line [key=value] per
    value. *)
Lemma legacy_loop_key_values (key : string) (values : list string)
  (array : json_array) :
  occurs_char "="%char key = false ->
  single_line key = true ->
  List.forallb single_line values = true ->
  List.forallb trimmed values = true ->
  legacy_loop (key ++ "=")
    (getlines (unlines (List.map (fun v => key ++ "=" ++ v) values))) array
  = (array ++ List.map cJSON_String values)%list.
Proof.
  intros Hkey Hline Hsingle Htrimmed.
  rewrite getlines_unlines by now apply single_line_key_values.
  rewrite legacy_loop_entries. f_equal. clear Hsingle.
  induction values as [|v values IH]; [reflexivity|].
  cbn [List.forallb] in Htrimmed.
  apply andb_true_iff in Htrimmed as [Hv Hvs].
  destruct (legacy_entry_of_line key v Hkey Hv) as [Hcontains Hentry].
  cbn [List.map List.filter]. rewrite Hcontains. cbn [List.map].
  now rewrite Hentry, (IH Hvs).
Qed.

Lemma string_items_app (a b : json_array) :
  string_items (a ++ b)%list = (string_items a ++ string_items b)%list.
Proof. unfold string_items. apply List.flat_map_app. Qed.

Lemma string_items_strings (values : list string) :
  string_items (List.map cJSON_String values) = values.
Proof.
  unfold string_items. induction values as [|v values IH]; [reflexivity|].
  cbn [List.map List.flat_map List.app]. now rewrite IH.
Qed.

Lemma single_line_items_app (array : json_array) (values : list string) :
  single_line_items array = true ->
  List.forallb single_line values = true ->
  single_line_items (array ++ List.map cJSON_String values)%list = true.
Proof.
  unfold single_line_items. intros Ha Hv.
  now rewrite string_items_app, string_items_strings, List.forallb_app, Ha, Hv.
Qed.

(** X13: Import, then render, for a model whose strings hold no newline: a
    legacy file that holds one line [dhcp-host=v] (or [cname=v]) for each of
    the given values, none with a newline or white space around it, comes
    out of the writer line by line.  The [dhcp-host=] lines of the render of
    the model after the import are those it had before followed by the
    lines of the legacy file, provided the DHCP block is enabled; the same
    goes for the [cname=] lines, unconditionally. *)
Theorem legacy_lines_rendered
  (env : environment) (conf : config) (values : list string)
  (backup : option string) (results : legacy_environment) :
  single_line_config env conf = true ->
  List.forallb single_line values = true ->
  List.forallb trimmed values = true ->
  legacy_fopen_ok results = true ->
  (let content := unlines (List.map (fun v => "dhcp-host" ++ "=" ++ v) values) in
   let fs := {| legacy_path := Some content; backup_path := backup |} in
   let conf' :=
     config_after (read_legacy_dhcp_static_config results fs conf) in
   dhcp_active (dhcp (dnsmasq conf)) = true ->
   List.filter is_dhcp_host_line (lines (config_text env conf'))
   = (List.filter is_dhcp_host_line (lines (config_text env conf))
      ++ lines content)%list)
  /\ (let content := unlines (List.map (fun v => "cname" ++ "=" ++ v) values) in
      let fs := {| legacy_path := Some content; backup_path := backup |} in
      let conf' := config_after (read_legacy_cnames_config results fs conf) in
      List.filter is_cname_line (lines (config_text env conf'))
      = (List.filter is_cname_line (lines (config_text env conf))
         ++ lines content)%list).
Proof.
  intros Hconf Hsingle Htrimmed Hopen. cbv zeta.
  pose proof Hconf as Hparts. unfold single_line_config in Hparts.
  cbv zeta in Hparts. split_andb.
  split; [intros Hactive|].
  - set (conf' :=
           set_dhcp_hosts
             (dhcp_hosts (dhcp (dnsmasq conf))
              ++ List.map cJSON_String values)%list
             conf).
    assert (config_after
              (read_legacy_dhcp_static_config results
                 {| legacy_path :=
                      Some (unlines
                              (List.map (fun v => "dhcp-host" ++ "=" ++ v)
                                 values));
                    backup_path := backup |} conf) = conf') as ->.
    { unfold read_legacy_dhcp_static_config, read_legacy_config.
      cbn [legacy_path]. rewrite Hopen. cbn [negb].
      rewrite (legacy_loop_key_values "dhcp-host" values _ eq_refl eq_refl
                 Hsingle Htrimmed).
      destruct (negb (legacy_fclose_rc results =? 0)%Z);
        [|destruct (negb (legacy_rename_rc results =? 0)%Z)]; reflexivity. }
    assert (single_line_config env conf' = true) as Hconf'.
    { unfold single_line_config, conf'.
      cbn [set_dhcp_hosts dnsmasq dhcp dhcp_hosts files_log_dnsmasq domain
             host_record interface rev_server upstreams cnames dhcp_start
             dhcp_end dhcp_leasetime dhcp_router].
      rewrite single_line_items_app by assumption.
      repeat (apply andb_true_iff; split); assumption || reflexivity. }
    rewrite (lines_config_text env conf' Hconf'),
      (lines_config_text env conf Hconf), !dhcp_host_records.
    unfold conf'.
    cbn [set_dhcp_hosts dnsmasq dhcp dhcp_hosts dhcp_active].
    rewrite Hactive, string_items_app, string_items_strings, List.map_app.
    rewrite lines_unlines
      by (exact (single_line_key_values "dhcp-host" values eq_refl Hsingle)).
    reflexivity.
  - set (conf' :=
           set_cnames
             (cnames (dnsmasq conf) ++ List.map cJSON_String values)%list
             conf).
    assert (config_after
              (read_legacy_cnames_config results
                 {| legacy_path :=
                      Some (unlines
                              (List.map (fun v => "cname" ++ "=" ++ v) values));
                    backup_path := backup |} conf) = conf') as ->.
    { unfold read_legacy_cnames_config, read_legacy_config.
      cbn [legacy_path]. rewrite Hopen. cbn [negb].
      rewrite (legacy_loop_key_values "cname" values _ eq_refl eq_refl
                 Hsingle Htrimmed).
      destruct (negb (legacy_fclose_rc results =? 0)%Z);
        [|destruct (negb (legacy_rename_rc results =? 0)%Z)]; reflexivity. }
    assert (single_line_config env conf' = true) as Hconf'.
    { unfold single_line_config, conf'.
      cbn [set_cnames dnsmasq dhcp dhcp_hosts files_log_dnsmasq domain
             host_record interface rev_server upstreams cnames dhcp_start
             dhcp_end dhcp_leasetime dhcp_router].
      rewrite single_line_items_app by assumption.
      repeat (apply andb_true_iff; split); assumption || reflexivity. }
    rewrite (lines_config_text env conf' Hconf'),
      (lines_config_text env conf Hconf), !cname_records.
    unfold conf'. cbn [set_cnames dnsmasq cnames].
    rewrite string_items_app, string_items_strings, List.map_app.
    rewrite lines_unlines
      by (exact (single_line_key_values "cname" values eq_refl Hsingle)).
    reflexivity.
Qed.

(** A line of the new file from the sample model on. *)
Lemma legacy_lines_rendered_witness :
  List.filter is_cname_line
    (lines
       (config_text sample_environment
          (config_after
             (read_legacy_cnames_config
                {| legacy_fopen_ok := true; legacy_fclose_rc := 0;
                   legacy_rename_rc := 0 |}
                {| legacy_path :=
                     Some (unlines
                             (List.map (fun v => "cname" ++ "=" ++ v)
                                [ "a.lan,b.lan" ]));
                   backup_path := None |}
                sample_config))))
  = [ "cname=www.lan,server.lan"; "cname=a.lan,b.lan" ].
Proof.
  exact (proj2
           (legacy_lines_rendered sample_environment sample_config
              [ "a.lan,b.lan" ] None
              {| legacy_fopen_ok := true; legacy_fclose_rc := 0;
                 legacy_rename_rc := 0 |}
              eq_refl eq_refl eq_refl eq_refl)).
Defined.

(* ================================================================= *)
(** * Further properties of the rendered text *)

(** Removes from a goal about a filtered render the blocks that hold no
    record the filter passes. *)
Ltac drop_blocks f env conf :=
  try no_records f (write_config_header env);
  try no_records f (static_section env conf);
  try no_array_records f (upstream_section conf);
  try no_records f (cache_section conf);
  try no_logging_records f conf;
  try no_records f (log_facility_section conf);
  try no_records f (flags_section conf);
  try no_records f (domain_section conf);
  try no_records f (host_record_section conf);
  try no_listening_records f conf;
  try no_records f (rev_server_section conf);
  try no_dhcp_records f conf;
  try no_array_records f (cnames_section conf);
  try no_records f rfc6761_section;
  try no_records f (conf_dir_section env);
  cbn [List.app]; rewrite ?List.app_nil_r.

Lemma flag_records (env : environment) (conf : config) :
  List.filter is_flag_line (config_records env conf)
  = List.concat
      [ if bogus_priv (dnsmasq conf) then [ "bogus-priv" ] else [];
        if domain_needed (dnsmasq conf) then [ "domain-needed" ] else [];
        if expand_hosts (dnsmasq conf) then [ "expand-hosts" ] else [];
        if dnssec (dnsmasq conf)
        then [ "dnssec";
               "trust-anchor=.,20326,8,2,E06D44B80B8F1D39A95C0B0D7C65D08458E880409BBC683457104237C7F8EC8D" ]
        else [] ].
Proof.
  unfold config_records. rewrite filter_blocks. cbn [List.map List.concat].
  drop_blocks is_flag_line env conf.
  unfold flags_section.
  destruct (bogus_priv (dnsmasq conf)), (domain_needed (dnsmasq conf)),
    (expand_hosts (dnsmasq conf)), (dnssec (dnsmasq conf)); reflexivity.
Qed.

Lemma is_domain_line_domain (name : string) :
  is_domain_line ("domain=" ++ name) = true.
Proof. unfold is_domain_line. now rewrite (prefix_append "domain=" name). Qed.

Lemma is_domain_line_local (rest : string) :
  is_domain_line ("local=/" ++ rest) = true.
Proof.
  unfold is_domain_line. rewrite (prefix_append "local=/" rest).
  apply orb_true_r.
Qed.

Lemma domain_records (env : environment) (conf : config) :
  List.filter is_domain_line (config_records env conf)
  = let name := domain (dnsmasq conf) in
    if negb (String.eqb name EmptyString)
       && negb (String.eqb (strlower name) "none")
    then List.concat
           [ [ "domain=" ++ name ];
             if domain_needed (dnsmasq conf)
             then [ "local=/" ++ name ++ "/" ]
             else [] ]
    else [].
Proof.
  unfold config_records. rewrite filter_blocks. cbn [List.map List.concat].
  drop_blocks is_domain_line env conf.
  unfold domain_section, strcasecmp. cbv zeta.
  change (strlower "none") with "none".
  rewrite (String.eqb_sym "none").
  replace (0 <? strlen (domain (dnsmasq conf)))%nat
    with (negb (String.eqb (domain (dnsmasq conf)) EmptyString))
    by now destruct (domain (dnsmasq conf)).
  destruct (String.eqb (domain (dnsmasq conf)) EmptyString);
    [reflexivity|].
  destruct (String.eqb (strlower (domain (dnsmasq conf))) "none");
    [reflexivity|].
  cbn [negb andb Z.eqb when]. rewrite filter_blocks.
  destruct (domain_needed (dnsmasq conf));
    cbn [when List.map List.concat List.filter List.app];
    rewrite ?is_domain_line_domain, ?is_domain_line_local; reflexivity.
Qed.

Lemma is_scalar_line_port (value : string) :
  is_scalar_line ("port=" ++ value) = true.
Proof. unfold is_scalar_line. now rewrite (prefix_append "port=" value). Qed.

Lemma is_scalar_line_cache_size (value : string) :
  is_scalar_line ("cache-size=" ++ value) = true.
Proof.
  unfold is_scalar_line. rewrite (prefix_append "cache-size=" value).
  now rewrite orb_true_r.
Qed.

Lemma is_scalar_line_log_facility (value : string) :
  is_scalar_line ("log-facility=" ++ value) = true.
Proof.
  unfold is_scalar_line. rewrite (prefix_append "log-facility=" value).
  now rewrite orb_true_r.
Qed.

Lemma scalar_records (env : environment) (conf : config) :
  List.filter is_scalar_line (config_records env conf)
  = List.concat
      [ [ "port=" ++ print_unsigned (port (dnsmasq conf));
          "cache-size=" ++ print_unsigned (cache_size (dnsmasq conf)) ];
        if String.eqb (files_log_dnsmasq conf) EmptyString
        then []
        else [ "log-facility=" ++ files_log_dnsmasq conf ] ].
Proof.
  unfold config_records. rewrite filter_blocks. cbn [List.map List.concat].
  drop_blocks is_scalar_line env conf.
  unfold static_section, cache_section, log_facility_section.
  generalize (print_unsigned (port (dnsmasq conf))) as p.
  generalize (print_unsigned (cache_size (dnsmasq conf))) as c.
  intros c p.
  destruct (files_log_dnsmasq conf) as [|x path], p, c; reflexivity.
Qed.

Lemma dhcp_records (env : environment) (conf : config) :
  List.filter is_dhcp_line (config_records env conf)
  = let d := dhcp (dnsmasq conf) in
    if dhcp_active d then
      List.concat
        [ [ "dhcp-authoritative";
            "dhcp-leasefile=/etc/pihole/dhcp.leases";
            "dhcp-range=" ++ dhcp_start d ++ "," ++ dhcp_end d ++ ","
              ++ dhcp_leasetime d;
            "dhcp-option=option:router," ++ dhcp_router d ];
          if dhcp_rapid_commit d then [ "dhcp-rapid-commit" ] else [];
          if dhcp_ipv6 d
          then [ "dhcp-option=option6:dns-server,[::]";
                 "dhcp-range=::,constructor:" ++ fallback_interface conf
                   ++ ",ra-names,ra-stateless,64" ]
          else [];
          List.map (String.append "dhcp-host=") (string_items (dhcp_hosts d)) ]
    else [].
Proof.
  unfold config_records. rewrite filter_blocks. cbn [List.map List.concat].
  drop_blocks is_dhcp_line env conf.
  unfold dhcp_section. cbv zeta.
  destruct (dhcp_active (dhcp (dnsmasq conf))); [|reflexivity].
  cbn [when]. rewrite filter_blocks. cbn [List.map List.concat].
  rewrite filter_array_block by reflexivity.
  rewrite filter_map_all by reflexivity.
  destruct (dhcp_rapid_commit (dhcp (dnsmasq conf))),
    (dhcp_ipv6 (dhcp (dnsmasq conf)));
    cbn [when List.concat]; rewrite ?List.app_nil_r; reflexivity.
Qed.

(** X14: The four flags and their directives: in the render of a model whose
    strings hold no newline, [bogus-priv], [domain-needed], [expand-hosts]
    and [dnssec] with its trust anchor appear exactly when their flag is set,
    once each and in this order, and a flag that is not set leaves no
    directive. *)
Theorem flag_directive_lines (env : environment) (conf : config) :
  single_line_config env conf = true ->
  List.filter is_flag_line (lines (config_text env conf))
  = List.concat
      [ if bogus_priv (dnsmasq conf) then [ "bogus-priv" ] else [];
        if domain_needed (dnsmasq conf) then [ "domain-needed" ] else [];
        if expand_hosts (dnsmasq conf) then [ "expand-hosts" ] else [];
        if dnssec (dnsmasq conf)
        then [ "dnssec";
               "trust-anchor=.,20326,8,2,E06D44B80B8F1D39A95C0B0D7C65D08458E880409BBC683457104237C7F8EC8D" ]
        else [] ].
Proof.
  intros H. rewrite (lines_config_text env conf H). apply flag_records.
Qed.

Lemma flag_directive_lines_witness :
  List.filter is_flag_line
    (lines (config_text sample_environment sample_dhcp_config))
  = [ "domain-needed"; "expand-hosts" ].
Proof.
  exact (flag_directive_lines sample_environment sample_dhcp_config eq_refl).
Defined.

(** X15: The domain block: in the render of a model whose strings hold no newline,
    a [domain=] line is written exactly when the configured domain is not
    empty and is not "none" in any mix of upper and lower case; the line
    [local=/<domain>/] follows it exactly when, in addition, the flag
    domain-needed is set.  No other line of the render starts with [domain=]
    or [local=/]. *)
Theorem domain_directive_lines (env : environment) (conf : config) :
  single_line_config env conf = true ->
  let name := domain (dnsmasq conf) in
  List.filter is_domain_line (lines (config_text env conf))
  = if negb (String.eqb name EmptyString)
       && negb (String.eqb (strlower name) "none")
    then List.concat
           [ [ "domain=" ++ name ];
             if domain_needed (dnsmasq conf)
             then [ "local=/" ++ name ++ "/" ]
             else [] ]
    else [].
Proof.
  intros H. rewrite (lines_config_text env conf H). apply domain_records.
Qed.

Lemma domain_directive_lines_witness :
  List.filter is_domain_line
    (lines (config_text sample_environment sample_dhcp_config))
  = [ "domain=home.arpa"; "local=/home.arpa/" ].
Proof.
  exact (domain_directive_lines sample_environment sample_dhcp_config eq_refl).
Defined.

(** X16: Port, cache size and log file: in the render of a model whose strings
    hold no newline there is exactly one [port=] line and one [cache-size=]
    line, with the numbers in decimal, followed by one [log-facility=] line
    exactly when a log file is configured.  The lines are the same whether
    query logging is on or off. *)
Theorem scalar_directive_lines
  (env : environment) (conf : config) (log_queries : bool) :
  single_line_config env conf = true ->
  List.filter is_scalar_line
    (lines (config_text env (set_logging log_queries conf)))
  = List.concat
      [ [ "port=" ++ print_unsigned (port (dnsmasq conf));
          "cache-size=" ++ print_unsigned (cache_size (dnsmasq conf)) ];
        if String.eqb (files_log_dnsmasq conf) EmptyString
        then []
        else [ "log-facility=" ++ files_log_dnsmasq conf ] ].
Proof.
  intros H.
  rewrite (lines_config_text env (set_logging log_queries conf) H).
  apply (scalar_records env (set_logging log_queries conf)).
Qed.

Lemma scalar_directive_lines_witness :
  List.filter is_scalar_line
    (lines (config_text sample_environment (set_logging false sample_config)))
  = [ "port=53"; "cache-size=10000";
      "log-facility=/var/log/pihole/pihole.log" ].
Proof.
  exact (scalar_directive_lines sample_environment sample_config false
           eq_refl).
Defined.

(** X17: The DHCP block: in the render of a model whose strings hold no newline,
    no line starts with [dhcp-] when the DHCP server is disabled.  When it is
    enabled the lines that do are, in order: the authoritative flag, the
    lease file, the range, the router option, the rapid-commit flag if set,
    the two IPv6 lines if IPv6 is set (the range built on the listening
    interface, ["eth0"] when none is named), and one [dhcp-host=] line for
    each string of the host list. *)
Theorem dhcp_directive_lines (env : environment) (conf : config) :
  single_line_config env conf = true ->
  let d := dhcp (dnsmasq conf) in
  let name :=
    if String.eqb (interface (dnsmasq conf)) EmptyString
    then "eth0"
    else interface (dnsmasq conf) in
  List.filter is_dhcp_line (lines (config_text env conf))
  = if dhcp_active d then
      List.concat
        [ [ "dhcp-authoritative";
            "dhcp-leasefile=/etc/pihole/dhcp.leases";
            "dhcp-range=" ++ dhcp_start d ++ "," ++ dhcp_end d ++ ","
              ++ dhcp_leasetime d;
            "dhcp-option=option:router," ++ dhcp_router d ];
          if dhcp_rapid_commit d then [ "dhcp-rapid-commit" ] else [];
          if dhcp_ipv6 d
          then [ "dhcp-option=option6:dns-server,[::]";
                 "dhcp-range=::,constructor:" ++ name
                   ++ ",ra-names,ra-stateless,64" ]
          else [];
          List.map (String.append "dhcp-host=") (string_items (dhcp_hosts d)) ]
    else [].
Proof.
  intros H. cbv zeta.
  rewrite (lines_config_text env conf H), dhcp_records, fallback_interface_eq.
  reflexivity.
Qed.

Lemma dhcp_directive_lines_witness :
  List.filter is_dhcp_line
    (lines (config_text sample_environment sample_dhcp_config))
  = [ "dhcp-authoritative";
      "dhcp-leasefile=/etc/pihole/dhcp.leases";
      "dhcp-range=10.0.0.10,10.0.0.99,1h";
      "dhcp-option=option:router,10.0.0.1";
      "dhcp-rapid-commit";
      "dhcp-option=option6:dns-server,[::]";
      "dhcp-range=::,constructor:br0,ra-names,ra-stateless,64";
      "dhcp-host=aa:bb:cc:dd:ee:ff,10.0.0.5" ].
Proof.
  exact (dhcp_directive_lines sample_environment sample_dhcp_config eq_refl).
Defined.

(* ================================================================= *)
(** * The diagnostic buffer *)

Lemma plain_text_no_nul (s : list ascii) : plain_text s = true -> no_nul s = true.
Proof.
  induction s as [|c s IH]; [reflexivity|]. cbn [plain_text no_nul].
  intros H. apply andb_true_iff in H as [H Hs].
  apply andb_true_iff in H as [Hc _]. now rewrite Hc, IH.
Qed.

Lemma plain_text_app (a b : list ascii) :
  plain_text (a ++ b) = plain_text a && plain_text b.
Proof.
  induction a as [|c a IH]; [reflexivity|].
  cbn [List.app plain_text]. rewrite IH. now rewrite !andb_assoc.
Qed.

Lemma no_nul_app (a b : list ascii) :
  no_nul (a ++ b) = no_nul a && no_nul b.
Proof.
  induction a as [|c a IH]; [reflexivity|].
  cbn [List.app no_nul]. rewrite IH. now rewrite !andb_assoc.
Qed.

Lemma array_strlen_no_nul (s : list ascii) :
  no_nul s = true -> array_strlen s = None.
Proof.
  induction s as [|c s IH]; [reflexivity|]. cbn [no_nul array_strlen].
  intros H. apply andb_true_iff in H as [Hc Hs].
  apply negb_true_iff in Hc. now rewrite Hc, IH.
Qed.

Lemma array_strlen_text (s tail : list ascii) :
  no_nul s = true ->
  array_strlen (s ++ NUL :: tail) = Some (List.length s).
Proof.
  induction s as [|c s IH]; [reflexivity|]. cbn [no_nul].
  intros H. apply andb_true_iff in H as [Hc Hs].
  apply negb_true_iff in Hc.
  cbn [List.app array_strlen List.length]. now rewrite Hc, IH.
Qed.

Lemma array_text_text (s tail : list ascii) :
  no_nul s = true ->
  array_text (s ++ NUL :: tail) = string_of_list_ascii s.
Proof.
  induction s as [|c s IH]; [reflexivity|]. cbn [no_nul].
  intros H. apply andb_true_iff in H as [Hc Hs].
  apply negb_true_iff in Hc.
  cbn [List.app array_text string_of_list_ascii]. now rewrite Hc, IH.
Qed.

Lemma skipn_zeroed (k size : nat) :
  List.skipn k (zeroed size) = zeroed (size - k).
Proof.
  unfold zeroed. revert k. induction size as [|size IH]; intros k.
  - now destruct k.
  - destruct k; [reflexivity|]. cbn [List.repeat List.skipn]. apply IH.
Qed.

(** A text that ends in a newline, followed by a NUL: the newline is
    replaced. *)
Lemma strip_newline_at_end (s tail : list ascii) :
  no_nul s = true ->
  strip_newline ((s ++ [LF]) ++ NUL :: tail)%list
  = Some (s ++ NUL :: NUL :: tail)%list.
Proof.
  intros H. unfold strip_newline.
  rewrite array_strlen_text
    by (rewrite no_nul_app, H; reflexivity).
  rewrite List.length_app. cbn [List.length].
  replace (List.length s + 1) with (S (List.length s)) by lia.
  rewrite <- List.app_assoc. cbn [List.app].
  rewrite List.nth_middle. cbn [Ascii.eqb Bool.eqb LF].
  unfold store_nul.
  rewrite List.firstn_app, List.firstn_all, Nat.sub_diag.
  cbn [List.firstn]. rewrite List.app_nil_r.
  replace (S (List.length s)) with (List.length (s ++ [LF])%list)
    by (rewrite List.length_app; cbn; lia).
  replace (s ++ LF :: NUL :: tail)%list
    with ((s ++ [LF]) ++ NUL :: tail)%list
    by (now rewrite <- List.app_assoc).
  rewrite List.skipn_app, List.skipn_all, Nat.sub_diag.
  reflexivity.
Qed.

(** A text that does not end in a newline, followed by a NUL: nothing
    changes. *)
Lemma strip_newline_not_at_end (s tail : list ascii) (c : ascii) :
  no_nul (s ++ [c]) = true ->
  Ascii.eqb c LF = false ->
  strip_newline ((s ++ [c]) ++ NUL :: tail)%list
  = Some ((s ++ [c]) ++ NUL :: tail)%list.
Proof.
  intros H Hc. unfold strip_newline.
  rewrite array_strlen_text by exact H.
  rewrite List.length_app. cbn [List.length].
  replace (List.length s + 1) with (S (List.length s)) by lia.
  rewrite <- List.app_assoc. cbn [List.app].
  now rewrite List.nth_middle, Hc.
Qed.

Lemma no_nul_memmove_down (s : list ascii) :
  no_nul s = true -> no_nul (memmove_down s) = true.
Proof.
  destruct s as [|c s]; [reflexivity|]. cbn [no_nul memmove_down].
  intros H. apply andb_true_iff in H as [Hc Hs].
  rewrite no_nul_app, Hs. cbn [no_nul andb]. rewrite andb_true_r.
  revert c Hc. induction s as [|x s IH]; intros c Hc; [exact Hc|].
  cbn [no_nul] in Hs. apply andb_true_iff in Hs as [Hx Hs].
  destruct s as [|y s]; [exact Hx|]. exact (IH Hs c Hc).
Qed.

Lemma zeroed_succ (size : nat) : zeroed (S size) = NUL :: zeroed size.
Proof. reflexivity. Qed.

Lemma read_into_zeroed (data : list ascii) (size : nat) :
  List.length data < size ->
  read_into (zeroed size) data
  = (data ++ NUL :: zeroed (size - List.length data - 1))%list.
Proof.
  intros H. unfold read_into. rewrite skipn_zeroed. f_equal.
  destruct (size - List.length data) as [|rest] eqn:Hrest; [lia|].
  cbn [Nat.sub]. now rewrite Nat.sub_0_r.
Qed.

Lemma last_zeroed (size : nat) (tail : list ascii) :
  List.last (tail ++ NUL :: zeroed size)%list LF = NUL.
Proof.
  induction tail as [|c tail IH].
  - unfold zeroed. cbn [List.app].
    induction size as [|size IH]; [reflexivity|].
    cbn [List.repeat]. exact IH.
  - cbn [List.app].
    destruct (tail ++ NUL :: zeroed size)%list as [|x l] eqn:E.
    + destruct tail; discriminate E.
    + change (List.last (x :: l) LF = NUL). exact IH.
Qed.

(** X18: One message, one read: when the child's output arrives in one piece that
    ends in a newline, holds no other newline and no NUL, and is shorter
    than a buffer that was all NUL, the buffer then reads as the message
    without its newline.  A newline in front of the message is dropped as
    well. *)
Theorem drain_pipe_single_message (size : nat) (message : list ascii) :
  plain_text message = true ->
  message <> [] ->
  (List.length message + 1 < size ->
   option_map array_text
     (drain_pipe [ (message ++ [LF])%list ] (zeroed size))
   = Some (string_of_list_ascii message))
  /\ (List.length message + 2 < size ->
      option_map array_text
        (drain_pipe [ (LF :: message ++ [LF])%list ] (zeroed size))
      = Some (string_of_list_ascii message)).
Proof.
  intros Hplain Hne.
  pose proof (plain_text_no_nul _ Hplain) as Hnul.
  destruct message as [|c message]; [now elim Hne|].
  assert (Ascii.eqb c LF = false) as Hc.
  { cbn [plain_text] in Hplain.
    apply andb_true_iff in Hplain as [H _].
    apply andb_true_iff in H as [_ H]. now apply negb_true_iff. }
  split; intros Hsize.
  - cbn [drain_pipe]. unfold drain_step.
    rewrite read_into_zeroed
      by (rewrite List.length_app; cbn [List.length] in *; lia).
    cbn [List.app]. rewrite Hc.
    change (c :: (message ++ [LF]) ++ NUL :: ?t)%list
      with (((c :: message) ++ [LF]) ++ NUL :: t)%list.
    rewrite strip_newline_at_end by exact Hnul.
    cbn [option_map]. now rewrite array_text_text.
  - cbn [drain_pipe]. unfold drain_step.
    rewrite read_into_zeroed
      by (cbn [List.length]; rewrite List.length_app;
          cbn [List.length] in *; lia).
    cbn [List.app Ascii.eqb Bool.eqb LF memmove_down].
    set (k := size - List.length (LF :: c :: message ++ [LF])%list - 1).
    replace (List.last (c :: (message ++ [LF]) ++ NUL :: zeroed k)%list LF)
      with NUL
      by (symmetry; apply (last_zeroed k (c :: message ++ [LF])%list)).
    replace (c :: ((message ++ [LF]) ++ NUL :: zeroed k) ++ [NUL])%list
      with (((c :: message) ++ [LF]) ++ NUL :: (zeroed k ++ [NUL]))%list
      by (cbn [List.app]; now rewrite <- !List.app_assoc).
    rewrite strip_newline_at_end by exact Hnul.
    cbn [option_map]. now rewrite array_text_text.
Qed.

(** A complaint of the parser in a buffer of 64 characters. *)
Lemma drain_pipe_single_message_witness :
  option_map array_text
    (drain_pipe
       [ (list_ascii_of_string "bad option at line 3" ++ [LF])%list ]
       (zeroed 64))
  = Some "bad option at line 3".
Proof.
  exact (proj1 (drain_pipe_single_message 64
                  (list_ascii_of_string "bad option at line 3")
                  eq_refl ltac:(discriminate))
           ltac:(cbn; lia)).
Defined.

Lemma plain_text_skipn (k : nat) (s : list ascii) :
  plain_text s = true -> plain_text (List.skipn k s) = true.
Proof.
  intros H. rewrite <- (List.firstn_skipn k s), plain_text_app in H.
  now apply andb_true_iff in H as [_ H].
Qed.

Lemma plain_text_head (c : ascii) (s : list ascii) :
  plain_text (c :: s) = true -> Ascii.eqb c LF = false.
Proof.
  cbn [plain_text]. intros H. apply andb_true_iff in H as [H _].
  apply andb_true_iff in H as [_ H]. now apply negb_true_iff.
Qed.

(** The round of the loop for a message that ends in a newline, read into a
    buffer that was all NUL. *)
Lemma drain_step_message (size : nat) (message : list ascii) :
  plain_text message = true ->
  message <> [] ->
  List.length message + 1 < size ->
  drain_step (zeroed size) (message ++ [LF])%list
  = Some (message ++ NUL :: NUL :: zeroed (size - List.length message - 2))%list.
Proof.
  intros Hplain Hne Hsize.
  pose proof (plain_text_no_nul _ Hplain) as Hnul.
  destruct message as [|c message]; [now elim Hne|].
  pose proof (plain_text_head _ _ Hplain) as Hc.
  unfold drain_step.
  rewrite read_into_zeroed
    by (rewrite List.length_app; cbn [List.length] in *; lia).
  cbn [List.app]. rewrite Hc.
  change (c :: (message ++ [LF]) ++ NUL :: ?t)%list
    with (((c :: message) ++ [LF]) ++ NUL :: t)%list.
  rewrite strip_newline_at_end by exact Hnul.
  cbn [List.length List.app]. rewrite List.length_app.
  cbn [List.length].
  replace (size - S (List.length message + 1) - 1)
    with (size - S (List.length message) - 2) by lia.
  reflexivity.
Qed.

(** X19: The last read does not win: a second, shorter message overwrites
    the start of the first and nothing more.  After two reads of a message
    each, the second shorter than the first by two characters or more, the
    buffer reads as the second message, its newline (which is no longer at
    the end and so is not removed), and what is left of the first message
    behind it. *)
Theorem drain_pipe_keeps_stale_tail (size : nat) (first second : list ascii) :
  plain_text first = true ->
  plain_text second = true ->
  second <> [] ->
  List.length second + 1 < List.length first ->
  List.length first + 1 < size ->
  option_map array_text
    (drain_pipe [ (first ++ [LF])%list; (second ++ [LF])%list ] (zeroed size))
  = Some
      (string_of_list_ascii
         (second ++ LF :: List.skipn (List.length second + 1) first)%list).
Proof.
  intros Hfirst Hsecond Hne Hshorter Hsize.
  assert (first <> []) as Hfirst_ne
      by (intros ->; cbn [List.length] in Hshorter; lia).
  cbn [drain_pipe].
  rewrite (drain_step_message size first Hfirst Hfirst_ne Hsize).
  set (tail := (NUL :: zeroed (size - List.length first - 2))%list).
  unfold drain_step, read_into.
  rewrite List.length_app. cbn [List.length].
  rewrite List.skipn_app.
  replace (List.length second + 1 - List.length first) with 0 by lia.
  cbn [List.skipn].
  pose proof (plain_text_skipn (List.length second + 1) first Hfirst)
    as Hstale.
  assert (List.skipn (List.length second + 1) first <> []) as Hstale_ne.
  { intros E. apply (f_equal (@List.length ascii)) in E.
    rewrite List.length_skipn in E. cbn [List.length] in E. lia. }
  destruct (List.exists_last Hstale_ne) as (init & c & Hlast).
  rewrite Hlast in *.
  rewrite plain_text_app in Hstale.
  apply andb_true_iff in Hstale as [Hinit Hc].
  assert (Ascii.eqb c LF = false) as Hc_lf
      by (exact (plain_text_head c [] Hc)).
  destruct second as [|x second]; [now elim Hne|].
  pose proof (plain_text_head _ _ Hsecond) as Hx.
  cbn [List.app]. rewrite Hx.
  replace (x :: (second ++ [LF]) ++ (init ++ [c]) ++ NUL :: tail)%list
    with ((((x :: second) ++ LF :: init) ++ [c]) ++ NUL :: tail)%list
    by (cbn [List.app]; rewrite <- !List.app_assoc; reflexivity).
  assert (no_nul (((x :: second) ++ LF :: init) ++ [c])%list = true) as Hnul.
  { change (LF :: init)%list with ([LF] ++ init)%list.
    rewrite !no_nul_app.
    rewrite (plain_text_no_nul _ Hsecond), (plain_text_no_nul _ Hinit).
    rewrite (plain_text_no_nul _ Hc). reflexivity. }
  rewrite (strip_newline_not_at_end _ tail c Hnul Hc_lf).
  cbn [option_map]. rewrite (array_text_text _ tail Hnul).
  do 2 f_equal. now rewrite <- List.app_assoc.
Qed.

(** A warning, then a shorter error. *)
Lemma drain_pipe_keeps_stale_tail_witness :
  option_map array_text
    (drain_pipe
       [ (list_ascii_of_string "a long first message" ++ [LF])%list;
         (list_ascii_of_string "short" ++ [LF])%list ]
       (zeroed 32))
  = Some ("short" ++ nl ++ " first message").
Proof.
  exact (drain_pipe_keeps_stale_tail 32
           (list_ascii_of_string "a long first message")
           (list_ascii_of_string "short")
           eq_refl eq_refl ltac:(discriminate) ltac:(cbn; lia)
           ltac:(cbn; lia)).
Defined.

(** X20: Reads outside the buffer.  The loop never ends the text with a NUL after
    a [read]: when a [read] fills the whole buffer with characters other
    than NUL, [strlen] runs past the end of the buffer.  When the text is
    empty (a lone newline read into a buffer that was all NUL, or a read
    that starts with a NUL), the character tested for a newline is the one
    before the buffer.  In each case the behaviour is undefined, whatever is
    read afterwards. *)
Theorem drain_pipe_reads_outside_buffer :
  (forall (errbuf data : list ascii) (later : list (list ascii)),
      data <> [] ->
      List.length data = List.length errbuf ->
      no_nul data = true ->
      drain_pipe (data :: later) errbuf = None)
  /\ (forall (size : nat) (later : list (list ascii)),
         0 < size ->
         drain_pipe ([LF] :: later) (zeroed size) = None)
  /\ (forall (errbuf data : list ascii) (later : list (list ascii)),
         drain_pipe ((NUL :: data) :: later) errbuf = None).
Proof.
  split; [|split].
  - intros errbuf data later Hne Hlen Hnul.
    cbn [drain_pipe]. unfold drain_step, read_into.
    rewrite Hlen, List.skipn_all, List.app_nil_r.
    destruct data as [|c data]; [now elim Hne|].
    assert (strip_newline
              (if Ascii.eqb c LF then memmove_down (c :: data) else c :: data)
            = None) as ->; [|reflexivity].
    unfold strip_newline. rewrite array_strlen_no_nul; [reflexivity|].
    destruct (Ascii.eqb c LF); [now apply no_nul_memmove_down|exact Hnul].
  - intros size later Hsize.
    destruct size as [|[|size]]; [lia|reflexivity|reflexivity].
  - intros errbuf data later. reflexivity.
Qed.

(** Eight characters read into a buffer of eight. *)
Lemma drain_pipe_reads_outside_buffer_witness :
  drain_pipe [ list_ascii_of_string "12345678" ] (zeroed 8) = None
  /\ drain_pipe [ [LF] ] (zeroed 8) = None.
Proof.
  exact (conj
           (proj1 drain_pipe_reads_outside_buffer (zeroed 8)
              (list_ascii_of_string "12345678") [] ltac:(discriminate)
              eq_refl eq_refl)
           (proj1 (proj2 drain_pipe_reads_outside_buffer) 8 []
              ltac:(lia))).
Defined.

(* ================================================================= *)
(** ** Hosts files, host record, reverse server and configuration directory *)

Lemma source_records (env : environment) (conf : config) :
  List.filter is_source_line (config_records env conf)
  = let rev := rev_server (dnsmasq conf) in
    List.concat
      [ [ "addn-hosts=/etc/pihole/local.list";
          "addn-hosts=" ++ DNSMASQ_CUSTOM_LIST env ];
        if String.eqb (host_record (dnsmasq conf)) EmptyString
        then []
        else [ "host-record=" ++ host_record (dnsmasq conf) ];
        if rev_active rev
        then [ "rev-server=" ++ rev_cidr rev ++ "," ++ rev_target rev ]
        else [];
        if dnsmasq_d_exists env then [ "conf-dir=/etc/dnsmasq.d" ] else [] ].
Proof.
  unfold config_records. rewrite filter_blocks. cbn [List.map List.concat].
  drop_blocks is_source_line env conf.
  unfold static_section, host_record_section, rev_server_section,
    conf_dir_section.
  cbv zeta.
  generalize (print_unsigned (port (dnsmasq conf))) as p. intros p.
  destruct (DNSMASQ_CUSTOM_LIST env) as [|x list],
    (host_record (dnsmasq conf)) as [|y record],
    (rev_active (rev_server (dnsmasq conf))),
    (rev_cidr (rev_server (dnsmasq conf))) as [|z cidr],
    (0 <? strlen (rev_domain (rev_server (dnsmasq conf))))%nat,
    (domain_needed (dnsmasq conf)),
    (dnsmasq_d_exists env), p;
    reflexivity.
Qed.

(** X21: Where records and further configuration come from: in the render of a
    model whose strings hold no newline, the two hosts files are always
    named, the fixed one before the custom one; a [host-record=] line follows
    exactly when the host record is not empty, a [rev-server=] line exactly
    when the reverse server is active, and the [conf-dir=] line exactly when
    the directory /etc/dnsmasq.d exists.  No other line of the render starts
    with one of these four directives. *)
Theorem source_directive_lines (env : environment) (conf : config) :
  single_line_config env conf = true ->
  let rev := rev_server (dnsmasq conf) in
  List.filter is_source_line (lines (config_text env conf))
  = List.concat
      [ [ "addn-hosts=/etc/pihole/local.list";
          "addn-hosts=" ++ DNSMASQ_CUSTOM_LIST env ];
        if String.eqb (host_record (dnsmasq conf)) EmptyString
        then []
        else [ "host-record=" ++ host_record (dnsmasq conf) ];
        if rev_active rev
        then [ "rev-server=" ++ rev_cidr rev ++ "," ++ rev_target rev ]
        else [];
        if dnsmasq_d_exists env then [ "conf-dir=/etc/dnsmasq.d" ] else [] ].
Proof.
  intros H. cbv zeta.
  rewrite (lines_config_text env conf H). apply source_records.
Qed.

Lemma source_directive_lines_witness :
  List.filter is_source_line
    (lines (config_text sample_environment sample_config))
  = [ "addn-hosts=/etc/pihole/local.list";
      "addn-hosts=/etc/pihole/custom.list";
      "rev-server=192.168.0.0/24,192.168.0.1";
      "conf-dir=/etc/dnsmasq.d" ].
Proof.
  exact (source_directive_lines sample_environment sample_config eq_refl).
Defined.
